(** * The ollama client and the AI service: a shallow embedding

    The development follows [src/api/ollamaClient.ts] and
    [src/api/aiService.ts].  JavaScript strings are sequences of UTF-16
    code units, JavaScript values are an inductive type, exceptions are a
    sum type, and every call into the platform ([fetch], timers, the
    logger, the caller's callbacks) is recorded as an event of a trace. *)

From Stdlib Require Import ZArith List Bool Lia String Ascii Floats.
Import ListNotations.
Open Scope Z_scope.
Set Warnings "-register-all".

(** ** JavaScript strings *)

Module JS.

(** A string is its sequence of UTF-16 code units. *)
Definition jsstring := list Z.

(** A string literal of the source (Basic Latin only). *)
Definition lit (s : string) : jsstring :=
  map (fun a => Z.of_N (N_of_ascii a)) (list_ascii_of_string s).

Fixpoint eqs (a b : jsstring) : bool :=
  match a, b with
  | [], [] => true
  | x :: a', y :: b' => (x =? y) && eqs a' b'
  | _, _ => false
  end.

(** [String.prototype.startsWith] *)
Fixpoint startsWith (s prefix : jsstring) : bool :=
  match prefix, s with
  | [], _ => true
  | p :: prefix', c :: s' => (c =? p) && startsWith s' prefix'
  | _ :: _, [] => false
  end.

(** [String.prototype.indexOf] with a string argument; [None] stands for -1. *)
Fixpoint indexOf (s needle : jsstring) : option nat :=
  if startsWith s needle then Some O
  else match s with
       | [] => None
       | _ :: s' => option_map S (indexOf s' needle)
       end.

(** [String.prototype.includes] *)
Definition includes (s needle : jsstring) : bool :=
  match indexOf s needle with Some _ => true | None => false end.

(** [s.slice(0, n)] and [s.slice(n)] for an index [n] inside the string. *)
Definition sliceTo (s : jsstring) (n : nat) : jsstring := firstn n s.
Definition sliceFrom (s : jsstring) (n : nat) : jsstring := skipn n s.

(** WhiteSpace and LineTerminator code points of ECMAScript, the ones
    [String.prototype.trim] removes. *)
Definition isWhiteSpace (c : Z) : bool :=
  ((9 <=? c) && (c <=? 13)) || (c =? 32) || (c =? 160) || (c =? 5760)
  || ((8192 <=? c) && (c <=? 8202)) || (c =? 8232) || (c =? 8233)
  || (c =? 8239) || (c =? 8287) || (c =? 12288) || (c =? 65279).

Fixpoint trimStart (s : jsstring) : jsstring :=
  match s with
  | c :: s' => if isWhiteSpace c then trimStart s' else s
  | [] => []
  end.

Definition trimEnd (s : jsstring) : jsstring := rev (trimStart (rev s)).

(** [String.prototype.trim] *)
Definition trim (s : jsstring) : jsstring := trimEnd (trimStart s).

(** [String.prototype.toLowerCase], one code unit at a time.  The mapping
    is written out for Basic Latin and Latin-1, for U+0130 (which becomes
    [i] followed by U+0307) and for the Kelvin sign: these are the only
    code units whose lower case can contain a Basic Latin letter.  Other
    code units are kept; the platform maps them outside Basic Latin. *)
Definition lowerUnit (c : Z) : jsstring :=
  if (65 <=? c) && (c <=? 90) then [c + 32]
  else if (192 <=? c) && (c <=? 222) && negb (c =? 215) then [c + 32]
  else if c =? 304 then [105; 775]
  else if c =? 8490 then [107]
  else [c].

Definition toLowerCase (s : jsstring) : jsstring := flat_map lowerUnit s.

(** The class [\w] of a regular expression without flags. *)
Definition isWord (c : Z) : bool :=
  ((48 <=? c) && (c <=? 57)) || ((65 <=? c) && (c <=? 90))
  || ((97 <=? c) && (c <=? 122)) || (c =? 95).

End JS.

Import JS.

(** ** AIService.preprocessQuery *)

Module Preprocess.

(** The class [[\w-]]. *)
Definition isWordDash (c : Z) : bool := isWord c || (c =? 45).

(** The automaton of [/^[\w-]+(\.[\w-]+)+$/]: the state says whether the
    scan is at the start of a label or inside one, and whether a dot has
    been passed. *)
Inductive dstate := FirstStart | FirstLabel | NextStart | NextLabel.

Definition dstep (q : dstate) (c : Z) : option dstate :=
  match q with
  | FirstStart => if isWordDash c then Some FirstLabel else None
  | FirstLabel =>
      if isWordDash c then Some FirstLabel
      else if c =? 46 then Some NextStart else None
  | NextStart => if isWordDash c then Some NextLabel else None
  | NextLabel =>
      if isWordDash c then Some NextLabel
      else if c =? 46 then Some NextStart else None
  end.

Fixpoint drun (q : dstate) (s : jsstring) : bool :=
  match s with
  | [] => match q with NextLabel => true | _ => false end
  | c :: s' => match dstep q c with Some q' => drun q' s' | None => false end
  end.

(** [/^[\w-]+(\.[\w-]+)+$/.test(s)] *)
Definition isBareDomain (s : jsstring) : bool := drun FirstStart s.

Definition hasNavigationVerb (s : jsstring) : bool :=
  includes (toLowerCase s) (lit "go to") || includes (toLowerCase s) (lit "navigate").

Definition preprocessQuery (query : jsstring) : jsstring :=
  let processedQuery := trim query in
  let processedQuery :=
    if isBareDomain processedQuery then lit "https://" ++ processedQuery
    else processedQuery in
  let processedQuery :=
    if startsWith processedQuery (lit "http")
       && negb (includes (toLowerCase processedQuery) (lit "go to"))
       && negb (includes (toLowerCase processedQuery) (lit "navigate"))
    then lit "Navigate to " ++ processedQuery
    else processedQuery in
  processedQuery.

End Preprocess.

(** ** JavaScript values, errors and completions *)

Module Value.

(** What [JSON.parse] and [response.json()] produce, and [undefined]. *)
Inductive value :=
| VUndefined
| VNull
| VBool (b : bool)
| VNum (n : float)
| VStr (s : jsstring)
| VArr (items : list value)
| VObj (props : list (jsstring * value)).

(** ToBoolean *)
Definition truthy (v : value) : bool :=
  match v with
  | VUndefined | VNull => false
  | VBool b => b
  | VNum n => negb (PrimFloat.eqb n 0%float || PrimFloat.is_nan n)
  | VStr s => match s with [] => false | _ => true end
  | VArr _ | VObj _ => true
  end.

Fixpoint lookup (props : list (jsstring * value)) (key : jsstring) : option value :=
  match props with
  | [] => None
  | (k, v) :: props' => if eqs k key then Some v else lookup props' key
  end.

(** The errors that reach a [catch] of the source: the two classes the
    client declares, and the errors the platform throws (TypeError,
    SyntaxError, the AbortError of an aborted signal, a failed fetch). *)
Inductive error :=
| OllamaAPIError (message : jsstring) (statusCode : option Z)
| OllamaNetworkError (message : jsstring) (originalError : error)
| PlatformError (name message : jsstring).

Definition message (e : error) : jsstring :=
  match e with
  | OllamaAPIError m _ => m
  | OllamaNetworkError m _ => m
  | PlatformError _ m => m
  end.

(** [e instanceof OllamaAPIError]; OllamaNetworkError extends OllamaAPIError. *)
Definition instanceofOllamaAPIError (e : error) : bool :=
  match e with
  | OllamaAPIError _ _ | OllamaNetworkError _ _ => true
  | PlatformError _ _ => false
  end.

Definition instanceofOllamaNetworkError (e : error) : bool :=
  match e with
  | OllamaNetworkError _ _ => true
  | _ => false
  end.

(** A TypeError of the platform.  The platform words the message itself
    (it names the property and the value at hand); the texts given below
    stand for that wording, and the theorems state the class of such an
    error and where its message goes, never its wording. *)
Definition TypeError (m : string) : error := PlatformError (lit "TypeError") (lit m).
Definition AbortError : error :=
  PlatformError (lit "AbortError") (lit "The operation was aborted.").

(** The outcome of evaluating an expression or a block. *)
Inductive completion (A : Type) :=
| Normal (a : A)
| Throw (e : error).
Arguments Normal {A} a.
Arguments Throw {A} e.

Definition bind {A B} (c : completion A) (k : A -> completion B) : completion B :=
  match c with
  | Normal a => k a
  | Throw e => Throw e
  end.

(** [try { body } catch (error) { handler }] *)
Definition tryCatch {A} (body : completion A) (handler : error -> completion A)
  : completion A :=
  match body with
  | Normal a => Normal a
  | Throw e => handler e
  end.

(** [v.name] for the property names the source reads ([message], [content],
    [action], [parameters], [browser_actions], [error]); no built-in
    prototype defines any of them, so only an object's own keys answer. *)
Definition getProp (v : value) (name : jsstring) : completion value :=
  match v with
  | VUndefined | VNull =>
      Throw (TypeError "Cannot read properties of undefined or null")
  | VObj props =>
      Normal (match lookup props name with Some x => x | None => VUndefined end)
  | _ => Normal VUndefined
  end.

(** [name in v], for the same property names. *)
Definition hasProp (name : jsstring) (v : value) : completion bool :=
  match v with
  | VObj props =>
      Normal (match lookup props name with Some _ => true | None => false end)
  | VArr _ => Normal false
  | _ => Throw (TypeError "Cannot use 'in' operator to search for a key in a primitive")
  end.

End Value.

Import Value.

Declare Scope js_scope.
Notation "x <- c ;; k" := (bind c (fun x => k))
  (at level 61, c at next level, right associativity) : js_scope.
Open Scope js_scope.

(** ** AIService.extractStructuredData and extractToolCalls *)

Module Extract.

(** The result of [response.match(re)]: the whole match and the first
    capture group, [None] when the group took no part in the match. *)
Record regexMatch := { whole : jsstring; group1 : option jsstring }.

(** The index of the last occurrence of a code unit, [None] if absent. *)
Fixpoint lastIndexOfUnit (s : jsstring) (c : Z) : option nat :=
  match s with
  | [] => None
  | x :: s' =>
      match lastIndexOfUnit s' c with
      | Some j => Some (S j)
      | None => if x =? c then Some O else None
      end
  end.

(** The first alternative, tried at the start of [s]: the opening fence,
    then as few code units as possible up to a closing fence. *)
Definition fenceAt (s : jsstring) : option regexMatch :=
  if startsWith s (lit "```json") then
    let rest := sliceFrom s 7 in
    match indexOf rest (lit "```") with
    | Some k => Some {| whole := sliceTo s (7 + k + 3); group1 := Some (sliceTo rest k) |}
    | None => None
    end
  else None.

(** The second alternative, tried at the start of [s]: an opening brace,
    then as many code units as possible up to a closing brace. *)
Definition braceAt (s : jsstring) : option regexMatch :=
  match s with
  | c :: rest =>
      if c =? 123 then
        match lastIndexOfUnit rest 125 with
        | Some j => Some {| whole := c :: sliceTo rest (S j); group1 := None |}
        | None => None
        end
      else None
  | [] => None
  end.

(** [response.match(/```json([\s\S]*?)```|{[\s\S]*}/)]: the leftmost
    position at which one of the alternatives matches, the first
    alternative tried first. *)
Fixpoint matchJson (s : jsstring) : option regexMatch :=
  match fenceAt s with
  | Some m => Some m
  | None =>
      match braceAt s with
      | Some m => Some m
      | None => match s with [] => None | _ :: s' => matchJson s' end
      end
  end.

(** [jsonMatch[1] ? jsonMatch[1].trim() : jsonMatch[0].trim()] *)
Definition jsonStr (m : regexMatch) : jsstring :=
  match group1 m with
  | Some (c :: g) => trim (c :: g)
  | _ => trim (whole m)
  end.

(** The text handed to [JSON.parse], if the expression matches. *)
Definition payload (response : jsstring) : option jsstring :=
  option_map jsonStr (matchJson response).

Section WithParser.

(** [JSON.parse] belongs to the platform. *)
Variable JSON_parse : jsstring -> completion value.

Definition extractStructuredData (response : value) : value :=
  match
    tryCatch
      (match response with
       | VStr text =>
           match matchJson text with
           | Some jsonMatch => JSON_parse (jsonStr jsonMatch)
           | None => Normal VUndefined
           end
       | _ => Throw (TypeError "response.match is not a function")
       end)
      (fun _ => Normal VUndefined)
  with
  | Normal v => v
  | Throw _ => VUndefined
  end.

End WithParser.

Record ToolCall := { name : value; parameters : value }.

Fixpoint mapActions (actions : list value) : completion (list ToolCall) :=
  match actions with
  | [] => Normal []
  | action :: actions' =>
      n <- getProp action (lit "action") ;;
      p <- getProp action (lit "parameters") ;;
      rest <- mapActions actions' ;;
      Normal ({| name := n; parameters := p |} :: rest)
  end.

Definition extractToolCalls (structuredData : value) : completion (option (list ToolCall)) :=
  if truthy structuredData then
    has <- hasProp (lit "browser_actions") structuredData ;;
    if has then
      actions <- getProp structuredData (lit "browser_actions") ;;
      match actions with
      | VArr items => calls <- mapActions items ;; Normal (Some calls)
      | _ => Normal None
      end
    else Normal None
  else Normal None.

(** *** The scanner the specification asks for

    Written from the specification's words, not from the source: the first
    top-level brace-delimited span, found by tracking string-literal state
    and nesting depth. *)

(** [scanSpan depth inString escaped s]: the code units up to and
    including the brace that closes depth [depth]. *)
Fixpoint scanSpan (depth : nat) (inString escaped : bool) (s : jsstring)
  : option jsstring :=
  match s with
  | [] => None
  | c :: s' =>
      if inString then
        if escaped then option_map (cons c) (scanSpan depth true false s')
        else if c =? 92 then option_map (cons c) (scanSpan depth true true s')
        else if c =? 34 then option_map (cons c) (scanSpan depth false false s')
        else option_map (cons c) (scanSpan depth true false s')
      else if c =? 34 then option_map (cons c) (scanSpan depth true false s')
      else if c =? 123 then option_map (cons c) (scanSpan (S depth) false false s')
      else if c =? 125 then
        match depth with
        | O => Some [c]
        | S d => option_map (cons c) (scanSpan d false false s')
        end
      else option_map (cons c) (scanSpan depth false false s')
  end.

Fixpoint firstTopLevelSpan (s : jsstring) : option jsstring :=
  match s with
  | [] => None
  | c :: s' =>
      if c =? 123 then option_map (cons c) (scanSpan 0 false false s')
      else firstTopLevelSpan s'
  end.

End Extract.

(** ** The platform: promises, responses, readers, the text decoder *)

Module Platform.

(** How an awaited promise of the platform behaves.  A rejection carries
    an error of the platform, given by its name and message.  [Pending] is
    a promise that never settles on its own: only an abort of the signal it
    was given ends the wait, by rejecting it with an AbortError. *)
Inductive settle (A : Type) :=
| Resolves (a : A)
| Rejects (name message : jsstring)
| Pending.
Arguments Resolves {A} a.
Arguments Rejects {A} name message.
Arguments Pending {A}.

(** A promise that settles. *)
Inductive settled (A : Type) :=
| Fulfilled (a : A)
| Rejected (name message : jsstring).
Arguments Fulfilled {A} a.
Arguments Rejected {A} name message.

(** How the stream of a response body ends, once its chunks are read. *)
Inductive ending :=
| EndDone                 (* read() resolves with done: true *)
| EndError (name message : jsstring)    (* read() rejects *)
| EndPending.             (* read() never settles *)

(** What [response.body.getReader()] returns.  [closed] is the truthiness
    of the reader's [closed] property: the platform's
    ReadableStreamDefaultReader holds a promise there, which is truthy; the
    reader of the repository's client test holds [false].  [chunks] are the
    byte arrays successive calls of [read()] resolve with. *)
Record reader := {
  closed : bool;
  chunks : list (list Z);
  ending_ : ending
}.

(** A [Response].  [text()] and [json()] are taken to settle. *)
Record response := {
  ok : bool;
  status : Z;
  text : settled jsstring;
  json : settled value;
  body : option reader
}.

(** *** TextDecoder

    The UTF-8 decoder of the Encoding standard, one byte at a time, with
    its state kept from one call of [decode(value, {stream: true})] to the
    next. *)
Record decoder := {
  code_point : Z;
  bytes_seen : Z;
  bytes_needed : Z;
  lower_boundary : Z;
  upper_boundary : Z;
  bom_seen : bool
}.

Definition newDecoder : decoder :=
  {| code_point := 0; bytes_seen := 0; bytes_needed := 0;
     lower_boundary := 128; upper_boundary := 191; bom_seen := false |}.

Definition resetDecoder (d : decoder) : decoder :=
  {| code_point := 0; bytes_seen := 0; bytes_needed := 0;
     lower_boundary := 128; upper_boundary := 191; bom_seen := bom_seen d |}.

(** The handler on a byte when no sequence is open: the new state and the
    code points given out (U+FFFD for an error). *)
Definition leadByte (d : decoder) (b : Z) : decoder * list Z :=
  if (0 <=? b) && (b <=? 127) then (d, [b])
  else if (194 <=? b) && (b <=? 223) then
    ({| code_point := Z.land b 31; bytes_seen := 0; bytes_needed := 1;
        lower_boundary := 128; upper_boundary := 191; bom_seen := bom_seen d |}, [])
  else if (224 <=? b) && (b <=? 239) then
    ({| code_point := Z.land b 15; bytes_seen := 0; bytes_needed := 2;
        lower_boundary := if b =? 224 then 160 else 128;
        upper_boundary := if b =? 237 then 159 else 191;
        bom_seen := bom_seen d |}, [])
  else if (240 <=? b) && (b <=? 244) then
    ({| code_point := Z.land b 7; bytes_seen := 0; bytes_needed := 3;
        lower_boundary := if b =? 240 then 144 else 128;
        upper_boundary := if b =? 244 then 143 else 191;
        bom_seen := bom_seen d |}, [])
  else (d, [65533]).

(** The handler on one byte. *)
Definition handleByte (d : decoder) (b : Z) : decoder * list Z :=
  if bytes_needed d =? 0 then leadByte d b
  else if negb ((lower_boundary d <=? b) && (b <=? upper_boundary d)) then
    (* the byte is put back and read again with a fresh state *)
    let '(d', out) := leadByte (resetDecoder d) b in (d', 65533 :: out)
  else
    let cp := Z.lor (Z.shiftl (code_point d) 6) (Z.land b 63) in
    if bytes_seen d + 1 =? bytes_needed d then (resetDecoder d, [cp])
    else
      ({| code_point := cp; bytes_seen := bytes_seen d + 1;
          bytes_needed := bytes_needed d;
          lower_boundary := 128; upper_boundary := 191;
          bom_seen := bom_seen d |}, []).

(** A code point as UTF-16 code units. *)
Definition codeUnits (cp : Z) : jsstring :=
  if cp <? 65536 then [cp]
  else [55296 + Z.shiftr (cp - 65536) 10; 56320 + Z.land (cp - 65536) 1023].

(** Serialising the code points given out: the first one is dropped if it
    is the byte order mark. *)
Fixpoint serialize (seen : bool) (cps : list Z) : bool * jsstring :=
  match cps with
  | [] => (seen, [])
  | cp :: cps' =>
      let '(seen', out) := serialize true cps' in
      if negb seen && (cp =? 65279) then (seen', out)
      else (seen', codeUnits cp ++ out)
  end.

Definition decodeByte (d : decoder) (b : Z) : decoder * jsstring :=
  let '(d', cps) := handleByte d b in
  let '(seen, out) := serialize (bom_seen d') cps in
  ({| code_point := code_point d'; bytes_seen := bytes_seen d';
      bytes_needed := bytes_needed d';
      lower_boundary := lower_boundary d'; upper_boundary := upper_boundary d';
      bom_seen := seen |}, out).

(** [decoder.decode(value, { stream: true })] *)
Fixpoint decode (d : decoder) (bytes : list Z) : decoder * jsstring :=
  match bytes with
  | [] => (d, [])
  | b :: bytes' =>
      let '(d1, out1) := decodeByte d b in
      let '(d2, out2) := decode d1 bytes' in
      (d2, out1 ++ out2)
  end.

End Platform.

Import Platform.

(** ** OllamaClient *)

Module Client.

(** [config.ollama]; the three numbers come from [parseInt]. *)
Record config := {
  apiUrl : jsstring;
  model : jsstring;
  timeoutMs : Z;
  retryAttempts : Z;
  retryDelayMs : Z
}.

(** The calls the client makes into the platform and into its caller. *)
Inductive event :=
| EvSetTimeout (ms : Z)               (* setTimeout(() => controller.abort(), ms) *)
| EvClearTimeout                      (* clearTimeout(timeoutId) *)
| EvFetch (url : jsstring) (data : value)
| EvAbort                             (* controller.abort() takes effect *)
| EvSleep (ms : Z)                    (* await of setTimeout(resolve, ms) *)
| EvLogError (what : jsstring)
| EvLogWarn (what : jsstring)
| EvChunk (chunk : value)             (* onChunk(chunk) *)
| EvDone.                             (* onDone() *)

Definition trace := list event.

Definition isFetch (e : event) : bool :=
  match e with EvFetch _ _ => true | _ => false end.
Definition isSleep (e : event) : bool :=
  match e with EvSleep _ => true | _ => false end.
Definition isSetTimeout (e : event) : bool :=
  match e with EvSetTimeout _ => true | _ => false end.
Definition isDone (e : event) : bool :=
  match e with EvDone => true | _ => false end.

Definition countIf (p : event -> bool) (tr : trace) : nat :=
  List.length (filter p tr).

(** The arguments of the calls of [onChunk], in order. *)
Fixpoint delivered (tr : trace) : list value :=
  match tr with
  | [] => []
  | EvChunk v :: tr' => v :: delivered tr'
  | _ :: tr' => delivered tr'
  end.

Definition typeofObject (v : value) : bool :=
  match v with VNull | VArr _ | VObj _ => true | _ => false end.
Definition isNull (v : value) : bool :=
  match v with VNull => true | _ => false end.
Definition typeofString (v : value) : bool :=
  match v with VStr _ => true | _ => false end.
(** [name in v] where [v] is known to be an object. *)
Definition inObject (name : jsstring) (v : value) : bool :=
  match v with
  | VObj props => match lookup props name with Some _ => true | None => false end
  | _ => false
  end.
Definition propOr (v : value) (name : jsstring) : value :=
  match getProp v name with Normal x => x | Throw _ => VUndefined end.
Definition asString (v : value) : jsstring :=
  match v with VStr s => s | _ => [] end.

Definition isErrorResponse (response : value) : bool :=
  typeofObject response
  && negb (isNull response)
  && inObject (lit "error") response
  && typeofString (propOr response (lit "error")).

Section Post.

Variable cfg : config.

(** What the [fetch] of the n-th attempt does, n counted from 1. *)
Variable net : Z -> settle response.

Definition urlOf (endpoint : jsstring) : jsstring :=
  apiUrl cfg ++ lit "/" ++ endpoint.

(** The body of the [try] of one attempt. *)
Definition attemptOnce (url : jsstring) (data : value) (attempt : Z)
  : completion value * trace :=
  let tr := [EvSetTimeout (timeoutMs cfg); EvFetch url data] in
  match net attempt with
  | Pending => (Throw AbortError, tr ++ [EvAbort])
  | Rejects n m => (Throw (PlatformError n m), tr)
  | Resolves response =>
      let tr := tr ++ [EvClearTimeout] in
      if negb (ok response) then
        match text response with
        | Rejected n m => (Throw (PlatformError n m), tr)
        | Fulfilled t =>
            (Throw (OllamaAPIError (lit "API error: " ++ t) (Some (status response))),
             tr ++ [EvLogError (lit "API error")])
        end
      else
        match json response with
        | Rejected n m => (Throw (PlatformError n m), tr)
        | Fulfilled result =>
            if isErrorResponse result then
              (Throw (OllamaAPIError
                        (lit "API returned error: " ++ asString (propOr result (lit "error")))
                        None),
               tr ++ [EvLogError (lit "API returned error")])
            else (Normal result, tr)
        end
  end.

(** What the [catch] rethrows on the last attempt. *)
Definition surfaced (error : Value.error) : Value.error :=
  if instanceofOllamaAPIError error then error
  else OllamaNetworkError (lit "Network error: " ++ message error) error.

Definition maximumReached : Value.error :=
  OllamaAPIError (lit "Maximum retry attempts reached") None.

(** The [while] loop of [post]; [None] when the fuel runs out. *)
Fixpoint postLoop (fuel : nat) (url : jsstring) (data : value) (attempt : Z)
  : option (completion value * trace) :=
  match fuel with
  | O => None
  | S fuel' =>
      if attempt <? retryAttempts cfg then
        let attempt := attempt + 1 in
        let '(r, tr) := attemptOnce url data attempt in
        match r with
        | Normal result => Some (Normal result, tr)
        | Throw error =>
            if attempt >=? retryAttempts cfg then
              Some (Throw (surfaced error),
                    if instanceofOllamaAPIError error then tr
                    else tr ++ [EvLogError (lit "Network error:")])
            else
              match postLoop fuel' url data attempt with
              | Some (r', tr') =>
                  Some (r', tr ++ [EvLogWarn (lit "Request failed, retrying");
                                   EvSleep (retryDelayMs cfg)] ++ tr')
              | None => None
              end
        end
      else Some (Throw maximumReached, [])
  end.

(** [post]: the loop from [attempt = 0].  It turns at most [retryAttempts]
    times, so the fuel given here is enough ([post_total] below). *)
Definition post (endpoint : jsstring) (data : value)
  : option (completion value * trace) :=
  postLoop (S (Z.to_nat (retryAttempts cfg))) (urlOf endpoint) data 0.

(** [params.model || this.defaultModel] *)
Definition modelOr (m : jsstring) : jsstring :=
  match m with [] => model cfg | _ => m end.

Definition chatRequest (m : jsstring) (messages : list value) (format : jsstring)
  (stream : bool) : value :=
  VObj [(lit "model", VStr (modelOr m)); (lit "messages", VArr messages);
        (lit "format", VStr format); (lit "stream", VBool stream)].

Definition chat (m : jsstring) (messages : list value) (format : jsstring)
  : option (completion value * trace) :=
  post (lit "chat") (chatRequest m messages format false).

End Post.

(** *** stream *)

(** The caller's callbacks: what a call of each does.  [onDone] is optional. *)
Record callbacks := {
  onChunk : value -> completion unit;
  onDone : option (completion unit)
}.

(** How the detached async function of [stream] ends. *)
Inductive outcome :=
| Finished                 (* it returned *)
| Unhandled (e : error)    (* it threw out of its catch block *)
| Suspended.               (* it awaits a promise that never settles *)

Section Stream.

Variable cfg : config.
Variable JSON_parse : jsstring -> completion value.
Variable cb : callbacks.

(** The caller invokes the returned cancel function while the session
    awaits its promise number k: 0 is the fetch, k >= 1 the k-th read.  The
    awaited promise then rejects with an AbortError. *)
Variable cancelAt : option nat.

Definition cancelled (k : nat) : bool :=
  match cancelAt with Some c => Nat.eqb c k | None => false end.

(** [if (onDone) { onDone(); }] *)
Definition callOnDone : completion unit * trace :=
  match onDone cb with
  | None => (Normal tt, [])
  | Some r => (r, [EvDone])
  end.

(** [try { const chunk = JSON.parse(s); onChunk(chunk); } catch (e) { logger.error(what, ...) }] *)
Definition deliver (what : jsstring) (s : jsstring) : trace :=
  match JSON_parse s with
  | Throw _ => [EvLogError what]
  | Normal chunk =>
      match onChunk cb chunk with
      | Normal _ => [EvChunk chunk]
      | Throw _ => [EvChunk chunk; EvLogError what]
      end
  end.

Definition nonEmpty (s : jsstring) : bool :=
  match s with [] => false | _ => true end.

(** The inner [while]: one turn per newline of the buffer. *)
Fixpoint lineLoop (fuel : nat) (buffer : jsstring) : option (jsstring * trace) :=
  match fuel with
  | O => None
  | S fuel' =>
      match indexOf buffer [10] with
      | None => Some (buffer, [])
      | Some newlineIndex =>
          let line := trim (sliceTo buffer newlineIndex) in
          let buffer := sliceFrom buffer (newlineIndex + 1) in
          let tr := if nonEmpty line then deliver (lit "Error parsing JSON:") line else [] in
          match lineLoop fuel' buffer with
          | Some (buffer', tr') => Some (buffer', tr ++ tr')
          | None => None
          end
      end
  end.

(** The inner loop on a buffer.  Every turn shortens the buffer, so the
    fuel given here is enough ([lineLoop_linesOf] below). *)
Definition processLines (buffer : jsstring) : jsstring * trace :=
  match lineLoop (S (List.length buffer)) buffer with
  | Some r => r
  | None => (buffer, [])
  end.

(** The [catch] block of the async function. *)
Definition catchBlock (aborted : bool) (error : Value.error) : outcome * trace :=
  let tr :=
    if aborted then []
    else if instanceofOllamaAPIError error then [EvLogError (lit "Stream error:")]
    else [EvLogError (lit "Network error in stream:")] in
  let '(r, tr') := callOnDone in
  (match r with Normal _ => Finished | Throw e => Unhandled e end, tr ++ tr').

(** The branch [if (done)] of the reading loop. *)
Definition finish (buffer : jsstring) : outcome * trace :=
  let tr :=
    if nonEmpty (trim buffer)
    then deliver (lit "Error parsing JSON from buffer:") buffer else [] in
  let '(r, tr') := callOnDone in
  match r with
  | Normal _ => (Finished, tr ++ tr')
  | Throw e => let '(st, tr'') := catchBlock false e in (st, tr ++ tr' ++ tr'')
  end.

(** [while (!reader.closed) { ... }], one turn per [read()]. *)
Fixpoint readLoop (isClosed : bool) (fin : ending) (k : nat)
  (pending : list (list Z)) (d : decoder) (buffer : jsstring) : outcome * trace :=
  if isClosed then (Finished, [])
  else if cancelled k then
    let '(st, tr) := catchBlock true AbortError in (st, EvAbort :: tr)
  else
    match pending with
    | [] =>
        match fin with
        | EndDone => finish buffer
        | EndError n m => catchBlock false (PlatformError n m)
        | EndPending => (Suspended, [])
        end
    | value :: pending' =>
        let '(d', decoded) := decode d value in
        let '(buffer', tr) := processLines (buffer ++ decoded) in
        let '(st, tr') := readLoop isClosed fin (S k) pending' d' buffer' in
        (st, tr ++ tr')
    end.

(** The async function [stream] starts; [conn] is what its [fetch] does. *)
Definition stream (conn : settle response) (endpoint : jsstring) (data : value)
  : outcome * trace :=
  let url := apiUrl cfg ++ lit "/" ++ endpoint in
  let tr0 := [EvFetch url data] in
  if cancelled 0 then
    let '(st, tr) := catchBlock true AbortError in (st, tr0 ++ EvAbort :: tr)
  else
    match conn with
    | Pending => (Suspended, tr0)
    | Rejects n m =>
        let '(st, tr) := catchBlock false (PlatformError n m) in (st, tr0 ++ tr)
    | Resolves response =>
        if negb (ok response) then
          match text response with
          | Rejected n m =>
              let '(st, tr) := catchBlock false (PlatformError n m) in (st, tr0 ++ tr)
          | Fulfilled t =>
              let '(st, tr) :=
                catchBlock false
                  (OllamaAPIError (lit "API error: " ++ t) (Some (status response))) in
              (st, tr0 ++ EvLogError (lit "API error") :: tr)
          end
        else
          match body response with
          | None =>
              let '(st, tr) :=
                catchBlock false (OllamaAPIError (lit "Response body is null") None) in
              (st, tr0 ++ tr)
          | Some reader =>
              let '(st, tr) :=
                readLoop (closed reader) (ending_ reader) 1 (chunks reader)
                         newDecoder [] in
              (st, tr0 ++ tr)
          end
    end.

End Stream.

End Client.

Import Client.

(** ** AIService.query *)

Module Service.

Import Preprocess Extract.

Record AIQueryResponse := {
  text : value;
  structuredOutput : value;
  toolCalls : option (list ToolCall);
  error : option jsstring
}.

Definition backendMessage : jsstring :=
  lit "I encountered an error communicating with my AI backend.".
Definition unexpectedMessage : jsstring :=
  lit "I encountered an unexpected error.".

Section Query.

Variable cfg : config.
Variable net : Z -> settle response.
Variable JSON_parse : jsstring -> completion value.

(** The instruction text the constructor stores. *)
Variable systemPrompt : jsstring.

Definition chatMessage (role content : jsstring) : value :=
  VObj [(lit "role", VStr role); (lit "content", VStr content)].

(** The statements of the [try] block that follow the awaited chat call. *)
Definition interpret (response : value) : completion AIQueryResponse :=
  message <- getProp response (lit "message") ;;
  responseText <- getProp message (lit "content") ;;
  let structuredOutput := extractStructuredData JSON_parse responseText in
  toolCalls <- (if truthy structuredOutput then extractToolCalls structuredOutput
                else Normal None) ;;
  Normal {| text := responseText; structuredOutput := structuredOutput;
            toolCalls := toolCalls; error := None |}.

(** The [catch] block. *)
Definition recover (e : Value.error) : completion AIQueryResponse :=
  if instanceofOllamaAPIError e || instanceofOllamaNetworkError e then
    Normal {| text := VStr backendMessage; structuredOutput := VUndefined;
              toolCalls := None; error := Some (message e) |}
  else
    Normal {| text := VStr unexpectedMessage; structuredOutput := VUndefined;
              toolCalls := None; error := Some (message e) |}.

Definition query (q : jsstring) : option (completion AIQueryResponse * trace) :=
  let processedQuery := preprocessQuery q in
  let messages :=
    [chatMessage (lit "system") systemPrompt; chatMessage (lit "user") processedQuery] in
  match chat cfg net (model cfg) messages (lit "json") with
  | None => None
  | Some (r, tr) => Some (tryCatch (response <- r ;; interpret response) recover, tr)
  end.

End Query.

End Service.

(** ** A parser for the examples

    The theorems below hold for every [JSON_parse].  To run the client on
    concrete inputs, this parser reads a fragment of JSON: the three
    literals, strings without escapes, unsigned integers below 2^53, arrays
    and objects.  It rejects every other text. *)

Module Json.

Definition SyntaxError : error := PlatformError (lit "SyntaxError") (lit "Unexpected token").

Definition isJsonSpace (c : Z) : bool :=
  (c =? 32) || (c =? 9) || (c =? 10) || (c =? 13).

Fixpoint skipSpace (s : jsstring) : jsstring :=
  match s with
  | c :: s' => if isJsonSpace c then skipSpace s' else s
  | [] => []
  end.

Definition isDigit (c : Z) : bool := (48 <=? c) && (c <=? 57).

Fixpoint digits (acc : Z) (s : jsstring) : Z * jsstring :=
  match s with
  | c :: s' => if isDigit c then digits (10 * acc + (c - 48)) s' else (acc, s)
  | [] => (acc, [])
  end.

(** The code units of a string up to its closing quote. *)
Fixpoint stringBody (s : jsstring) : option (jsstring * jsstring) :=
  match s with
  | [] => None
  | c :: s' =>
      if c =? 34 then Some ([], s')
      else if (c =? 92) || (c <? 32) then None
      else match stringBody s' with
           | Some (str, rest) => Some (c :: str, rest)
           | None => None
           end
  end.

Definition number (z : Z) : value := VNum (PrimFloat.of_uint63 (Uint63.of_Z z)).

Fixpoint parseValue (fuel : nat) (s : jsstring) : option (value * jsstring) :=
  match fuel with
  | O => None
  | S fuel' =>
      match skipSpace s with
      | [] => None
      | c :: s' =>
          if startsWith (c :: s') (lit "null") then Some (VNull, sliceFrom s' 3)
          else if startsWith (c :: s') (lit "true") then Some (VBool true, sliceFrom s' 3)
          else if startsWith (c :: s') (lit "false") then Some (VBool false, sliceFrom s' 4)
          else if c =? 34 then
            match stringBody s' with
            | Some (str, rest) => Some (VStr str, rest)
            | None => None
            end
          else if isDigit c then
            let '(z, rest) := digits 0 (c :: s') in
            if ((c =? 48) && negb (z =? 0)) || (9007199254740992 <=? z) then None
            else match rest with
                 | d :: _ => if (d =? 46) || (d =? 101) || (d =? 69) then None
                             else Some (number z, rest)
                 | [] => Some (number z, rest)
                 end
          else if c =? 91 then
            match skipSpace s' with
            | d :: rest => if d =? 93 then Some (VArr [], rest)
                           else parseItems fuel' (d :: rest)
            | [] => None
            end
          else if c =? 123 then
            match skipSpace s' with
            | d :: rest => if d =? 125 then Some (VObj [], rest)
                           else parseMembers fuel' (d :: rest)
            | [] => None
            end
          else None
      end
  end
with parseItems (fuel : nat) (s : jsstring) : option (value * jsstring) :=
  match fuel with
  | O => None
  | S fuel' =>
      match parseValue fuel' s with
      | None => None
      | Some (v, rest) =>
          match skipSpace rest with
          | d :: rest' =>
              if d =? 93 then Some (VArr [v], rest')
              else if d =? 44 then
                match parseItems fuel' rest' with
                | Some (VArr vs, rest'') => Some (VArr (v :: vs), rest'')
                | _ => None
                end
              else None
          | [] => None
          end
      end
  end
with parseMembers (fuel : nat) (s : jsstring) : option (value * jsstring) :=
  match fuel with
  | O => None
  | S fuel' =>
      match skipSpace s with
      | q :: s1 =>
          if q =? 34 then
            match stringBody s1 with
            | None => None
            | Some (key, s2) =>
                match skipSpace s2 with
                | colon :: s3 =>
                    if colon =? 58 then
                      match parseValue fuel' s3 with
                      | None => None
                      | Some (v, rest) =>
                          match skipSpace rest with
                          | d :: rest' =>
                              if d =? 125 then Some (VObj [(key, v)], rest')
                              else if d =? 44 then
                                match parseMembers fuel' rest' with
                                | Some (VObj kvs, rest'') =>
                                    Some (VObj ((key, v) :: kvs), rest'')
                                | _ => None
                                end
                              else None
                          | [] => None
                          end
                      end
                    else None
                | [] => None
                end
            end
          else None
      | [] => None
      end
  end.

Definition parse (s : jsstring) : completion value :=
  match parseValue (2 * List.length s + 2) s with
  | Some (v, rest) =>
      match skipSpace rest with
      | [] => Normal v
      | _ :: _ => Throw SyntaxError
      end
  | None => Throw SyntaxError
  end.

End Json.

(** ** Notions used to state the properties *)

Module Notions.

(** Whether a string begins, or ends, with a white space code unit. *)
Definition startsWhite (s : jsstring) : bool :=
  match s with c :: _ => isWhiteSpace c | [] => false end.
Definition endsWhite (s : jsstring) : bool := startsWhite (rev s).

(** The prefixes [preprocessQuery] can put before the trimmed query. *)
Definition prefixes : list jsstring :=
  [[]; lit "https://"; lit "Navigate to "; lit "Navigate to https://"].

(** The complete lines of a text, in the order of their terminating
    newlines, and what follows the last newline. *)
Fixpoint linesOf (s : jsstring) : list jsstring * jsstring :=
  match s with
  | [] => ([], [])
  | c :: s' =>
      let '(ls, r) := linesOf s' in
      if c =? 10 then ([] :: ls, r)
      else match ls with
           | l :: ls' => ((c :: l) :: ls', r)
           | [] => ([], c :: r)
           end
  end.

(** Fetches and sleeps of a call of [post] that fails [n] times:
    a fetch, then a sleep and a fetch for every further attempt. *)
Fixpoint fetchesAndSleeps (url : jsstring) (data : value) (delay : Z) (n : nat) : trace :=
  match n with
  | O => []
  | S O => [EvFetch url data]
  | S n' => EvFetch url data :: EvSleep delay :: fetchesAndSleeps url data delay n'
  end.

Definition isFetchOrSleep (e : event) : bool := isFetch e || isSleep e.

(** A failure the service reports: a response with a bad status whose text
    arrives, or a response with a good status whose body is an error
    payload. *)
Definition serviceFault (b : settle response) : bool :=
  match b with
  | Resolves r =>
      if ok r then
        match json r with Fulfilled v => isErrorResponse v | Rejected _ _ => false end
      else
        match Platform.text r with Fulfilled _ => true | Rejected _ _ => false end
  | _ => false
  end.

(** What the loop of [post] does once the attempt numbered [attempt + 1]
    has thrown [e], the events of the attempt being [tr]: on the last
    attempt the error leaves the loop, otherwise the loop waits and turns
    again. *)
Definition afterFailure (cfg : config) (net : Z -> settle response) (fuel : nat)
  (url : jsstring) (data : value) (attempt : Z) (e : error) (tr : trace)
  : option (completion value * trace) :=
  if attempt + 1 >=? retryAttempts cfg then Some (Throw e, tr)
  else
    match postLoop cfg net fuel url data (attempt + 1) with
    | Some (r', tr') =>
        Some (r', tr ++ [EvLogWarn (lit "Request failed, retrying");
                         EvSleep (retryDelayMs cfg)] ++ tr')
    | None => None
    end.

Section Records.

Variable JSON_parse : jsstring -> completion value.

(** The record a complete line stands for, if any. *)
Definition recordOfLine (l : jsstring) : list value :=
  match trim l with
  | [] => []
  | c :: t => match JSON_parse (c :: t) with Normal v => [v] | Throw _ => [] end
  end.

(** The record the text after the last newline stands for, if any. *)
Definition recordOfResidue (r : jsstring) : list value :=
  match trim r with
  | [] => []
  | _ :: _ => match JSON_parse r with Normal v => [v] | Throw _ => [] end
  end.

(** The records of a payload, from the payload as a whole: those of its
    complete lines in order and, when the stream ends with [done], the one
    of the text after the last newline. *)
Definition recordsOf (fin : ending) (payload : list Z) : list value :=
  let '(ls, r) := linesOf (snd (decode newDecoder payload)) in
  flat_map recordOfLine ls
  ++ match fin with EndDone => recordOfResidue r | _ => [] end.

End Records.

(** The events of a session after its fetch: calls of the callbacks, log
    entries, the abort of a cancellation. *)
Definition sessionEvent (e : event) : bool :=
  match e with
  | EvChunk _ | EvDone | EvLogError _ | EvAbort => true
  | _ => false
  end.

(** A text made of newline-terminated lines. *)
Definition joinLines (ls : list jsstring) : jsstring :=
  flat_map (fun l => l ++ [10]) ls.

Definition noNewline (l : jsstring) : bool := forallb (fun c => negb (c =? 10)) l.

Section Sessions.

Variable JSON_parse : jsstring -> completion value.
Variable cb : callbacks.

(** The events of one turn of the inner loop, for the line it takes. *)
Definition lineEvents (l : jsstring) : trace :=
  if nonEmpty (trim l) then deliver JSON_parse cb (lit "Error parsing JSON:") (trim l)
  else [].

(** What the reading loop does once the chunks are read. *)
Definition endOf (fin : ending) (buffer : jsstring) : outcome * trace :=
  match fin with
  | EndDone => finish JSON_parse cb buffer
  | EndError n m => catchBlock cb false (PlatformError n m)
  | EndPending => (Suspended, [])
  end.

End Sessions.

(** A response with a good status whose body hands out the chunks [cs]. *)
Definition bodyOf (isClosed : bool) (fin : ending) (cs : list (list Z)) : response :=
  {| ok := true; status := 200; Platform.text := Fulfilled [];
     json := Rejected (lit "TypeError") (lit "body used already");
     body := Some {| closed := isClosed; chunks := cs; ending_ := fin |} |}.

End Notions.

Import Notions.

(** ** Concrete inputs *)

Module Examples.

(** The defaults of the configuration module. *)
Definition defaults : config :=
  {| apiUrl := lit "http://localhost:11434/api"; model := lit "granite3.2-vision";
     timeoutMs := 30000; retryAttempts := 3; retryDelayMs := 1000 |}.

Definition noAttempts : config :=
  {| apiUrl := lit "http://localhost:11434/api"; model := lit "granite3.2-vision";
     timeoutMs := 30000; retryAttempts := 0; retryDelayMs := 1000 |}.

(** A response with status 500, as in the client's test. *)
Definition serverError : response :=
  {| ok := false; status := 500; Platform.text := Fulfilled (lit "Internal server error");
     json := Rejected (lit "SyntaxError") (lit "Unexpected token");
     body := None |}.

(** A response with a good status that carries [value]. *)
Definition okJson (v : value) : response :=
  {| ok := true; status := 200; Platform.text := Fulfilled [];
     json := Fulfilled v; body := None |}.

(** The error payload of the client's test. *)
Definition errorPayload : value :=
  VObj [(lit "error", VStr (lit "Something went wrong"))].

Definition quietCallbacks : callbacks :=
  {| onChunk := fun _ => Normal tt; onDone := Some (Normal tt) |}.

(** A string literal of JSON: the text between double quotes. *)
Definition quoted (s : string) : jsstring := [34] ++ lit s ++ [34].

(** The reply of the service test: a sentence, then a fenced block with one
    navigate action. *)
Definition navigateReply : jsstring :=
  lit "I'll help you navigate to Google." ++ [10; 10]
  ++ lit "```json" ++ [10]
  ++ lit "{ " ++ quoted "browser_actions" ++ lit ": [ { "
  ++ quoted "action" ++ lit ": " ++ quoted "navigate" ++ lit ", "
  ++ quoted "parameters" ++ lit ": { " ++ quoted "url" ++ lit ": "
  ++ quoted "https://www.google.com" ++ lit " } } ], "
  ++ quoted "explanation" ++ lit ": " ++ quoted "Navigating to Google's homepage"
  ++ lit " }" ++ [10] ++ lit "```".

Definition chatReply (content : jsstring) : value :=
  VObj [(lit "model", VStr (lit "granite3.2-vision"));
        (lit "done", VBool true);
        (lit "message", VObj [(lit "role", VStr (lit "assistant"));
                              (lit "content", VStr content)])].

End Examples.

(** ** Shapes of texts and values *)

Module Shapes.

(** The code unit [c] does not occur in [s]. *)
Definition absent (c : Z) (s : jsstring) : bool :=
  forallb (fun x => negb (x =? c)) s.

(** [null] or [undefined]. *)
Definition isNullish (v : value) : bool :=
  match v with VUndefined | VNull => true | _ => false end.

(** A boolean, a number or a string. *)
Definition isPrimitive (v : value) : bool :=
  match v with VBool _ | VNum _ | VStr _ => true | _ => false end.

(** What the arrow function of [extractToolCalls] builds from an action
    that is neither [null] nor [undefined]. *)
Definition toolCallOf (action : value) : Extract.ToolCall :=
  {| Extract.name := propOr action (lit "action");
     Extract.parameters := propOr action (lit "parameters") |}.

(** A connection that gives no body to read: the fetch rejects, the status
    is bad, or the body is null. *)
Definition connectionFails (conn : settle response) : bool :=
  match conn with
  | Rejects _ _ => true
  | Resolves r => negb (ok r) || match body r with None => true | Some _ => false end
  | Pending => false
  end.

(** The log entry of the inner loop. *)
Definition isLineError (e : event) : bool :=
  match e with
  | EvLogError what => eqs what (lit "Error parsing JSON:")
  | _ => false
  end.

(** A line the inner loop takes and fails on: it is not blank, and the
    parser or [onChunk] throws. *)
Definition lineFails (JSON_parse : jsstring -> completion value) (cb : callbacks)
  (l : jsstring) : bool :=
  match trim l with
  | [] => false
  | c :: t =>
      match JSON_parse (c :: t) with
      | Throw _ => true
      | Normal v => match onChunk cb v with Throw _ => true | Normal _ => false end
      end
  end.

End Shapes.

Import Shapes.

(** ** stream with callbacks that are closures

    [queryStream] passes to [chatStream] two closures over the variable
    [fullResponse].  Here is [stream] again, statement for statement, with
    the state of the closures handed from one call of a callback to the
    next. *)

Module Session.

Section Stateful.

Variable State : Type.
Variable cfg : config.
Variable JSON_parse : jsstring -> completion value.
Variable onChunk : State -> value -> State * completion unit.
Variable onDone : option (State -> State * completion unit).
Variable cancelAt : option nat.

Definition cancelled (k : nat) : bool :=
  match cancelAt with Some c => Nat.eqb c k | None => false end.

(** [if (onDone) { onDone(); }] *)
Definition callOnDone (s : State) : State * completion unit * trace :=
  match onDone with
  | None => (s, Normal tt, [])
  | Some f => let '(s', r) := f s in (s', r, [EvDone])
  end.

(** [try { const chunk = JSON.parse(text); onChunk(chunk); } catch (e) { logger.error(what, ...) }] *)
Definition deliver (what : jsstring) (text : jsstring) (s : State) : State * trace :=
  match JSON_parse text with
  | Throw _ => (s, [EvLogError what])
  | Normal chunk =>
      let '(s', r) := onChunk s chunk in
      match r with
      | Normal _ => (s', [EvChunk chunk])
      | Throw _ => (s', [EvChunk chunk; EvLogError what])
      end
  end.

(** The inner [while]. *)
Fixpoint lineLoop (fuel : nat) (buffer : jsstring) (s : State)
  : option (jsstring * State * trace) :=
  match fuel with
  | O => None
  | S fuel' =>
      match indexOf buffer [10] with
      | None => Some (buffer, s, [])
      | Some newlineIndex =>
          let line := trim (sliceTo buffer newlineIndex) in
          let buffer := sliceFrom buffer (newlineIndex + 1) in
          let '(s1, tr) :=
            if nonEmpty line then deliver (lit "Error parsing JSON:") line s
            else (s, []) in
          match lineLoop fuel' buffer s1 with
          | Some (buffer', s2, tr') => Some (buffer', s2, tr ++ tr')
          | None => None
          end
      end
  end.

Definition processLines (buffer : jsstring) (s : State) : jsstring * State * trace :=
  match lineLoop (S (List.length buffer)) buffer s with
  | Some r => r
  | None => (buffer, s, [])
  end.

(** The [catch] block of the async function. *)
Definition catchBlock (aborted : bool) (error : Value.error) (s : State)
  : outcome * State * trace :=
  let tr :=
    if aborted then []
    else if instanceofOllamaAPIError error then [EvLogError (lit "Stream error:")]
    else [EvLogError (lit "Network error in stream:")] in
  let '(s', r, tr') := callOnDone s in
  (match r with Normal _ => Finished | Throw e => Unhandled e end, s', tr ++ tr').

(** The branch [if (done)] of the reading loop. *)
Definition finish (buffer : jsstring) (s : State) : outcome * State * trace :=
  let '(s1, tr) :=
    if nonEmpty (trim buffer)
    then deliver (lit "Error parsing JSON from buffer:") buffer s else (s, []) in
  let '(s2, r, tr') := callOnDone s1 in
  match r with
  | Normal _ => (Finished, s2, tr ++ tr')
  | Throw e =>
      let '(st, s3, tr'') := catchBlock false e s2 in (st, s3, tr ++ tr' ++ tr'')
  end.

(** [while (!reader.closed) { ... }] *)
Fixpoint readLoop (isClosed : bool) (fin : ending) (k : nat)
  (pending : list (list Z)) (d : decoder) (buffer : jsstring) (s : State)
  : outcome * State * trace :=
  if isClosed then (Finished, s, [])
  else if cancelled k then
    let '(st, s', tr) := catchBlock true AbortError s in (st, s', EvAbort :: tr)
  else
    match pending with
    | [] =>
        match fin with
        | EndDone => finish buffer s
        | EndError n m => catchBlock false (PlatformError n m) s
        | EndPending => (Suspended, s, [])
        end
    | value :: pending' =>
        let '(d', decoded) := decode d value in
        let '(buffer', s1, tr) := processLines (buffer ++ decoded) s in
        let '(st, s2, tr') := readLoop isClosed fin (S k) pending' d' buffer' s1 in
        (st, s2, tr ++ tr')
    end.

Definition stream (conn : settle response) (endpoint : jsstring) (data : value) (s : State)
  : outcome * State * trace :=
  let url := apiUrl cfg ++ lit "/" ++ endpoint in
  let tr0 := [EvFetch url data] in
  if cancelled 0 then
    let '(st, s', tr) := catchBlock true AbortError s in (st, s', tr0 ++ EvAbort :: tr)
  else
    match conn with
    | Pending => (Suspended, s, tr0)
    | Rejects n m =>
        let '(st, s', tr) := catchBlock false (PlatformError n m) s in (st, s', tr0 ++ tr)
    | Resolves response =>
        if negb (ok response) then
          match Platform.text response with
          | Rejected n m =>
              let '(st, s', tr) := catchBlock false (PlatformError n m) s in
              (st, s', tr0 ++ tr)
          | Fulfilled t =>
              let '(st, s', tr) :=
                catchBlock false
                  (OllamaAPIError (lit "API error: " ++ t) (Some (status response))) s in
              (st, s', tr0 ++ EvLogError (lit "API error") :: tr)
          end
        else
          match body response with
          | None =>
              let '(st, s', tr) :=
                catchBlock false (OllamaAPIError (lit "Response body is null") None) s in
              (st, s', tr0 ++ tr)
          | Some reader =>
              let '(st, s', tr) :=
                readLoop (closed reader) (ending_ reader) 1 (chunks reader)
                         newDecoder [] s in
              (st, s', tr0 ++ tr)
          end
    end.

(** *** The session read off the lines of the payload *)

(** One turn of the inner loop, for the line it takes. *)
Definition lineStep (l : jsstring) (s : State) : State * trace :=
  if nonEmpty (trim l) then deliver (lit "Error parsing JSON:") (trim l) s
  else (s, []).

Fixpoint linesRun (ls : list jsstring) (s : State) : State * trace :=
  match ls with
  | [] => (s, [])
  | l :: ls' =>
      let '(s1, tr) := lineStep l s in
      let '(s2, tr') := linesRun ls' s1 in (s2, tr ++ tr')
  end.

(** What the reading loop does once the chunks are read. *)
Definition endOf (fin : ending) (buffer : jsstring) (s : State)
  : outcome * State * trace :=
  match fin with
  | EndDone => finish buffer s
  | EndError n m => catchBlock false (PlatformError n m) s
  | EndPending => (Suspended, s, [])
  end.

(** The state after [onChunk] was called with each of [records]. *)
Definition afterRecords (records : list value) (s : State) : State :=
  fold_left (fun s chunk => fst (onChunk s chunk)) records s.

(** One call of [onDone], when nothing catches what it throws. *)
Definition doneOnce (s : State) : outcome * State :=
  let '(s', r, _) := callOnDone s in
  (match r with Normal _ => Finished | Throw e => Unhandled e end, s').

(** How a session whose reading loop ran ends: with the call of [onDone]
    after the last read, repeated by the [catch] block when it throws; with
    the call of the [catch] block when a read fails; not at all while a
    read is pending. *)
Definition ended (fin : ending) (s : State) : outcome * State :=
  match fin with
  | EndDone =>
      let '(s', r, _) := callOnDone s in
      match r with Normal _ => (Finished, s') | Throw _ => doneOnce s' end
  | EndError _ _ => doneOnce s
  | EndPending => (Suspended, s)
  end.

End Stateful.

(** Callbacks that keep no state, as closures. *)
Definition chunkClosure (cb : callbacks) (u : unit) (chunk : value)
  : unit * completion unit :=
  (u, onChunk cb chunk).

Definition doneClosure (cb : callbacks) : option (unit -> unit * completion unit) :=
  match onDone cb with Some r => Some (fun u => (u, r)) | None => None end.

End Session.

(** ** AIService.queryStream *)

Module Streaming.

Import Preprocess Extract Service.

(** The callbacks of the caller: each is optional, and a call of one may
    throw. *)
Record streamCallbacks := {
  onTextUpdate : option (jsstring -> completion unit);
  onStructuredOutputUpdate : option (value -> completion unit);
  onToolCallsUpdate : option (list ToolCall -> completion unit);
  onComplete : option (AIQueryResponse -> completion unit);
  onError : option (Value.error -> completion unit)
}.

(** A call of one of them. *)
Inductive call :=
| TextUpdate (t : jsstring)
| StructuredOutputUpdate (v : value)
| ToolCallsUpdate (calls : list ToolCall)
| Complete (r : AIQueryResponse).

(** What the two closures share: the variable [fullResponse], and, to
    observe them, the calls made so far. *)
Record closure := { fullResponse : jsstring; made : list call }.

Definition initial : closure := {| fullResponse := []; made := [] |}.

Section QueryStream.

Variable cfg : config.
Variable JSON_parse : jsstring -> completion value.
Variable systemPrompt : jsstring.
Variable callbacks : streamCallbacks.

(** The conversion to a string of a value that is not one; it belongs to
    the platform. *)
Variable ToString : value -> jsstring.

(** [if (f) { f(a); }], the call being recorded as [c]. *)
Definition invoke {A : Type} (f : option (A -> completion unit)) (a : A) (c : call)
  (s : closure) : closure * completion unit :=
  match f with
  | None => (s, Normal tt)
  | Some g => ({| fullResponse := fullResponse s; made := made s ++ [c] |}, g a)
  end.

(** [fullResponse += newText] *)
Definition append (s : closure) (newText : value) : closure :=
  {| fullResponse :=
       fullResponse s ++ match newText with VStr t => t | v => ToString v end;
     made := made s |}.

Definition isGiven {A : Type} (f : option A) : bool :=
  match f with Some _ => true | None => false end.

(** The statements after [onTextUpdate] in the arrow function passed as
    [onChunk]. *)
Definition afterTextUpdate (s : closure) : closure * completion unit :=
  let structuredOutput := extractStructuredData JSON_parse (VStr (fullResponse s)) in
  if truthy structuredOutput && isGiven (onStructuredOutputUpdate callbacks) then
    let '(s1, r) :=
      invoke (onStructuredOutputUpdate callbacks) structuredOutput
             (StructuredOutputUpdate structuredOutput) s in
    match r with
    | Throw e => (s1, Throw e)
    | Normal _ =>
        match extractToolCalls structuredOutput with
        | Throw e => (s1, Throw e)
        | Normal None => (s1, Normal tt)
        | Normal (Some toolCalls) =>
            invoke (onToolCallsUpdate callbacks) toolCalls (ToolCallsUpdate toolCalls) s1
        end
    end
  else (s, Normal tt).

(** The arrow function passed as [onChunk]. *)
Definition chunkHandler (s : closure) (chunk : value) : closure * completion unit :=
  match getProp chunk (lit "message") with
  | Throw e => (s, Throw e)
  | Normal message =>
      if truthy message then
        match getProp message (lit "content") with
        | Throw e => (s, Throw e)
        | Normal content =>
            if truthy content then
              let s1 := append s content in
              let '(s2, r) :=
                invoke (onTextUpdate callbacks) (fullResponse s1)
                       (TextUpdate (fullResponse s1)) s1 in
              match r with
              | Throw e => (s2, Throw e)
              | Normal _ => afterTextUpdate s2
              end
            else (s, Normal tt)
        end
      else (s, Normal tt)
  end.

(** The arrow function passed as [onDone]. *)
Definition doneHandler (s : closure) : closure * completion unit :=
  let structuredOutput := extractStructuredData JSON_parse (VStr (fullResponse s)) in
  match (if truthy structuredOutput then extractToolCalls structuredOutput
         else Normal None) with
  | Throw e => (s, Throw e)
  | Normal toolCalls =>
      let result :=
        {| text := VStr (fullResponse s); structuredOutput := structuredOutput;
           toolCalls := toolCalls; error := None |} in
      invoke (onComplete callbacks) result (Complete result) s
  end.

(** The session [queryStream] starts.  [stream] hands back its cancel
    function without throwing, so the [catch] block of [queryStream], the
    only place that calls [onError], is not entered. *)
Definition queryStream (cancelAt : option nat) (conn : settle response) (q : jsstring)
  : outcome * closure * trace :=
  let processedQuery := preprocessQuery q in
  let messages :=
    [chatMessage (lit "system") systemPrompt; chatMessage (lit "user") processedQuery] in
  Session.stream closure cfg JSON_parse chunkHandler (Some doneHandler) cancelAt conn
    (lit "chat") (chatRequest cfg (model cfg) messages (lit "json") true) initial.

(** *** What the calls should be, read off the records delivered *)

(** Whether a record has a message with content, and that content as text. *)
Definition hasContent (chunk : value) : bool :=
  truthy (propOr chunk (lit "message"))
  && truthy (propOr (propOr chunk (lit "message")) (lit "content")).

Definition contentText (chunk : value) : jsstring :=
  match propOr (propOr chunk (lit "message")) (lit "content") with
  | VStr t => t
  | v => ToString v
  end.

(** The accumulated text after each record that has content. *)
Fixpoint runningTexts (acc : jsstring) (chunks : list value) : list jsstring :=
  match chunks with
  | [] => []
  | chunk :: chunks' =>
      if hasContent chunk
      then (acc ++ contentText chunk) :: runningTexts (acc ++ contentText chunk) chunks'
      else runningTexts acc chunks'
  end.

(** All the content of the records, in order. *)
Fixpoint fullText (chunks : list value) : jsstring :=
  match chunks with
  | [] => []
  | chunk :: chunks' =>
      if hasContent chunk then contentText chunk ++ fullText chunks'
      else fullText chunks'
  end.

(** What the done handler extracts from the text of the records, and the
    response it hands to [onComplete]. *)
Definition structuredOf (chunks : list value) : value :=
  extractStructuredData JSON_parse (VStr (fullText chunks)).

Definition toolCallsOf (chunks : list value) : completion (option (list ToolCall)) :=
  if truthy (structuredOf chunks) then extractToolCalls (structuredOf chunks)
  else Normal None.

Definition responseOf (chunks : list value) (calls : option (list ToolCall))
  : AIQueryResponse :=
  {| text := VStr (fullText chunks); structuredOutput := structuredOf chunks;
     toolCalls := calls; error := None |}.

End QueryStream.

Definition textUpdates (cs : list call) : list jsstring :=
  flat_map (fun c => match c with TextUpdate t => [t] | _ => [] end) cs.

Definition completions (cs : list call) : list AIQueryResponse :=
  flat_map (fun c => match c with Complete r => [r] | _ => [] end) cs.

(** A reading that comes to an end: with [done], or with an error. *)
Definition comesToAnEnd (fin : ending) : bool :=
  match fin with EndPending => false | _ => true end.

(** The response [onComplete] gets when no text has arrived. *)
Definition emptyResponse : AIQueryResponse :=
  {| text := VStr []; structuredOutput := VUndefined; toolCalls := None; error := None |}.

(** Callbacks that take every call and return. *)
Definition listening : streamCallbacks :=
  {| onTextUpdate := Some (fun _ => Normal tt);
     onStructuredOutputUpdate := Some (fun _ => Normal tt);
     onToolCallsUpdate := Some (fun _ => Normal tt);
     onComplete := Some (fun _ => Normal tt);
     onError := Some (fun _ => Normal tt) |}.

(** A line of the service's stream that carries the text [content]. *)
Definition chunkLine (content : string) : jsstring :=
  lit "{" ++ Examples.quoted "message" ++ lit ":{" ++ Examples.quoted "content"
  ++ lit ":" ++ Examples.quoted content ++ lit "}}" ++ [10].

End Streaming.

(** * Properties *)

(** ** Strings *)

Lemma startsWith_nil : forall s, startsWith s [] = true.
Proof. now destruct s. Qed.

Lemma indexOf_cons : forall c s v,
  indexOf (c :: s) v =
    if startsWith (c :: s) v then Some O else option_map S (indexOf s v).
Proof. reflexivity. Qed.

Lemma indexOf_nil : forall v,
  indexOf [] v = if startsWith [] v then Some O else None.
Proof. reflexivity. Qed.

Lemma includes_cons : forall c s v, includes s v = true -> includes (c :: s) v = true.
Proof.
  unfold includes. intros c s v H. rewrite indexOf_cons.
  destruct (startsWith (c :: s) v); [reflexivity|].
  destruct (indexOf s v); [reflexivity | discriminate].
Qed.

Lemma includes_app_r : forall a b v, includes b v = true -> includes (a ++ b) v = true.
Proof.
  induction a as [|c a IH]; intros b v H; simpl; [assumption|].
  apply includes_cons. now apply IH.
Qed.

Lemma toLowerCase_app : forall a b, toLowerCase (a ++ b) = toLowerCase a ++ toLowerCase b.
Proof. intros. unfold toLowerCase. apply flat_map_app. Qed.

Lemma trimStart_suffix : forall s, exists ws, s = ws ++ trimStart s.
Proof.
  induction s as [|c s [ws IH]]; simpl.
  - now exists [].
  - destruct (isWhiteSpace c).
    + exists (c :: ws). simpl. now f_equal.
    + now exists [].
Qed.

Lemma trimStart_startsWhite : forall s, startsWhite (trimStart s) = false.
Proof.
  induction s as [|c s IH]; simpl; [reflexivity|].
  destruct (isWhiteSpace c) eqn:E; [assumption|]. simpl. exact E.
Qed.

Lemma trimEnd_prefix : forall s, exists ws, s = trimEnd s ++ ws.
Proof.
  intros s. unfold trimEnd.
  destruct (trimStart_suffix (rev s)) as [ws H].
  exists (rev ws).
  rewrite <- rev_app_distr, <- H. now rewrite rev_involutive.
Qed.

Lemma trim_startsWhite : forall s, startsWhite (trim s) = false.
Proof.
  intros s. unfold trim.
  pose proof (trimStart_startsWhite s) as H.
  destruct (trimEnd_prefix (trimStart s)) as [ws E].
  destruct (trimEnd (trimStart s)) as [|c t] eqn:T; [reflexivity|].
  rewrite E in H. exact H.
Qed.

Lemma trim_endsWhite : forall s, endsWhite (trim s) = false.
Proof.
  intros s. unfold endsWhite, trim, trimEnd.
  rewrite rev_involutive. apply trimStart_startsWhite.
Qed.

(** ** preprocessQuery *)

Import Preprocess.

Lemma hasNavigationVerb_prefix : forall p s,
  hasNavigationVerb s = true -> hasNavigationVerb (p ++ s) = true.
Proof.
  unfold hasNavigationVerb. intros p s H.
  rewrite toLowerCase_app.
  apply orb_true_iff in H. apply orb_true_iff.
  destruct H as [H|H]; [left|right]; now apply includes_app_r.
Qed.

Lemma preprocessQuery_with_verb : forall q,
  hasNavigationVerb (trim q) = true ->
  preprocessQuery q =
    if isBareDomain (trim q) then lit "https://" ++ trim q else trim q.
Proof.
  intros q H. unfold preprocessQuery.
  set (p := if isBareDomain (trim q) then lit "https://" ++ trim q else trim q).
  assert (Hp : hasNavigationVerb p = true).
  { subst p. destruct (isBareDomain (trim q)); [|assumption].
    now apply hasNavigationVerb_prefix. }
  unfold hasNavigationVerb in Hp.
  destruct (includes (toLowerCase p) (lit "go to"));
    destruct (includes (toLowerCase p) (lit "navigate"));
    try discriminate; now rewrite ?andb_false_r.
Qed.

Lemma preprocessQuery_shape : forall q,
  exists prefix, In prefix prefixes /\ preprocessQuery q = prefix ++ trim q.
Proof.
  intros q. unfold preprocessQuery, prefixes.
  destruct (isBareDomain (trim q)).
  - match goal with |- context [if ?b then _ else _] => destruct b end.
    + exists (lit "Navigate to https://"). split; [simpl; tauto | reflexivity].
    + exists (lit "https://"). split; [simpl; tauto | reflexivity].
  - match goal with |- context [if ?b then _ else _] => destruct b end.
    + exists (lit "Navigate to "). split; [simpl; tauto | reflexivity].
    + exists []. split; [simpl; tauto | reflexivity].
Qed.

(** The expectation of the service test for a query that is a URL. *)
Example preprocessQuery_url :
  preprocessQuery (lit "https://example.com") = lit "Navigate to https://example.com".
Proof. reflexivity. Qed.

(** C9, as the code has it: the query is trimmed (what is kept of it neither
    starts nor ends with white space, and only one of four fixed prefixes is
    put before it); ["example.com"] becomes
    ["Navigate to https://example.com"]; a query that contains ["go to"] or
    ["navigate"], in any case, is not given the navigation prefix: it is left
    as trimmed, except that a bare domain still receives its scheme. *)
Theorem preprocessQuery_trims_and_prefixes :
  (forall q,
      startsWhite (trim q) = false /\ endsWhite (trim q) = false /\
      exists prefix, In prefix prefixes /\ preprocessQuery q = prefix ++ trim q)
  /\ preprocessQuery (lit "example.com") = lit "Navigate to https://example.com"
  /\ (forall q, hasNavigationVerb (trim q) = true ->
        preprocessQuery q =
          if isBareDomain (trim q) then lit "https://" ++ trim q else trim q).
Proof.
  split; [|split].
  - intros q. split; [apply trim_startsWhite|].
    split; [apply trim_endsWhite | apply preprocessQuery_shape].
  - reflexivity.
  - exact preprocessQuery_with_verb.
Qed.

Lemma preprocessQuery_trims_and_prefixes_witness :
  preprocessQuery (lit "  Go To example.com ") = lit "Go To example.com".
Proof.
  exact (proj2 (proj2 preprocessQuery_trims_and_prefixes)
           (lit "  Go To example.com ") eq_refl).
Defined.

(** C9 as stated fails: ["navigate.com"] contains a navigation verb and is
    not left unchanged. *)
Lemma preprocessQuery_verb_counterexample :
  hasNavigationVerb (trim (lit "navigate.com")) = true
  /\ preprocessQuery (lit "navigate.com") = lit "https://navigate.com"
  /\ preprocessQuery (lit "navigate.com") <> trim (lit "navigate.com").
Proof.
  split; [reflexivity|]. split; [reflexivity|].
  vm_compute. discriminate.
Qed.

(** ** extractStructuredData: which span is selected *)

Import Extract.

Lemma lastIndexOfUnit_absent : forall s c,
  (forall x, In x s -> x <> c) -> lastIndexOfUnit s c = None.
Proof.
  induction s as [|x s IH]; intros c H; simpl; [reflexivity|].
  rewrite IH by (intros y Hy; apply H; now right).
  destruct (Z.eqb_spec x c) as [E|E]; [|reflexivity].
  exfalso. apply (H x); [now left | exact E].
Qed.

Lemma lastIndexOfUnit_last : forall mid post c,
  (forall x, In x post -> x <> c) ->
  lastIndexOfUnit (mid ++ c :: post) c = Some (List.length mid).
Proof.
  induction mid as [|x mid IH]; intros post c H; simpl.
  - rewrite lastIndexOfUnit_absent by assumption. now rewrite Z.eqb_refl.
  - now rewrite IH.
Qed.

Lemma firstn_through : forall (mid post : jsstring) c,
  firstn (S (List.length mid)) (mid ++ c :: post) = mid ++ [c].
Proof.
  induction mid as [|x mid IH]; intros post c; simpl; [reflexivity|].
  f_equal. apply IH.
Qed.

Lemma braceAt_first_to_last : forall mid post,
  (forall c, In c post -> c <> 125) ->
  braceAt (123 :: mid ++ 125 :: post) =
    Some {| whole := 123 :: mid ++ [125]; group1 := None |}.
Proof.
  intros mid post H. unfold braceAt. rewrite Z.eqb_refl.
  rewrite lastIndexOfUnit_last by assumption.
  unfold sliceTo. now rewrite firstn_through.
Qed.

Lemma braceAt_other : forall c s, c <> 123 -> braceAt (c :: s) = None.
Proof.
  intros c s H. unfold braceAt.
  destruct (Z.eqb_spec c 123); [contradiction | reflexivity].
Qed.

Lemma fenceAt_brace : forall s, fenceAt (123 :: s) = None.
Proof. reflexivity. Qed.

Lemma matchJson_skip : forall pre rest,
  (forall i, (i < List.length pre)%nat -> fenceAt (sliceFrom (pre ++ rest) i) = None) ->
  (forall c, In c pre -> c <> 123) ->
  matchJson (pre ++ rest) = matchJson rest.
Proof.
  induction pre as [|c pre IH]; intros rest Hf Hb; [reflexivity|].
  change ((c :: pre) ++ rest) with (c :: (pre ++ rest)).
  pose proof (Hf O ltac:(simpl; lia)) as H0. simpl in H0.
  cbn [matchJson]. rewrite H0.
  rewrite braceAt_other by (apply Hb; now left).
  apply IH.
  - intros i Hi. apply (Hf (S i)). simpl. lia.
  - intros x Hx. apply Hb. now right.
Qed.

Ltac scan_case H IH :=
  match type of H with
  | option_map _ (scanSpan ?d ?i ?e ?s) = Some _ =>
      let E := fresh "E" in
      destruct (scanSpan d i e s) as [sp|] eqn:E; [|discriminate];
      injection H as <-;
      let m := fresh "m" in let r := fresh "r" in
      let H1 := fresh in let H2 := fresh in
      destruct (IH _ _ _ _ E) as (m & r & H1 & H2);
      eexists (_ :: m), r; rewrite H1; split; [reflexivity|];
      simpl; rewrite H2, H1; reflexivity
  end.

Lemma scanSpan_shape : forall s depth inString escaped span,
  scanSpan depth inString escaped s = Some span ->
  exists mid rest, span = mid ++ [125] /\ s = span ++ rest.
Proof.
  induction s as [|c s IH]; intros depth inString escaped span H; [discriminate|].
  cbn [scanSpan] in H.
  destruct inString.
  - destruct escaped; [scan_case H IH|].
    destruct (c =? 92); [scan_case H IH|].
    destruct (c =? 34); scan_case H IH.
  - destruct (c =? 34); [scan_case H IH|].
    destruct (c =? 123); [scan_case H IH|].
    destruct (Z.eqb_spec c 125) as [->|]; [|scan_case H IH].
    destruct depth; [|scan_case H IH].
    injection H as <-. now exists [], s.
Qed.

Lemma firstTopLevelSpan_shape : forall s span,
  firstTopLevelSpan s = Some span -> exists mid, span = 123 :: mid ++ [125].
Proof.
  induction s as [|c s IH]; intros span H; [discriminate|].
  cbn [firstTopLevelSpan] in H.
  destruct (Z.eqb_spec c 123) as [->|]; [|now apply IH].
  destruct (scanSpan 0 false false s) as [sp|] eqn:E; [|discriminate].
  injection H as <-.
  destruct (scanSpan_shape _ _ _ _ _ E) as (m & r & -> & _).
  now exists m.
Qed.

(** C1, as the code has it.  When no fenced block matches before the first
    opening brace, the expression selects the code units from the first
    opening brace of the text to the LAST closing brace of the text; it
    tracks neither string literals nor nesting.  The selection is the first
    top-level brace-delimited span whenever no closing brace follows that
    span. *)
Theorem matchJson_first_to_last_brace :
  (forall pre mid post,
      (forall i, (i < List.length pre)%nat ->
                 fenceAt (sliceFrom (pre ++ 123 :: mid ++ 125 :: post) i) = None) ->
      (forall c, In c pre -> c <> 123) ->
      (forall c, In c post -> c <> 125) ->
      matchJson (pre ++ 123 :: mid ++ 125 :: post) =
        Some {| whole := 123 :: mid ++ [125]; group1 := None |}
      /\ payload (pre ++ 123 :: mid ++ 125 :: post) = Some (trim (123 :: mid ++ [125])))
  /\ (forall pre span post,
      firstTopLevelSpan (pre ++ span ++ post) = Some span ->
      (forall i, (i < List.length pre)%nat ->
                 fenceAt (sliceFrom (pre ++ span ++ post) i) = None) ->
      (forall c, In c pre -> c <> 123) ->
      (forall c, In c post -> c <> 125) ->
      matchJson (pre ++ span ++ post) = Some {| whole := span; group1 := None |}).
Proof.
  assert (A : forall pre mid post,
      (forall i, (i < List.length pre)%nat ->
                 fenceAt (sliceFrom (pre ++ 123 :: mid ++ 125 :: post) i) = None) ->
      (forall c, In c pre -> c <> 123) ->
      (forall c, In c post -> c <> 125) ->
      matchJson (pre ++ 123 :: mid ++ 125 :: post) =
        Some {| whole := 123 :: mid ++ [125]; group1 := None |}).
  { intros pre mid post Hf Hpre Hpost.
    rewrite matchJson_skip by assumption.
    cbn [matchJson]. rewrite fenceAt_brace.
    now rewrite braceAt_first_to_last. }
  split.
  - intros pre mid post Hf Hpre Hpost. split; [now apply A|].
    unfold payload. rewrite A by assumption. reflexivity.
  - intros pre span post Hs Hf Hpre Hpost.
    destruct (firstTopLevelSpan_shape _ _ Hs) as [mid ->].
    change ((123 :: mid ++ [125]) ++ post) with (123 :: (mid ++ [125]) ++ post) in *.
    rewrite <- app_assoc in *. simpl in *.
    now apply A.
Qed.

Lemma matchJson_first_to_last_brace_witness :
  matchJson (lit "ok: {a{b}c} done") =
    Some {| whole := lit "{a{b}c}"; group1 := None |}.
Proof.
  refine (proj2 matchJson_first_to_last_brace
            (lit "ok: ") (lit "{a{b}c}") (lit " done") _ _ _ _).
  - reflexivity.
  - intros i Hi.
    do 4 (destruct i as [|i]; [reflexivity|]). simpl in Hi. lia.
  - intros c Hc. simpl in Hc.
    repeat (destruct Hc as [<-|Hc]; [discriminate|]). contradiction.
  - intros c Hc. simpl in Hc.
    repeat (destruct Hc as [<-|Hc]; [discriminate|]). contradiction.
Defined.

(** C1 as stated fails: on two objects in a row the expression takes both
    as one span, which is not the first top-level span and does not parse,
    while the first top-level span does. *)
Lemma matchJson_span_counterexample :
  matchJson (lit "{} {}") = Some {| whole := lit "{} {}"; group1 := None |}
  /\ firstTopLevelSpan (lit "{} {}") = Some (lit "{}")
  /\ payload (lit "{} {}") <> firstTopLevelSpan (lit "{} {}")
  /\ extractStructuredData Json.parse (VStr (lit "{} {}")) = VUndefined
  /\ Json.parse (lit "{}") = Normal (VObj []).
Proof.
  repeat split; try reflexivity.
  vm_compute. discriminate.
Qed.

(** ** post *)

Section PostFacts.

Variable cfg : config.
Variable net : Z -> settle response.
Variable url : jsstring.
Variable data : value.

Lemma attemptOnce_fetches : forall k,
  filter isFetchOrSleep (snd (attemptOnce cfg net url data k)) = [EvFetch url data].
Proof.
  intros k. unfold attemptOnce.
  destruct (net k) as [r| |]; try reflexivity.
  destruct (ok r); simpl.
  - destruct (json r) as [v|]; [|reflexivity].
    destruct (isErrorResponse v); reflexivity.
  - destruct (Platform.text r); reflexivity.
Qed.

Lemma attemptOnce_fetch_count : forall k,
  countIf isFetch (snd (attemptOnce cfg net url data k)) = 1%nat.
Proof.
  intros k. unfold attemptOnce, countIf.
  destruct (net k) as [r| |]; try reflexivity.
  destruct (ok r); simpl.
  - destruct (json r) as [v|]; [|reflexivity].
    destruct (isErrorResponse v); reflexivity.
  - destruct (Platform.text r); reflexivity.
Qed.

Lemma countIf_app : forall p a b, countIf p (a ++ b) = (countIf p a + countIf p b)%nat.
Proof. intros. unfold countIf. now rewrite filter_app, length_app. Qed.

(** The errors an attempt throws. *)
Lemma attemptOnce_error : forall k e,
  fst (attemptOnce cfg net url data k) = Throw e ->
  (exists n m, e = PlatformError n m /\ serviceFault (net k) = false)
  \/ (exists t st, e = OllamaAPIError (lit "API " ++ t) st /\ serviceFault (net k) = true).
Proof.
  intros k e. unfold attemptOnce, serviceFault.
  destruct (net k) as [r|n m|]; simpl.
  - destruct (ok r); simpl.
    + destruct (json r) as [v|n m]; simpl.
      * destruct (isErrorResponse v); simpl; [|discriminate].
        intros [= <-]. right. now eexists _, _.
      * intros [= <-]. left. now eexists _, _.
    + destruct (Platform.text r) as [t|n m]; simpl; intros [= <-].
      * right. now eexists _, _.
      * left. now eexists _, _.
  - intros [= <-]. left. now eexists _, _.
  - intros [= <-]. left. now eexists _, _.
Qed.

Lemma attemptOnce_success : forall k v,
  fst (attemptOnce cfg net url data k) = Normal v -> isErrorResponse v = false.
Proof.
  intros k v. unfold attemptOnce.
  destruct (net k) as [r|n m|]; simpl; try discriminate.
  destruct (ok r); simpl.
  - destruct (json r) as [w|n m]; simpl; [|discriminate].
    destruct (isErrorResponse w) eqn:E; simpl; [discriminate|].
    now intros [= <-].
  - destruct (Platform.text r); discriminate.
Qed.

Lemma surfaced_kind : forall k e,
  fst (attemptOnce cfg net url data k) = Throw e ->
  instanceofOllamaAPIError (surfaced e) = true
  /\ instanceofOllamaNetworkError (surfaced e) = negb (serviceFault (net k))
  /\ surfaced e <> maximumReached.
Proof.
  intros k e H.
  destruct (attemptOnce_error _ _ H) as [(n & m & -> & ->)|(t & st & -> & ->)].
  - repeat split. discriminate.
  - repeat split. unfold surfaced, maximumReached. simpl. discriminate.
Qed.

(** One turn of the loop whose attempt throws: the error surfaces on the
    last attempt, otherwise the loop sleeps and goes on. *)
Lemma postLoop_failed_attempt : forall fuel attempt e tr,
  attempt < retryAttempts cfg ->
  attemptOnce cfg net url data (attempt + 1) = (Throw e, tr) ->
  postLoop cfg net (S fuel) url data attempt =
    if attempt + 1 >=? retryAttempts cfg then
      Some (Throw (surfaced e),
            if instanceofOllamaAPIError e then tr
            else tr ++ [EvLogError (lit "Network error:")])
    else
      match postLoop cfg net fuel url data (attempt + 1) with
      | Some (r', tr') =>
          Some (r', tr ++ [EvLogWarn (lit "Request failed, retrying");
                           EvSleep (retryDelayMs cfg)] ++ tr')
      | None => None
      end.
Proof.
  intros fuel attempt e tr Hlt E. cbn [postLoop].
  destruct (Z.ltb_spec attempt (retryAttempts cfg)); [|lia].
  now rewrite E.
Qed.

Lemma postLoop_returning_attempt : forall fuel attempt v tr,
  attempt < retryAttempts cfg ->
  attemptOnce cfg net url data (attempt + 1) = (Normal v, tr) ->
  postLoop cfg net (S fuel) url data attempt = Some (Normal v, tr).
Proof.
  intros fuel attempt v tr Hlt E. cbn [postLoop].
  destruct (Z.ltb_spec attempt (retryAttempts cfg)); [|lia].
  now rewrite E.
Qed.

Lemma filter_isFetchOrSleep_log : forall tr what,
  filter isFetchOrSleep (tr ++ [EvLogError what]) = filter isFetchOrSleep tr.
Proof. intros. rewrite filter_app. simpl. apply app_nil_r. Qed.


(** The loop, started with [n + 1] attempts left, ends in one of its
    attempts. *)
Lemma postLoop_ends_in_attempt : forall n fuel attempt,
  retryAttempts cfg - attempt = Z.of_nat (S n) ->
  (n < fuel)%nat ->
  exists r tr,
    postLoop cfg net fuel url data attempt = Some (r, tr)
    /\ ((exists k v, attempt < k <= retryAttempts cfg
                     /\ fst (attemptOnce cfg net url data k) = Normal v /\ r = Normal v)
        \/ (exists e, fst (attemptOnce cfg net url data (retryAttempts cfg)) = Throw e
                      /\ r = Throw (surfaced e)))
    /\ (1 <= countIf isFetch tr)%nat.
Proof.
  induction n as [|n IH]; intros fuel attempt HN Hfuel;
    (destruct fuel as [|fuel]; [lia|]);
    pose proof (attemptOnce_fetch_count (attempt + 1)) as F;
    destruct (attemptOnce cfg net url data (attempt + 1)) as [[v|e] tr] eqn:E;
    simpl in F.
  - rewrite (postLoop_returning_attempt fuel attempt _ _ ltac:(lia) E).
    eexists _, _. split; [reflexivity|]. split; [|lia].
    left. exists (attempt + 1), v. rewrite E. repeat split; try lia; reflexivity.
  - rewrite (postLoop_failed_attempt fuel attempt _ _ ltac:(lia) E).
    destruct (Z.geb_spec (attempt + 1) (retryAttempts cfg)); [|lia].
    eexists _, _. split; [reflexivity|].
    assert (EN : attempt + 1 = retryAttempts cfg) by lia. split.
    + right. exists e. rewrite <- EN, E. now split.
    + destruct (instanceofOllamaAPIError e); [lia|].
      rewrite countIf_app. lia.
  - rewrite (postLoop_returning_attempt fuel attempt _ _ ltac:(lia) E).
    eexists _, _. split; [reflexivity|]. split; [|lia].
    left. exists (attempt + 1), v. rewrite E. repeat split; try lia; reflexivity.
  - rewrite (postLoop_failed_attempt fuel attempt _ _ ltac:(lia) E).
    destruct (Z.geb_spec (attempt + 1) (retryAttempts cfg)); [lia|].
    destruct (IH fuel (attempt + 1) ltac:(lia) ltac:(lia)) as (r & tr' & Hp & Hr & Hc).
    rewrite Hp. eexists _, _. split; [reflexivity|]. split.
    + destruct Hr as [(k & v & Hk & Hv & ->)|(e' & He' & ->)].
      * left. exists k, v. repeat split; try lia; assumption.
      * right. now exists e'.
    + rewrite !countIf_app. lia.
Qed.

End PostFacts.

Lemma postLoop_never_returns_error_payload : forall cfg net url data fuel attempt v tr,
  postLoop cfg net fuel url data attempt = Some (Normal v, tr) ->
  isErrorResponse v = false.
Proof.
  intros cfg net url data.
  induction fuel as [|fuel IH]; intros attempt v tr H; [discriminate|].
  cbn [postLoop] in H.
  destruct (attempt <? retryAttempts cfg); [|discriminate].
  destruct (attemptOnce cfg net url data (attempt + 1)) as [[w|e] tr1] eqn:E.
  - injection H as <- <-.
    apply (attemptOnce_success cfg net url data (attempt + 1)). now rewrite E.
  - destruct (attempt + 1 >=? retryAttempts cfg); [discriminate|].
    destruct (postLoop cfg net fuel url data (attempt + 1)) as [[r' tr']|] eqn:P;
      [|discriminate].
    injection H as -> <-. now apply (IH _ _ _ P).
Qed.

Lemma countIf_fetchesAndSleeps : forall url data delay n,
  countIf isFetch (fetchesAndSleeps url data delay n) = n.
Proof.
  intros url data delay. induction n as [|n IH]; [reflexivity|].
  destruct n as [|n]; [reflexivity|].
  change (fetchesAndSleeps url data delay (S (S n)))
    with (EvFetch url data :: EvSleep delay :: fetchesAndSleeps url data delay (S n)).
  unfold countIf in *. cbn [filter isFetch List.length]. now rewrite IH.
Qed.

Lemma countIf_isFetch_projection : forall tr,
  countIf isFetch (filter isFetchOrSleep tr) = countIf isFetch tr.
Proof.
  unfold countIf. induction tr as [|e tr IH]; [reflexivity|].
  destruct e; simpl; try assumption. now rewrite IH.
Qed.



(** C10: with at least one attempt configured, [post] ends inside one of
    its attempts, by the return of a parsed response or by the throw of the
    last attempt, and never by the throw after the loop; with no attempt
    configured it throws that error and fetches nothing. *)
Theorem post_fall_through : forall cfg net endpoint data,
  (1 <= retryAttempts cfg ->
     exists r tr,
       post cfg net endpoint data = Some (r, tr)
       /\ r <> Throw maximumReached
       /\ ((exists k v, 1 <= k <= retryAttempts cfg
              /\ fst (attemptOnce cfg net (urlOf cfg endpoint) data k) = Normal v
              /\ r = Normal v)
           \/ (exists e,
                 fst (attemptOnce cfg net (urlOf cfg endpoint) data (retryAttempts cfg))
                   = Throw e
                 /\ r = Throw (surfaced e)))
       /\ (1 <= countIf isFetch tr)%nat)
  /\ (retryAttempts cfg <= 0 ->
        post cfg net endpoint data = Some (Throw maximumReached, [])).
Proof.
  intros cfg net endpoint data. split; intros HN; unfold post.
  - destruct (Z.to_nat (retryAttempts cfg)) as [|n] eqn:En; [lia|].
    destruct (postLoop_ends_in_attempt cfg net (urlOf cfg endpoint) data n (S (S n)) 0)
      as (r & tr & Hp & Hr & Hc); [lia | lia |].
    exists r, tr. split; [exact Hp|]. split; [|split; [|exact Hc]].
    + destruct Hr as [(k & v & _ & _ & ->)|(e & He & ->)]; [discriminate|].
      intros [= H]. now apply (surfaced_kind cfg net _ _ _ _ He).
    + destruct Hr as [(k & v & Hk & Hv & ->)|(e & He & ->)].
      * left. exists k, v. repeat split; try lia; assumption.
      * right. now exists e.
  - cbn [postLoop]. destruct (Z.ltb_spec 0 (retryAttempts cfg)); [lia | reflexivity].
Qed.

Lemma post_fall_through_witness :
  (exists r tr,
      post Examples.defaults (fun _ => Resolves (Examples.okJson (VObj []))) (lit "tags") (VObj [])
        = Some (r, tr)
      /\ r <> Throw maximumReached)
  /\ post Examples.noAttempts (fun _ => Pending) (lit "tags") (VObj [])
     = Some (Throw maximumReached, []).
Proof.
  split.
  - destruct (proj1 (post_fall_through Examples.defaults
                       (fun _ => Resolves (Examples.okJson (VObj [])))
                       (lit "tags") (VObj [])))
      as (r & tr & Hp & Hr & _); [simpl; lia|].
    now exists r, tr.
  - apply (proj2 (post_fall_through Examples.noAttempts (fun _ => Pending)
                    (lit "tags") (VObj []))).
    simpl. lia.
Defined.

Lemma isErrorResponse_string : forall result,
  isErrorResponse result = true -> exists s, propOr result (lit "error") = VStr s.
Proof.
  intros result H. unfold isErrorResponse in H.
  apply andb_true_iff in H. destruct H as [_ H].
  unfold typeofString in H.
  destruct (propOr result (lit "error")); try discriminate. now eexists.
Qed.

(** The guard [isErrorResponse] holds exactly of the objects whose [error]
    property is a string, whatever other properties they have. *)
Lemma isErrorResponse_shape : forall props s,
  lookup props (lit "error") = Some (VStr s) ->
  isErrorResponse (VObj props) = true
  /\ propOr (VObj props) (lit "error") = VStr s.
Proof.
  intros props s H. unfold isErrorResponse, inObject, propOr, getProp.
  rewrite H. split; reflexivity.
Qed.

Lemma isErrorResponse_inv : forall v,
  isErrorResponse v = true ->
  exists props s, v = VObj props /\ lookup props (lit "error") = Some (VStr s).
Proof.
  intros v H. unfold isErrorResponse in H.
  destruct v as [| | | | | |props]; try discriminate.
  unfold inObject, propOr, getProp in H. cbn [typeofObject isNull negb andb] in H.
  destruct (lookup props (lit "error")) as [[| | | |s| |]|] eqn:L; try discriminate.
  now exists props, s.
Qed.

(** C8: a response with a good status whose body is an object with a
    string for its [error] property, whatever else the object holds, makes
    the attempt throw an OllamaAPIError with that string, after which the
    loop goes on exactly as after a response with a bad status; and [post]
    never returns a value of that shape. *)
Theorem error_payload_is_failed_attempt : forall cfg net endpoint data,
  (forall fuel attempt response props s,
      attempt < retryAttempts cfg ->
      net (attempt + 1) = Resolves response ->
      ok response = true ->
      json response = Fulfilled (VObj props) ->
      lookup props (lit "error") = Some (VStr s) ->
      exists tr,
        attemptOnce cfg net (urlOf cfg endpoint) data (attempt + 1)
           = (Throw (OllamaAPIError (lit "API returned error: " ++ s) None), tr)
        /\ postLoop cfg net (S fuel) (urlOf cfg endpoint) data attempt
           = afterFailure cfg net fuel (urlOf cfg endpoint) data attempt
               (OllamaAPIError (lit "API returned error: " ++ s) None) tr)
  /\ (forall fuel attempt response t,
      attempt < retryAttempts cfg ->
      net (attempt + 1) = Resolves response ->
      ok response = false ->
      Platform.text response = Fulfilled t ->
      exists tr,
        attemptOnce cfg net (urlOf cfg endpoint) data (attempt + 1)
          = (Throw (OllamaAPIError (lit "API error: " ++ t) (Some (status response))), tr)
        /\ postLoop cfg net (S fuel) (urlOf cfg endpoint) data attempt
           = afterFailure cfg net fuel (urlOf cfg endpoint) data attempt
               (OllamaAPIError (lit "API error: " ++ t) (Some (status response))) tr)
  /\ (forall props s tr,
      lookup props (lit "error") = Some (VStr s) ->
      post cfg net endpoint data <> Some (Normal (VObj props), tr)).
Proof.
  intros cfg net endpoint data. split; [|split].
  - intros fuel attempt response props s Hlt Hnet Hok Hjson Hshape.
    destruct (isErrorResponse_shape props s Hshape) as [Herr Hs].
    assert (E : attemptOnce cfg net (urlOf cfg endpoint) data (attempt + 1)
                = (Throw (OllamaAPIError (lit "API returned error: " ++ s) None),
                   [EvSetTimeout (timeoutMs cfg); EvFetch (urlOf cfg endpoint) data;
                    EvClearTimeout; EvLogError (lit "API returned error")])).
    { unfold attemptOnce. rewrite Hnet, Hok, Hjson, Herr, Hs. reflexivity. }
    eexists. split; [exact E|].
    rewrite (postLoop_failed_attempt cfg net _ _ fuel attempt _ _ Hlt E).
    reflexivity.
  - intros fuel attempt response t Hlt Hnet Hok Htext.
    assert (E : attemptOnce cfg net (urlOf cfg endpoint) data (attempt + 1)
                = (Throw (OllamaAPIError (lit "API error: " ++ t) (Some (status response))),
                   [EvSetTimeout (timeoutMs cfg); EvFetch (urlOf cfg endpoint) data;
                    EvClearTimeout; EvLogError (lit "API error")])).
    { unfold attemptOnce. rewrite Hnet, Hok, Htext. reflexivity. }
    eexists. split; [exact E|].
    rewrite (postLoop_failed_attempt cfg net _ _ fuel attempt _ _ Hlt E).
    reflexivity.
  - intros props s tr Hshape H. unfold post in H.
    pose proof (postLoop_never_returns_error_payload _ _ _ _ _ _ _ _ H) as N.
    destruct (isErrorResponse_shape props s Hshape) as [Herr _]. congruence.
Qed.

(** The error payload of the client's test, on the first of three
    attempts. *)
Lemma error_payload_is_failed_attempt_witness :
  exists tr,
    attemptOnce Examples.defaults (fun _ => Resolves (Examples.okJson Examples.errorPayload))
         (urlOf Examples.defaults (lit "tags")) (VObj []) (0 + 1)
       = (Throw (OllamaAPIError (lit "API returned error: " ++ lit "Something went wrong")
                   None), tr)
    /\ postLoop Examples.defaults (fun _ => Resolves (Examples.okJson Examples.errorPayload))
         4 (urlOf Examples.defaults (lit "tags")) (VObj []) 0
       = afterFailure Examples.defaults
           (fun _ => Resolves (Examples.okJson Examples.errorPayload))
           3 (urlOf Examples.defaults (lit "tags")) (VObj []) 0
           (OllamaAPIError (lit "API returned error: " ++ lit "Something went wrong") None)
           tr.
Proof.
  apply (proj1 (error_payload_is_failed_attempt Examples.defaults
                  (fun _ => Resolves (Examples.okJson Examples.errorPayload))
                  (lit "tags") (VObj []))
           3%nat 0 (Examples.okJson Examples.errorPayload)
           [(lit "error", VStr (lit "Something went wrong"))]
           (lit "Something went wrong")).
  - simpl. lia.
  - reflexivity.
  - reflexivity.
  - reflexivity.
  - reflexivity.
Defined.

(** ** query *)

Import Service.

Lemma surfaced_instanceof : forall e, instanceofOllamaAPIError (surfaced e) = true.
Proof.
  intros e. unfold surfaced.
  destruct (instanceofOllamaAPIError e) eqn:E; [exact E | reflexivity].
Qed.

Lemma postLoop_throws_api : forall cfg net url data fuel attempt e tr,
  postLoop cfg net fuel url data attempt = Some (Throw e, tr) ->
  instanceofOllamaAPIError e = true.
Proof.
  intros cfg net url data.
  induction fuel as [|fuel IH]; intros attempt e tr H; [discriminate|].
  cbn [postLoop] in H.
  destruct (attempt <? retryAttempts cfg); [|now injection H as <- <-].
  destruct (attemptOnce cfg net url data (attempt + 1)) as [[w|e1] tr1];
    [discriminate|].
  destruct (attempt + 1 >=? retryAttempts cfg).
  - injection H as <- <-. apply surfaced_instanceof.
  - destruct (postLoop cfg net fuel url data (attempt + 1)) as [[r' tr']|] eqn:P;
      [|discriminate].
    injection H as -> <-. now apply (IH _ _ _ P).
Qed.

Lemma post_total : forall cfg net endpoint data,
  exists r tr, post cfg net endpoint data = Some (r, tr).
Proof.
  intros cfg net endpoint data. unfold post.
  destruct (Z.to_nat (retryAttempts cfg)) as [|n] eqn:En.
  - cbn [postLoop]. destruct (Z.ltb_spec 0 (retryAttempts cfg)); [lia|].
    now eexists _, _.
  - destruct (postLoop_ends_in_attempt cfg net (urlOf cfg endpoint) data n (S (S n)) 0)
      as (r & tr & Hp & _); [lia | lia |].
    now exists r, tr.
Qed.

Lemma interpret_success : forall JSON_parse response resp,
  interpret JSON_parse response = Normal resp ->
  error resp = None
  /\ exists message,
       getProp response (lit "message") = Normal message
       /\ getProp message (lit "content") = Normal (text resp)
       /\ structuredOutput resp = extractStructuredData JSON_parse (text resp).
Proof.
  intros JSON_parse response resp. unfold interpret.
  destruct (getProp response (lit "message")) as [m|] eqn:Em; [|discriminate].
  cbn [bind].
  destruct (getProp m (lit "content")) as [t|] eqn:Ec; [|discriminate].
  cbn [bind].
  destruct (if truthy (extractStructuredData JSON_parse t)
            then extractToolCalls (extractStructuredData JSON_parse t)
            else Normal None) as [c|]; [|discriminate].
  cbn [bind]. intros [= <-]. split; [reflexivity|].
  exists m. split; [reflexivity|]. split; [exact Ec | reflexivity].
Qed.

(** What the statements after the chat call throw is a TypeError of the
    platform, never an error of the client's classes. *)
Lemma getProp_throws : forall v name e,
  getProp v name = Throw e -> exists m, e = PlatformError (lit "TypeError") m.
Proof.
  intros v name e H. unfold getProp in H.
  destruct v; try discriminate; injection H as <-; now eexists.
Qed.

Lemma hasProp_throws : forall name v e,
  hasProp name v = Throw e -> exists m, e = PlatformError (lit "TypeError") m.
Proof.
  intros name v e H. unfold hasProp in H.
  destruct v; try discriminate; injection H as <-; now eexists.
Qed.

Lemma mapActions_throws : forall actions e,
  mapActions actions = Throw e -> exists m, e = PlatformError (lit "TypeError") m.
Proof.
  induction actions as [|action actions IH]; intros e H; [discriminate|].
  cbn [mapActions] in H.
  destruct (getProp action (lit "action")) as [n|e1] eqn:G1; cbn [bind] in H;
    [|injection H as <-; exact (getProp_throws _ _ _ G1)].
  destruct (getProp action (lit "parameters")) as [p|e2] eqn:G2; cbn [bind] in H;
    [|injection H as <-; exact (getProp_throws _ _ _ G2)].
  destruct (mapActions actions) as [rest|e3]; cbn [bind] in H; [discriminate|].
  injection H as <-. now apply IH.
Qed.

Lemma extractToolCalls_throws : forall v e,
  extractToolCalls v = Throw e -> exists m, e = PlatformError (lit "TypeError") m.
Proof.
  intros v e H. unfold extractToolCalls in H.
  destruct (truthy v); [|discriminate].
  destruct (hasProp (lit "browser_actions") v) as [[|]|e1] eqn:P; cbn [bind] in H;
    [| discriminate | injection H as <-; exact (hasProp_throws _ _ _ P)].
  destruct (getProp v (lit "browser_actions")) as [actions|e2] eqn:G; cbn [bind] in H;
    [|injection H as <-; exact (getProp_throws _ _ _ G)].
  destruct actions as [| | | | |items|]; try discriminate.
  destruct (mapActions items) as [calls|e3] eqn:M; cbn [bind] in H; [discriminate|].
  injection H as <-. exact (mapActions_throws _ _ M).
Qed.

Lemma interpret_throws : forall JSON_parse response e,
  interpret JSON_parse response = Throw e ->
  exists m, e = PlatformError (lit "TypeError") m.
Proof.
  intros JSON_parse response e H. unfold interpret in H.
  destruct (getProp response (lit "message")) as [m|e1] eqn:G1; cbn [bind] in H;
    [|injection H as <-; exact (getProp_throws _ _ _ G1)].
  destruct (getProp m (lit "content")) as [t|e2] eqn:G2; cbn [bind] in H;
    [|injection H as <-; exact (getProp_throws _ _ _ G2)].
  destruct (truthy (extractStructuredData JSON_parse t)).
  - destruct (extractToolCalls (extractStructuredData JSON_parse t)) as [c|e3] eqn:T;
      cbn [bind] in H; [discriminate|].
    injection H as <-. exact (extractToolCalls_throws _ _ T).
  - discriminate.
Qed.

(** C6: [query] always returns a result and never throws; the chat call
    ends, and one of three cases applies.  When the chat call throws, the
    result holds the fixed message about the backend and, in [error], the
    message of the error that was thrown.  When the chat call returns and
    a statement after it throws, the result holds the fixed message about
    an unexpected error and, in [error], the message of the error that was
    thrown.  When nothing throws, the result is the one the [try] block
    builds: no [error], the content of the reply as its text, and what was
    extracted from that text. *)
Theorem query_never_raises : forall cfg net JSON_parse systemPrompt q,
  exists resp tr,
    query cfg net JSON_parse systemPrompt q = Some (Normal resp, tr)
    /\ (exists r,
          chat cfg net (model cfg)
            [chatMessage (lit "system") systemPrompt;
             chatMessage (lit "user") (preprocessQuery q)] (lit "json")
            = Some (r, tr))
    /\ (forall e tr',
          chat cfg net (model cfg)
            [chatMessage (lit "system") systemPrompt;
             chatMessage (lit "user") (preprocessQuery q)] (lit "json")
            = Some (Throw e, tr') ->
          resp = {| text := VStr backendMessage; structuredOutput := VUndefined;
                    toolCalls := None; error := Some (message e) |})
    /\ (forall response tr' e,
          chat cfg net (model cfg)
            [chatMessage (lit "system") systemPrompt;
             chatMessage (lit "user") (preprocessQuery q)] (lit "json")
            = Some (Normal response, tr') ->
          interpret JSON_parse response = Throw e ->
          resp = {| text := VStr unexpectedMessage; structuredOutput := VUndefined;
                    toolCalls := None; error := Some (message e) |})
    /\ (forall response tr' built,
          chat cfg net (model cfg)
            [chatMessage (lit "system") systemPrompt;
             chatMessage (lit "user") (preprocessQuery q)] (lit "json")
            = Some (Normal response, tr') ->
          interpret JSON_parse response = Normal built ->
          resp = built
          /\ error resp = None
          /\ exists message,
               getProp response (lit "message") = Normal message
               /\ getProp message (lit "content") = Normal (text resp)
               /\ structuredOutput resp = extractStructuredData JSON_parse (text resp)).
Proof.
  intros cfg net JSON_parse systemPrompt q. unfold query.
  set (messages := [chatMessage (lit "system") systemPrompt;
                    chatMessage (lit "user") (preprocessQuery q)]).
  unfold chat.
  destruct (post_total cfg net (lit "chat")
              (chatRequest cfg (model cfg) messages (lit "json") false))
    as (r & tr & Hp).
  rewrite Hp. destruct r as [response|e].
  - cbn [bind].
    destruct (interpret JSON_parse response) as [resp|e] eqn:I.
    + exists resp, tr. split; [reflexivity|]. split; [now eexists|].
      split; [intros e tr' [=]|]. split.
      * intros response' tr' e [= <- <-]. rewrite I. discriminate.
      * intros response' tr' built [= <- <-]. rewrite I. intros [= <-].
        destruct (interpret_success _ _ _ I) as (He & m & Hm & Hc & Hs).
        split; [reflexivity|]. split; [exact He|]. now exists m.
    + cbn [tryCatch]. unfold recover.
      destruct (interpret_throws _ _ _ I) as [m ->].
      cbn [instanceofOllamaAPIError instanceofOllamaNetworkError orb].
      eexists _, tr. split; [reflexivity|]. split; [now eexists|].
      split; [intros e' tr' [=]|]. split.
      * intros response' tr' e' [= <- <-]. rewrite I. now intros [= <-].
      * intros response' tr' built [= <- <-]. rewrite I. discriminate.
  - cbn [bind tryCatch]. unfold recover.
    rewrite (postLoop_throws_api _ _ _ _ _ _ _ _ Hp). cbn [orb].
    eexists _, tr. split; [reflexivity|]. split; [now eexists|]. split.
    + now intros e' tr' [= <- <-].
    + split; intros response' tr' x [=].
Qed.

(** The two successful queries of the service test. *)
Example query_plain_text :
  option_map fst
    (query Examples.defaults
       (fun _ => Resolves (Examples.okJson
                             (Examples.chatReply (lit "This is a standard text response."))))
       Json.parse (lit "You are an AI assistant.") (lit "Tell me about the weather"))
  = Some (Normal {| text := VStr (lit "This is a standard text response.");
                    structuredOutput := VUndefined; toolCalls := None; error := None |}).
Proof. reflexivity. Qed.

Example query_tool_calls :
  option_map
    (fun r => match fst r with Normal resp => toolCalls resp | Throw _ => None end)
    (query Examples.defaults
       (fun _ => Resolves (Examples.okJson (Examples.chatReply Examples.navigateReply)))
       Json.parse (lit "You are an AI assistant.") (lit "Go to google.com"))
  = Some (Some [{| name := VStr (lit "navigate");
                   parameters := VObj [(lit "url", VStr (lit "https://www.google.com"))] |}]).
Proof. reflexivity. Qed.

(** A chat call answered three times with status 500; and a reply without
    a message, on which the statement after the chat call throws. *)
Lemma query_never_raises_witness :
  (exists resp tr,
     query Examples.defaults (fun _ => Resolves Examples.serverError) Json.parse
       (lit "You are an AI assistant.") (lit " example.com ")
       = Some (Normal resp, tr)
     /\ resp = {| text := VStr backendMessage; structuredOutput := VUndefined;
                  toolCalls := None;
                  error := Some (lit "API error: Internal server error") |})
  /\ (exists resp tr e,
        query Examples.defaults (fun _ => Resolves (Examples.okJson (VObj []))) Json.parse
          (lit "You are an AI assistant.") (lit " example.com ")
          = Some (Normal resp, tr)
        /\ interpret Json.parse (VObj []) = Throw e
        /\ resp = {| text := VStr unexpectedMessage; structuredOutput := VUndefined;
                     toolCalls := None; error := Some (message e) |}).
Proof.
  split.
  - destruct (query_never_raises Examples.defaults (fun _ => Resolves Examples.serverError)
                Json.parse (lit "You are an AI assistant.") (lit " example.com "))
      as (resp & tr & Hq & _ & Hfail & _).
    exists resp, tr. split; [exact Hq|].
    refine (Hfail (OllamaAPIError (lit "API error: Internal server error") (Some 500)) _ _).
    reflexivity.
  - destruct (query_never_raises Examples.defaults
                (fun _ => Resolves (Examples.okJson (VObj [])))
                Json.parse (lit "You are an AI assistant.") (lit " example.com "))
      as (resp & tr & Hq & _ & _ & Hthrow & _).
    exists resp, tr. eexists. split; [exact Hq|]. split; [reflexivity|].
    refine (Hthrow (VObj []) _ _ _ eq_refl). reflexivity.
Defined.

(** ** stream: decoding and line reassembly *)

Lemma decode_app : forall a b d,
  decode d (a ++ b) =
    let '(d1, o1) := decode d a in
    let '(d2, o2) := decode d1 b in (d2, o1 ++ o2).
Proof.
  induction a as [|x a IH]; intros b d.
  - cbn [app decode]. destruct (decode d b). reflexivity.
  - cbn [app decode]. destruct (decodeByte d x) as [d1 o1]. rewrite IH.
    destruct (decode d1 a) as [d2 o2]. destruct (decode d2 b) as [d3 o3].
    now rewrite app_assoc.
Qed.

Lemma linesOf_cons : forall c s,
  linesOf (c :: s) =
    let '(ls, r) := linesOf s in
    if c =? 10 then ([] :: ls, r)
    else match ls with
         | l :: ls' => ((c :: l) :: ls', r)
         | [] => ([], c :: r)
         end.
Proof. reflexivity. Qed.

Lemma linesOf_app : forall a b,
  linesOf (a ++ b) =
    let '(la, ra) := linesOf a in
    let '(lb, rb) := linesOf (ra ++ b) in (la ++ lb, rb).
Proof.
  induction a as [|c a IH]; intros b.
  - cbn [app linesOf]. destruct (linesOf b). reflexivity.
  - change ((c :: a) ++ b) with (c :: (a ++ b)).
    rewrite !linesOf_cons, IH.
    destruct (linesOf a) as [la ra].
    destruct (c =? 10) eqn:Ec.
    + destruct (linesOf (ra ++ b)) as [lb rb]. reflexivity.
    + destruct la as [|l la].
      * change ((c :: ra) ++ b) with (c :: (ra ++ b)). rewrite linesOf_cons.
        destruct (linesOf (ra ++ b)) as [lb rb]. rewrite Ec.
        destruct lb; reflexivity.
      * destruct (linesOf (ra ++ b)) as [lb rb]. reflexivity.
Qed.

(** What [buffer.indexOf('\n')] finds, in terms of the lines of the buffer. *)
Lemma indexOf_newline : forall s,
  match indexOf s [10] with
  | None => linesOf s = ([], s)
  | Some k =>
      linesOf s = (sliceTo s k :: fst (linesOf (sliceFrom s (k + 1))),
                   snd (linesOf (sliceFrom s (k + 1))))
      /\ (List.length (sliceFrom s (k + 1)) < List.length s)%nat
  end.
Proof.
  unfold sliceTo, sliceFrom.
  induction s as [|c s IH]; [reflexivity|].
  rewrite indexOf_cons, linesOf_cons.
  cbn [startsWith]. rewrite startsWith_nil, andb_true_r.
  destruct (c =? 10) eqn:Ec.
  - cbn [firstn skipn Nat.add List.length]. destruct (linesOf s). split; [reflexivity | lia].
  - destruct (indexOf s [10]) as [k|]; cbn [option_map].
    + destruct IH as [IH Hlen]. rewrite IH.
      cbn [firstn skipn Nat.add List.length]. split; [reflexivity | lia].
    + now rewrite IH.
Qed.

Lemma linesOf_residue : forall s, linesOf (snd (linesOf s)) = ([], snd (linesOf s)).
Proof.
  induction s as [|c s IH]; [reflexivity|].
  rewrite linesOf_cons. destruct (linesOf s) as [ls r]. cbn [snd] in IH.
  destruct (c =? 10) eqn:Ec; [exact IH|].
  destruct ls as [|l ls]; [|exact IH].
  cbn [snd]. rewrite linesOf_cons, IH, Ec. reflexivity.
Qed.

Section StreamFacts.

Variable cfg : config.
Variable JSON_parse : jsstring -> completion value.
Variable cb : callbacks.

Lemma lineLoop_linesOf : forall fuel s,
  (List.length s < fuel)%nat ->
  lineLoop JSON_parse cb fuel s =
    Some (snd (linesOf s), flat_map (lineEvents JSON_parse cb) (fst (linesOf s))).
Proof.
  induction fuel as [|fuel IH]; intros s Hlen; [lia|].
  cbn [lineLoop]. pose proof (indexOf_newline s) as H.
  destruct (indexOf s [10]) as [k|].
  - destruct H as [H Hlt]. rewrite IH by lia. rewrite H. cbn [fst snd flat_map].
    reflexivity.
  - rewrite H. reflexivity.
Qed.

Lemma processLines_linesOf : forall s,
  processLines JSON_parse cb s =
    (snd (linesOf s), flat_map (lineEvents JSON_parse cb) (fst (linesOf s))).
Proof.
  intros s. unfold processLines. now rewrite lineLoop_linesOf by lia.
Qed.

(** Processing a buffer and then what is appended to its remainder is
    processing the whole at once. *)
Lemma processLines_app : forall a b,
  processLines JSON_parse cb (a ++ b) =
    let '(ra, ta) := processLines JSON_parse cb a in
    let '(rb, tb) := processLines JSON_parse cb (ra ++ b) in
    (rb, ta ++ tb).
Proof.
  intros a b. rewrite (processLines_linesOf (a ++ b)), (processLines_linesOf a).
  rewrite linesOf_app.
  destruct (linesOf a) as [la ra]. cbn [fst snd].
  rewrite (processLines_linesOf (ra ++ b)).
  destruct (linesOf (ra ++ b)) as [lb rb]. cbn [fst snd].
  now rewrite flat_map_app.
Qed.

(** Without a cancellation and with the reading loop running, the session
    is that of the whole payload read as one chunk. *)
Lemma readLoop_whole : forall fin pending k d buffer,
  linesOf buffer = ([], buffer) ->
  readLoop JSON_parse cb None false fin k pending d buffer =
    let '(d', decoded) := decode d (List.concat pending) in
    let '(buffer', tr) := processLines JSON_parse cb (buffer ++ decoded) in
    let '(st, tr') := endOf JSON_parse cb fin buffer' in
    (st, tr ++ tr').
Proof.
  intros fin. induction pending as [|value pending IH]; intros k d buffer Hb.
  - cbn [readLoop List.concat decode cancelled].
    rewrite app_nil_r, processLines_linesOf, Hb. cbn [fst snd flat_map].
    unfold endOf. destruct fin as [|n m|].
    + destruct (finish JSON_parse cb buffer). reflexivity.
    + destruct (catchBlock cb false (PlatformError n m)). reflexivity.
    + reflexivity.
  - cbn [readLoop List.concat cancelled]. rewrite decode_app.
    destruct (decode d value) as [d1 t1].
    destruct (processLines JSON_parse cb (buffer ++ t1)) as [b1 tr1] eqn:P1.
    assert (Hb1 : linesOf b1 = ([], b1)).
    { rewrite processLines_linesOf in P1. injection P1 as <- _.
      apply linesOf_residue. }
    rewrite (IH (S k) d1 b1 Hb1).
    destruct (decode d1 (List.concat pending)) as [d2 t2].
    rewrite (app_assoc buffer t1 t2), (processLines_app (buffer ++ t1) t2), P1.
    destruct (processLines JSON_parse cb (b1 ++ t2)) as [b2 tr2].
    destruct (endOf JSON_parse cb fin b2) as [st tr'].
    now rewrite app_assoc.
Qed.

Lemma stream_whole : forall endpoint data isClosed fin cs,
  stream cfg JSON_parse cb None (Resolves (bodyOf isClosed fin cs)) endpoint data =
    if isClosed then (Finished, [EvFetch (apiUrl cfg ++ lit "/" ++ endpoint) data])
    else
      let '(d', decoded) := decode newDecoder (List.concat cs) in
      let '(buffer', tr) := processLines JSON_parse cb decoded in
      let '(st, tr') := endOf JSON_parse cb fin buffer' in
      (st, EvFetch (apiUrl cfg ++ lit "/" ++ endpoint) data :: tr ++ tr').
Proof.
  intros endpoint data isClosed fin cs. unfold stream, bodyOf.
  cbn [cancelled ok body negb closed chunks ending_].
  destruct isClosed.
  - destruct cs; reflexivity.
  - rewrite readLoop_whole by reflexivity. cbn [app].
    destruct (decode newDecoder (List.concat cs)) as [d' decoded].
    destruct (processLines JSON_parse cb decoded) as [buffer' tr].
    destruct (endOf JSON_parse cb fin buffer') as [st tr'].
    reflexivity.
Qed.

Lemma delivered_app : forall a b, delivered (a ++ b) = delivered a ++ delivered b.
Proof.
  induction a as [|e a IH]; intros b; [reflexivity|].
  destruct e; cbn [app delivered]; rewrite ?IH; reflexivity.
Qed.

Lemma delivered_deliver : forall what s,
  delivered (deliver JSON_parse cb what s) =
    match JSON_parse s with Normal v => [v] | Throw _ => [] end.
Proof.
  intros what s. unfold deliver.
  destruct (JSON_parse s) as [v|]; [|reflexivity].
  destruct (onChunk cb v); reflexivity.
Qed.

Lemma delivered_lineEvents : forall l,
  delivered (lineEvents JSON_parse cb l) = recordOfLine JSON_parse l.
Proof.
  intros l. unfold lineEvents, recordOfLine.
  destruct (trim l) as [|c t]; [reflexivity|].
  cbn [nonEmpty]. apply delivered_deliver.
Qed.

Lemma delivered_lines : forall ls,
  delivered (flat_map (lineEvents JSON_parse cb) ls) = flat_map (recordOfLine JSON_parse) ls.
Proof.
  induction ls as [|l ls IH]; [reflexivity|].
  cbn [flat_map]. now rewrite delivered_app, delivered_lineEvents, IH.
Qed.

Lemma delivered_catchBlock : forall aborted e,
  delivered (snd (catchBlock cb aborted e)) = [].
Proof.
  intros aborted e. unfold catchBlock, callOnDone.
  destruct (onDone cb) as [[|]|]; destruct aborted;
    destruct (instanceofOllamaAPIError e); reflexivity.
Qed.

Lemma delivered_endOf : forall fin buffer,
  delivered (snd (endOf JSON_parse cb fin buffer)) =
    match fin with EndDone => recordOfResidue JSON_parse buffer | _ => [] end.
Proof.
  intros fin buffer. destruct fin as [|n m|]; cbn [endOf];
    [|apply delivered_catchBlock | reflexivity].
  unfold finish, recordOfResidue.
  assert (D : delivered (if nonEmpty (trim buffer)
                         then deliver JSON_parse cb (lit "Error parsing JSON from buffer:") buffer
                         else [])
              = match trim buffer with
                | [] => []
                | _ :: _ => match JSON_parse buffer with Normal v => [v] | Throw _ => [] end
                end).
  { destruct (trim buffer); [reflexivity|]. cbn [nonEmpty]. apply delivered_deliver. }
  destruct callOnDone as [[u|e] tr'] eqn:C.
  - cbn [snd]. rewrite delivered_app, D.
    unfold callOnDone in C. destruct (onDone cb); injection C as _ <-;
      cbn [delivered]; apply app_nil_r.
  - pose proof (delivered_catchBlock false e) as K.
    destruct (catchBlock cb false e) as [st tr'']. cbn [snd] in *.
    rewrite !delivered_app, D, K.
    unfold callOnDone in C. destruct (onDone cb); injection C as _ <-;
      cbn [delivered]; now rewrite !app_nil_r.
Qed.

End StreamFacts.

Lemma stream_delivered : forall cfg JSON_parse cb endpoint data isClosed fin cs,
  delivered
    (snd (stream cfg JSON_parse cb None (Resolves (bodyOf isClosed fin cs)) endpoint data))
  = if isClosed then [] else recordsOf JSON_parse fin (List.concat cs).
Proof.
  intros cfg JSON_parse cb endpoint data isClosed fin cs.
  rewrite stream_whole.
  destruct isClosed; [reflexivity|].
  unfold recordsOf.
  destruct (decode newDecoder (List.concat cs)) as [d' decoded]. cbn [snd].
  rewrite processLines_linesOf.
  destruct (linesOf decoded) as [ls r]. cbn [fst snd].
  pose proof (delivered_endOf JSON_parse cb fin r) as E.
  destruct (endOf JSON_parse cb fin r) as [st tr']. cbn [snd] in *.
  cbn [delivered]. now rewrite delivered_app, delivered_lines, E.
Qed.

(** With the reading loop running and without a cancellation, two ways of
    cutting one payload into chunks give the same session, event for
    event; and the records handed to [onChunk] are those of the payload's
    complete lines, in the order of their newlines, followed by the one of
    the remaining text when the stream ends with [done]. *)
Lemma stream_chunking_when_loop_runs :
  forall cfg JSON_parse cb endpoint data fin cs1 cs2,
    List.concat cs1 = List.concat cs2 ->
    stream cfg JSON_parse cb None (Resolves (bodyOf false fin cs1)) endpoint data
    = stream cfg JSON_parse cb None (Resolves (bodyOf false fin cs2)) endpoint data
    /\ delivered
         (snd (stream cfg JSON_parse cb None (Resolves (bodyOf false fin cs1))
                 endpoint data))
       = recordsOf JSON_parse fin (List.concat cs1).
Proof.
  intros cfg JSON_parse cb endpoint data fin cs1 cs2 H.
  split; [now rewrite !stream_whole, H|].
  now rewrite stream_delivered.
Qed.

(** The payload [{}], newline, a quoted euro sign, newline, cut inside the
    three bytes of the euro sign, through the reader of the repository's
    test. *)
Example stream_test_reader_chunking :
  stream Examples.defaults Json.parse Examples.quietCallbacks None
    (Resolves (bodyOf false EndDone [[123; 125; 10; 34; 226]; [130; 172; 34; 10]]))
    (lit "chat") VNull
  = stream Examples.defaults Json.parse Examples.quietCallbacks None
      (Resolves (bodyOf false EndDone [[123; 125; 10; 34; 226; 130; 172; 34; 10]]))
      (lit "chat") VNull
  /\ delivered
       (snd (stream Examples.defaults Json.parse Examples.quietCallbacks None
               (Resolves (bodyOf false EndDone [[123; 125; 10; 34; 226]; [130; 172; 34; 10]]))
               (lit "chat") VNull))
     = [VObj []; VStr [8364]].
Proof.
  exact (stream_chunking_when_loop_runs Examples.defaults Json.parse
           Examples.quietCallbacks (lit "chat") VNull EndDone
           [[123; 125; 10; 34; 226]; [130; 172; 34; 10]]
           [[123; 125; 10; 34; 226; 130; 172; 34; 10]] eq_refl).
Qed.

(** ** stream: the terminal callback, timers, malformed lines *)

Section SessionFacts.

Variable cfg : config.
Variable JSON_parse : jsstring -> completion value.
Variable cb : callbacks.
Variable cancelAt : option nat.

(** With a reader whose [closed] property is truthy the reading loop is
    not entered: the async function returns after the fetch. *)
Lemma stream_closed_reader : forall response reader endpoint data,
  cancelled cancelAt 0 = false ->
  ok response = true ->
  body response = Some reader ->
  closed reader = true ->
  stream cfg JSON_parse cb cancelAt (Resolves response) endpoint data
  = (Finished, [EvFetch (apiUrl cfg ++ lit "/" ++ endpoint) data]).
Proof.
  intros response reader endpoint data Hc Hok Hbody Hclosed.
  unfold stream. rewrite Hc, Hok, Hbody, Hclosed. cbn [negb].
  destruct (chunks reader); reflexivity.
Qed.

Lemma sessionEvent_deliver : forall what s,
  forallb sessionEvent (deliver JSON_parse cb what s) = true.
Proof.
  intros what s. unfold deliver.
  destruct (JSON_parse s) as [v|]; [|reflexivity].
  destruct (onChunk cb v); reflexivity.
Qed.

Lemma sessionEvent_lines : forall ls,
  forallb sessionEvent (flat_map (lineEvents JSON_parse cb) ls) = true.
Proof.
  induction ls as [|l ls IH]; [reflexivity|].
  cbn [flat_map]. rewrite forallb_app, IH, andb_true_r.
  unfold lineEvents. destruct (nonEmpty (trim l)); [apply sessionEvent_deliver | reflexivity].
Qed.

Lemma sessionEvent_catchBlock : forall aborted e,
  forallb sessionEvent (snd (catchBlock cb aborted e)) = true.
Proof.
  intros aborted e. unfold catchBlock, callOnDone.
  destruct (onDone cb) as [[|]|]; destruct aborted;
    destruct (instanceofOllamaAPIError e); reflexivity.
Qed.

Lemma sessionEvent_finish : forall buffer,
  forallb sessionEvent (snd (finish JSON_parse cb buffer)) = true.
Proof.
  intros buffer. unfold finish, callOnDone.
  pose proof (sessionEvent_deliver (lit "Error parsing JSON from buffer:") buffer) as D.
  destruct (nonEmpty (trim buffer)); destruct (onDone cb) as [[u|e]|] eqn:O; cbn [snd];
    try (now rewrite ?forallb_app, ?D).
  - pose proof (sessionEvent_catchBlock false e) as K.
    destruct (catchBlock cb false e) as [st tr'']. cbn [snd] in *.
    now rewrite !forallb_app, D, K.
  - pose proof (sessionEvent_catchBlock false e) as K.
    destruct (catchBlock cb false e) as [st tr'']. cbn [snd] in *.
    now rewrite !forallb_app, K.
Qed.

Lemma sessionEvent_readLoop : forall isClosed fin pending k d buffer,
  forallb sessionEvent
    (snd (readLoop JSON_parse cb cancelAt isClosed fin k pending d buffer)) = true.
Proof.
  intros isClosed fin.
  induction pending as [|value pending IH]; intros k d buffer;
    cbn [readLoop]; (destruct isClosed; [reflexivity|]);
    destruct (cancelled cancelAt k).
  - pose proof (sessionEvent_catchBlock true AbortError) as K.
    destruct (catchBlock cb true AbortError). cbn [snd] in *. cbn [forallb]. exact K.
  - destruct fin as [|n m|];
      [apply sessionEvent_finish | apply sessionEvent_catchBlock | reflexivity].
  - pose proof (sessionEvent_catchBlock true AbortError) as K.
    destruct (catchBlock cb true AbortError). cbn [snd] in *. cbn [forallb]. exact K.
  - destruct (decode d value) as [d' decoded].
    pose proof (processLines_linesOf JSON_parse cb (buffer ++ decoded)) as P.
    destruct (processLines JSON_parse cb (buffer ++ decoded)) as [buffer' tr].
    injection P as _ ->.
    specialize (IH (S k) d' buffer').
    destruct (readLoop JSON_parse cb cancelAt false fin (S k) pending d' buffer')
      as [st tr'].
    cbn [snd] in *. now rewrite forallb_app, sessionEvent_lines, IH.
Qed.

Lemma countIf_none : forall (p q : event -> bool) tr,
  (forall e, p e = true -> q e = false) ->
  forallb p tr = true -> countIf q tr = 0%nat.
Proof.
  intros p q tr Hpq. unfold countIf.
  induction tr as [|e tr IH]; [reflexivity|].
  cbn [forallb filter]. intros H. apply andb_true_iff in H. destruct H as [He Ht].
  rewrite (Hpq e He). now apply IH.
Qed.

(** The events of a session are its one fetch, then session events. *)
Lemma stream_events : forall conn endpoint data,
  exists tr,
    snd (stream cfg JSON_parse cb cancelAt conn endpoint data)
      = EvFetch (apiUrl cfg ++ lit "/" ++ endpoint) data :: tr
    /\ forallb sessionEvent tr = true.
Proof.
  intros conn endpoint data. unfold stream.
  destruct (cancelled cancelAt 0).
  { pose proof (sessionEvent_catchBlock true AbortError) as K.
    destruct (catchBlock cb true AbortError) as [st tr]. cbn [snd] in *.
    eexists. split; [reflexivity|]. cbn [forallb sessionEvent]. exact K. }
  destruct conn as [response|n m|].
  - destruct (ok response); cbn [negb].
    + destruct (body response) as [reader|].
      * pose proof (sessionEvent_readLoop (closed reader) (ending_ reader)
                      (chunks reader) 1 newDecoder []) as K.
        destruct (readLoop JSON_parse cb cancelAt (closed reader) (ending_ reader) 1
                    (chunks reader) newDecoder []) as [st tr].
        cbn [snd] in *. eexists. split; [reflexivity | exact K].
      * pose proof (sessionEvent_catchBlock false
                      (OllamaAPIError (lit "Response body is null") None)) as K.
        destruct (catchBlock cb false (OllamaAPIError (lit "Response body is null") None))
          as [st tr].
        cbn [snd] in *. eexists. split; [reflexivity | exact K].
    + destruct (Platform.text response) as [t|n m].
      * pose proof (sessionEvent_catchBlock false
                      (OllamaAPIError (lit "API error: " ++ t) (Some (status response)))) as K.
        destruct (catchBlock cb false
                    (OllamaAPIError (lit "API error: " ++ t) (Some (status response))))
          as [st tr].
        cbn [snd] in *. eexists. split; [reflexivity|]. cbn [forallb sessionEvent]. exact K.
      * pose proof (sessionEvent_catchBlock false (PlatformError n m)) as K.
        destruct (catchBlock cb false (PlatformError n m)) as [st tr].
        cbn [snd] in *. eexists. split; [reflexivity | exact K].
  - pose proof (sessionEvent_catchBlock false (PlatformError n m)) as K.
    destruct (catchBlock cb false (PlatformError n m)) as [st tr].
    cbn [snd] in *. eexists. split; [reflexivity | exact K].
  - eexists. split; reflexivity.
Qed.

(** *** When the reading loop runs *)

Lemma sessionEvent_not_timer : forall e, sessionEvent e = true -> isSetTimeout e = false.
Proof. now destruct e. Qed.

Lemma sessionEvent_not_fetch : forall e, sessionEvent e = true -> isFetch e = false.
Proof. now destruct e. Qed.

Lemma countIf_isDone_deliver : forall what s,
  countIf isDone (deliver JSON_parse cb what s) = 0%nat.
Proof.
  intros what s. unfold deliver.
  destruct (JSON_parse s) as [v|]; [|reflexivity].
  destruct (onChunk cb v); reflexivity.
Qed.

Lemma countIf_isDone_lines : forall ls,
  countIf isDone (flat_map (lineEvents JSON_parse cb) ls) = 0%nat.
Proof.
  induction ls as [|l ls IH]; [reflexivity|].
  cbn [flat_map]. rewrite countIf_app, IH.
  unfold lineEvents. destruct (nonEmpty (trim l));
    [now rewrite countIf_isDone_deliver | reflexivity].
Qed.

Hypothesis onDone_returns : onDone cb = Some (Normal tt).

Lemma catchBlock_done_once : forall aborted e,
  fst (catchBlock cb aborted e) = Finished
  /\ countIf isDone (snd (catchBlock cb aborted e)) = 1%nat.
Proof.
  intros aborted e. unfold catchBlock, callOnDone. rewrite onDone_returns.
  destruct aborted; destruct (instanceofOllamaAPIError e); split; reflexivity.
Qed.

Lemma finish_done_once : forall buffer,
  fst (finish JSON_parse cb buffer) = Finished
  /\ countIf isDone (snd (finish JSON_parse cb buffer)) = 1%nat.
Proof.
  intros buffer. unfold finish, callOnDone. rewrite onDone_returns.
  pose proof (countIf_isDone_deliver (lit "Error parsing JSON from buffer:") buffer) as D.
  destruct (nonEmpty (trim buffer)); cbn [fst snd]; split; try reflexivity.
  now rewrite countIf_app, D.
Qed.

Lemma readLoop_done_once : forall fin pending k d buffer,
  fst (readLoop JSON_parse cb cancelAt false fin k pending d buffer) <> Suspended ->
  fst (readLoop JSON_parse cb cancelAt false fin k pending d buffer) = Finished
  /\ countIf isDone
       (snd (readLoop JSON_parse cb cancelAt false fin k pending d buffer)) = 1%nat.
Proof.
  intros fin.
  induction pending as [|value pending IH]; intros k d buffer;
    cbn [readLoop]; destruct (cancelled cancelAt k).
  - intros _. destruct (catchBlock_done_once true AbortError) as [F C].
    destruct (catchBlock cb true AbortError) as [st tr]. cbn [fst snd] in *.
    split; [exact F|]. exact C.
  - destruct fin as [|n m|]; intros H;
      [apply finish_done_once | apply catchBlock_done_once | now elim H].
  - intros _. destruct (catchBlock_done_once true AbortError) as [F C].
    destruct (catchBlock cb true AbortError) as [st tr]. cbn [fst snd] in *.
    split; [exact F|]. exact C.
  - destruct (decode d value) as [d' decoded].
    pose proof (processLines_linesOf JSON_parse cb (buffer ++ decoded)) as P.
    destruct (processLines JSON_parse cb (buffer ++ decoded)) as [buffer' tr].
    injection P as _ ->.
    specialize (IH (S k) d' buffer').
    destruct (readLoop JSON_parse cb cancelAt false fin (S k) pending d' buffer')
      as [st tr'].
    cbn [fst snd] in *. intros H. destruct (IH H) as [F C].
    split; [exact F|]. now rewrite countIf_app, countIf_isDone_lines, C.
Qed.

(** When the reader lets the loop run and [onDone] returns, a session that
    ends calls [onDone] exactly once: on completion, on an error, on a
    cancellation. *)
Lemma stream_done_once_when_loop_runs : forall conn endpoint data,
  (forall response reader,
      conn = Resolves response -> body response = Some reader -> closed reader = false) ->
  fst (stream cfg JSON_parse cb cancelAt conn endpoint data) <> Suspended ->
  fst (stream cfg JSON_parse cb cancelAt conn endpoint data) = Finished
  /\ countIf isDone (snd (stream cfg JSON_parse cb cancelAt conn endpoint data)) = 1%nat.
Proof.
  intros conn endpoint data Hopen. unfold stream.
  destruct (cancelled cancelAt 0).
  { intros _. destruct (catchBlock_done_once true AbortError) as [F C].
    destruct (catchBlock cb true AbortError) as [st tr]. cbn [fst snd] in *.
    split; [exact F|]. unfold countIf in *. cbn [app filter isDone]. exact C. }
  destruct conn as [response|n m|].
  - destruct (ok response); cbn [negb].
    + destruct (body response) as [reader|] eqn:B.
      * rewrite (Hopen response reader eq_refl B).
        pose proof (readLoop_done_once (ending_ reader) (chunks reader) 1 newDecoder [])
          as K.
        destruct (readLoop JSON_parse cb cancelAt false (ending_ reader) 1
                    (chunks reader) newDecoder []) as [st tr].
        cbn [fst snd] in *. intros H. destruct (K H) as [F C].
        split; [exact F|]. unfold countIf in *. cbn [app filter isDone]. exact C.
      * intros _.
        destruct (catchBlock_done_once false
                    (OllamaAPIError (lit "Response body is null") None)) as [F C].
        destruct (catchBlock cb false (OllamaAPIError (lit "Response body is null") None))
          as [st tr].
        cbn [fst snd] in *. split; [exact F|]. unfold countIf in *. cbn [app filter isDone]. exact C.
    + destruct (Platform.text response) as [t|n m]; intros _.
      * destruct (catchBlock_done_once false
                    (OllamaAPIError (lit "API error: " ++ t) (Some (status response))))
          as [F C].
        destruct (catchBlock cb false
                    (OllamaAPIError (lit "API error: " ++ t) (Some (status response))))
          as [st tr].
        cbn [fst snd] in *. split; [exact F|]. unfold countIf in *. cbn [app filter isDone]. exact C.
      * destruct (catchBlock_done_once false (PlatformError n m)) as [F C].
        destruct (catchBlock cb false (PlatformError n m)) as [st tr].
        cbn [fst snd] in *. split; [exact F|]. unfold countIf in *. cbn [app filter isDone]. exact C.
  - intros _. destruct (catchBlock_done_once false (PlatformError n m)) as [F C].
    destruct (catchBlock cb false (PlatformError n m)) as [st tr].
    cbn [fst snd] in *. split; [exact F|]. unfold countIf in *. cbn [app filter isDone]. exact C.
  - intros H. now elim H.
Qed.

End SessionFacts.

(** C2, where the code departs from it: with a reader of the platform,
    whose [closed] property is a promise and so truthy, no chunk is read,
    so the records of the payload are not handed to [onChunk], however the
    payload is cut into chunks: for a payload that holds a record, the
    sequence emitted is not the sequence of its records. *)
Theorem stream_closed_reader_emits_no_record :
  forall cfg JSON_parse cb cancelAt response reader endpoint data v vs,
    cancelled cancelAt 0 = false ->
    ok response = true ->
    body response = Some reader ->
    closed reader = true ->
    recordsOf JSON_parse (ending_ reader) (List.concat (chunks reader)) = v :: vs ->
    ~ In v (delivered
              (snd (stream cfg JSON_parse cb cancelAt (Resolves response) endpoint data)))
    /\ delivered
         (snd (stream cfg JSON_parse cb cancelAt (Resolves response) endpoint data))
       <> recordsOf JSON_parse (ending_ reader) (List.concat (chunks reader)).
Proof.
  intros cfg JSON_parse cb cancelAt response reader endpoint data v vs Hc Hok Hb Hcl Hr.
  rewrite (stream_closed_reader cfg JSON_parse cb cancelAt _ _ endpoint data Hc Hok Hb Hcl).
  rewrite Hr. cbn [snd delivered]. split; [intros []|discriminate].
Qed.

(** The payload [{}], newline, a quoted euro sign, newline, cut inside the
    three bytes of the euro sign. *)
Lemma stream_closed_reader_emits_no_record_witness :
  ~ In (VObj [])
      (delivered
         (snd (stream Examples.defaults Json.parse Examples.quietCallbacks None
                 (Resolves (bodyOf true EndDone
                              [[123; 125; 10; 34; 226]; [130; 172; 34; 10]]))
                 (lit "chat") VNull)))
  /\ delivered
       (snd (stream Examples.defaults Json.parse Examples.quietCallbacks None
               (Resolves (bodyOf true EndDone
                            [[123; 125; 10; 34; 226]; [130; 172; 34; 10]]))
               (lit "chat") VNull))
     <> [VObj []; VStr [8364]].
Proof.
  exact (stream_closed_reader_emits_no_record Examples.defaults Json.parse
           Examples.quietCallbacks None
           (bodyOf true EndDone [[123; 125; 10; 34; 226]; [130; 172; 34; 10]])
           {| closed := true; chunks := [[123; 125; 10; 34; 226]; [130; 172; 34; 10]];
              ending_ := EndDone |}
           (lit "chat") VNull (VObj []) [VStr [8364]]
           eq_refl eq_refl eq_refl eq_refl eq_refl).
Defined.

(** C3, where the code departs from it: with a reader of the platform,
    whose [closed] property is a promise and so truthy, a session whose
    connection succeeds returns without a single call of [onDone]. *)
Theorem stream_closed_reader_never_done :
  forall cfg JSON_parse cb cancelAt response reader endpoint data,
    cancelled cancelAt 0 = false ->
    ok response = true ->
    body response = Some reader ->
    closed reader = true ->
    fst (stream cfg JSON_parse cb cancelAt (Resolves response) endpoint data) = Finished
    /\ countIf isDone
         (snd (stream cfg JSON_parse cb cancelAt (Resolves response) endpoint data)) = 0%nat.
Proof.
  intros cfg JSON_parse cb cancelAt response reader endpoint data Hc Hok Hb Hcl.
  rewrite (stream_closed_reader cfg JSON_parse cb cancelAt _ _ endpoint data Hc Hok Hb Hcl).
  split; reflexivity.
Qed.

Lemma stream_closed_reader_never_done_witness :
  fst (stream Examples.defaults Json.parse Examples.quietCallbacks None
         (Resolves (bodyOf true EndDone [lit "{}" ++ [10]])) (lit "chat") VNull) = Finished
  /\ countIf isDone
       (snd (stream Examples.defaults Json.parse Examples.quietCallbacks None
               (Resolves (bodyOf true EndDone [lit "{}" ++ [10]])) (lit "chat") VNull))
     = 0%nat.
Proof.
  apply (stream_closed_reader_never_done Examples.defaults Json.parse
           Examples.quietCallbacks None (bodyOf true EndDone [lit "{}" ++ [10]])
           {| closed := true; chunks := [lit "{}" ++ [10]]; ending_ := EndDone |});
    reflexivity.
Defined.

(** The same session with the reader of the repository's test, whose
    [closed] is [false]: the record is delivered and [onDone] is called
    once. *)
Example stream_test_reader :
  stream Examples.defaults Json.parse Examples.quietCallbacks None
    (Resolves (bodyOf false EndDone [lit "{}" ++ [10]])) (lit "chat") VNull
  = (Finished, [EvFetch (lit "http://localhost:11434/api/chat") VNull;
                EvChunk (VObj []); EvDone]).
Proof. reflexivity. Qed.

(** With the loop running, an [onDone] that throws on normal completion is
    called a second time by the catch block. *)
Example stream_onDone_throwing :
  countIf isDone
    (snd (stream Examples.defaults Json.parse
            {| onChunk := fun _ => Normal tt;
               onDone := Some (Throw (TypeError "callback failed")) |}
            None (Resolves (bodyOf false EndDone [lit "{}" ++ [10]])) (lit "chat") VNull))
  = 2%nat.
Proof. reflexivity. Qed.

(** C7, where the code departs from it: [stream] never arms a timer, so the
    connection is not bounded by [timeoutMs]; a fetch that never settles
    leaves the session suspended whatever the configuration says.  The
    rest holds: no read is timed either, and a session makes one fetch and
    never a second. *)
Theorem stream_arms_no_timeout :
  forall cfg JSON_parse cb cancelAt conn endpoint data,
    countIf isSetTimeout (snd (stream cfg JSON_parse cb cancelAt conn endpoint data)) = 0%nat
    /\ countIf isFetch (snd (stream cfg JSON_parse cb cancelAt conn endpoint data)) = 1%nat
    /\ stream cfg JSON_parse cb None Pending endpoint data
       = (Suspended, [EvFetch (apiUrl cfg ++ lit "/" ++ endpoint) data]).
Proof.
  intros cfg JSON_parse cb cancelAt conn endpoint data.
  destruct (stream_events cfg JSON_parse cb cancelAt conn endpoint data) as (tr & -> & H).
  split; [|split; [|reflexivity]].
  - change (EvFetch (apiUrl cfg ++ lit "/" ++ endpoint) data :: tr)
      with ([EvFetch (apiUrl cfg ++ lit "/" ++ endpoint) data] ++ tr).
    rewrite countIf_app.
    now rewrite (countIf_none sessionEvent isSetTimeout tr sessionEvent_not_timer H).
  - change (EvFetch (apiUrl cfg ++ lit "/" ++ endpoint) data :: tr)
      with ([EvFetch (apiUrl cfg ++ lit "/" ++ endpoint) data] ++ tr).
    rewrite countIf_app.
    now rewrite (countIf_none sessionEvent isFetch tr sessionEvent_not_fetch H).
Qed.

(** The sibling [post] does bound its connection: every attempt arms the
    timer before its fetch, and a fetch that never settles is aborted. *)
Lemma attemptOnce_arms_timeout : forall cfg net url data k,
  (exists tr, snd (attemptOnce cfg net url data k)
              = EvSetTimeout (timeoutMs cfg) :: EvFetch url data :: tr)
  /\ (net k = Pending ->
      attemptOnce cfg net url data k
      = (Throw AbortError, [EvSetTimeout (timeoutMs cfg); EvFetch url data; EvAbort])).
Proof.
  intros cfg net url data k. unfold attemptOnce. split.
  - destruct (net k) as [r|n m|]; try (eexists; reflexivity).
    destruct (ok r); cbn [negb].
    + destruct (json r) as [v|]; [|eexists; reflexivity].
      destruct (isErrorResponse v); eexists; reflexivity.
    + destruct (Platform.text r); eexists; reflexivity.
  - now intros ->.
Qed.

(** *** Malformed lines *)

Lemma linesOf_line : forall l rest,
  noNewline l = true ->
  linesOf (l ++ 10 :: rest) = (l :: fst (linesOf rest), snd (linesOf rest)).
Proof.
  induction l as [|c l IH]; intros rest H.
  - cbn [app]. rewrite linesOf_cons. destruct (linesOf rest). reflexivity.
  - cbn [noNewline forallb] in H. apply andb_true_iff in H. destruct H as [Hc Hl].
    change ((c :: l) ++ 10 :: rest) with (c :: (l ++ 10 :: rest)).
    rewrite linesOf_cons, (IH rest Hl).
    apply negb_true_iff in Hc. rewrite Hc. reflexivity.
Qed.

Lemma linesOf_joinLines : forall ls,
  forallb noNewline ls = true -> linesOf (joinLines ls) = (ls, []).
Proof.
  induction ls as [|l ls IH]; intros H; [reflexivity|].
  cbn [forallb] in H. apply andb_true_iff in H. destruct H as [Hl Hls].
  unfold joinLines. cbn [flat_map]. rewrite <- app_assoc. cbn [app].
  rewrite (linesOf_line l _ Hl). fold (joinLines ls). now rewrite (IH Hls).
Qed.

Lemma recordOfLine_malformed : forall JSON_parse bad e,
  JSON_parse (trim bad) = Throw e -> recordOfLine JSON_parse bad = [].
Proof.
  intros JSON_parse bad e H. unfold recordOfLine.
  destruct (trim bad); [reflexivity | now rewrite H].
Qed.

(** When the reading loop runs: a line that does not parse is logged and
    dropped, the lines before and after it are delivered, and the session
    goes on to its end. *)
Lemma stream_skips_malformed_line :
  forall cfg JSON_parse cb endpoint data cs before bad after e,
    snd (decode newDecoder (List.concat cs)) = joinLines (before ++ bad :: after) ->
    forallb noNewline (before ++ bad :: after) = true ->
    trim bad <> [] ->
    JSON_parse (trim bad) = Throw e ->
    delivered (snd (stream cfg JSON_parse cb None (Resolves (bodyOf false EndDone cs))
                      endpoint data))
    = flat_map (recordOfLine JSON_parse) before ++ flat_map (recordOfLine JSON_parse) after
    /\ In (EvLogError (lit "Error parsing JSON:"))
          (snd (stream cfg JSON_parse cb None (Resolves (bodyOf false EndDone cs))
                  endpoint data))
    /\ (onDone cb = Some (Normal tt) ->
        fst (stream cfg JSON_parse cb None (Resolves (bodyOf false EndDone cs))
               endpoint data) = Finished
        /\ countIf isDone
             (snd (stream cfg JSON_parse cb None (Resolves (bodyOf false EndDone cs))
                     endpoint data)) = 1%nat).
Proof.
  intros cfg JSON_parse cb endpoint data cs before bad after e Htext Hnl Hne Hbad.
  split; [|split].
  - rewrite stream_delivered.
    unfold recordsOf. rewrite Htext, (linesOf_joinLines _ Hnl).
    rewrite flat_map_app. cbn [flat_map].
    rewrite (recordOfLine_malformed _ _ _ Hbad).
    unfold recordOfResidue. cbn [trim trimStart trimEnd rev app].
    now rewrite !app_nil_r.
  - rewrite stream_whole.
    destruct (decode newDecoder (List.concat cs)) as [d' decoded]. cbn [snd] in Htext.
    subst decoded. rewrite processLines_linesOf, (linesOf_joinLines _ Hnl).
    cbn [fst snd].
    destruct (endOf JSON_parse cb EndDone []) as [st tr'].
    right. apply in_or_app. left.
    rewrite flat_map_app. apply in_or_app. right.
    cbn [flat_map]. apply in_or_app. left.
    unfold lineEvents. destruct (trim bad) as [|c t]; [now elim Hne|].
    cbn [nonEmpty]. unfold deliver. rewrite Hbad. now left.
  - intros Hdone. apply stream_done_once_when_loop_runs; [exact Hdone | |].
    + intros response reader [= <-] [= <-]. reflexivity.
    + rewrite stream_whole.
      destruct (decode newDecoder (List.concat cs)) as [d' decoded].
      destruct (processLines JSON_parse cb decoded) as [buffer' tr].
      destruct (finish_done_once JSON_parse cb Hdone buffer') as [F _].
      cbn [endOf].
      destruct (finish JSON_parse cb buffer') as [st tr']. cbn [fst] in *.
      rewrite F. discriminate.
Qed.

(** C5, where the code departs from it: with a reader of the platform no
    line is ever taken from the body, so a well-formed line is not
    delivered and a malformed one is not logged. *)
Theorem stream_closed_reader_delivers_nothing :
  forall cfg JSON_parse cb cancelAt response reader endpoint data,
    cancelled cancelAt 0 = false ->
    ok response = true ->
    body response = Some reader ->
    closed reader = true ->
    snd (stream cfg JSON_parse cb cancelAt (Resolves response) endpoint data)
      = [EvFetch (apiUrl cfg ++ lit "/" ++ endpoint) data]
    /\ delivered
         (snd (stream cfg JSON_parse cb cancelAt (Resolves response) endpoint data)) = [].
Proof.
  intros cfg JSON_parse cb cancelAt response reader endpoint data Hc Hok Hb Hcl.
  rewrite (stream_closed_reader cfg JSON_parse cb cancelAt _ _ endpoint data Hc Hok Hb Hcl).
  split; reflexivity.
Qed.

(** The body [{}], newline, [oops], newline, [[1]], newline. *)
Lemma stream_closed_reader_delivers_nothing_witness :
  snd (stream Examples.defaults Json.parse Examples.quietCallbacks None
         (Resolves (bodyOf true EndDone
                      [lit "{}" ++ [10] ++ lit "oops" ++ [10] ++ lit "[1]" ++ [10]]))
         (lit "chat") VNull)
    = [EvFetch (apiUrl Examples.defaults ++ lit "/" ++ lit "chat") VNull]
  /\ delivered
       (snd (stream Examples.defaults Json.parse Examples.quietCallbacks None
               (Resolves (bodyOf true EndDone
                            [lit "{}" ++ [10] ++ lit "oops" ++ [10] ++ lit "[1]" ++ [10]]))
               (lit "chat") VNull)) = [].
Proof.
  apply (stream_closed_reader_delivers_nothing Examples.defaults Json.parse
           Examples.quietCallbacks None
           (bodyOf true EndDone
              [lit "{}" ++ [10] ++ lit "oops" ++ [10] ++ lit "[1]" ++ [10]])
           {| closed := true;
              chunks := [lit "{}" ++ [10] ++ lit "oops" ++ [10] ++ lit "[1]" ++ [10]];
              ending_ := EndDone |});
    reflexivity.
Defined.

(** The same body through the reader of the repository's test. *)
Example stream_test_reader_malformed :
  stream Examples.defaults Json.parse Examples.quietCallbacks None
    (Resolves (bodyOf false EndDone
                 [lit "{}" ++ [10] ++ lit "oops" ++ [10] ++ lit "[1]" ++ [10]]))
    (lit "chat") VNull
  = (Finished, [EvFetch (lit "http://localhost:11434/api/chat") VNull;
                EvChunk (VObj []);
                EvLogError (lit "Error parsing JSON:");
                EvChunk (VArr [Json.number 1]);
                EvDone]).
Proof. reflexivity. Qed.

(** * Further properties of the code *)

(** ** post: success after failures, bounds, the errors thrown *)

Section PostMore.

Variable cfg : config.
Variable net : Z -> settle response.
Variable url : jsstring.
Variable data : value.

Lemma attemptOnce_timer_count : forall k,
  countIf isSetTimeout (snd (attemptOnce cfg net url data k)) = 1%nat.
Proof.
  intros k. unfold attemptOnce, countIf.
  destruct (net k) as [r| |]; try reflexivity.
  destruct (ok r); simpl.
  - destruct (json r) as [v|]; [|reflexivity].
    destruct (isErrorResponse v); reflexivity.
  - destruct (Platform.text r); reflexivity.
Qed.

Lemma fetchesAndSleeps_step : forall delay n,
  fetchesAndSleeps url data delay (S (S n)) =
    EvFetch url data :: EvSleep delay :: fetchesAndSleeps url data delay (S n).
Proof. reflexivity. Qed.

(** The loop that finds its first success [n] failed attempts later. *)
Lemma postLoop_first_success : forall n fuel attempt k v,
  k - attempt = Z.of_nat (S n) ->
  k <= retryAttempts cfg ->
  (n < fuel)%nat ->
  (forall j, attempt < j < k -> exists e, fst (attemptOnce cfg net url data j) = Throw e) ->
  fst (attemptOnce cfg net url data k) = Normal v ->
  exists tr,
    postLoop cfg net fuel url data attempt = Some (Normal v, tr)
    /\ filter isFetchOrSleep tr = fetchesAndSleeps url data (retryDelayMs cfg) (S n).
Proof.
  induction n as [|n IH]; intros fuel attempt k v Hk HN Hfuel Hfail Hok;
    (destruct fuel as [|fuel]; [lia|]).
  - assert (Ek : attempt + 1 = k) by lia.
    pose proof (attemptOnce_fetches cfg net url data (attempt + 1)) as F.
    destruct (attemptOnce cfg net url data (attempt + 1)) as [r tr] eqn:E.
    rewrite <- Ek in Hok. rewrite E in Hok. simpl in Hok. subst r.
    exists tr. rewrite (postLoop_returning_attempt cfg net url data fuel attempt v tr);
      [|lia|exact E].
    split; [reflexivity | exact F].
  - destruct (Hfail (attempt + 1) ltac:(lia)) as [e He].
    pose proof (attemptOnce_fetches cfg net url data (attempt + 1)) as F.
    destruct (attemptOnce cfg net url data (attempt + 1)) as [r tr] eqn:E.
    simpl in He. subst r. simpl in F.
    destruct (IH fuel (attempt + 1) k v ltac:(lia) HN ltac:(lia)) as (tr' & Hp & Hf);
      [intros j Hj; apply Hfail; lia | exact Hok |].
    rewrite (postLoop_failed_attempt cfg net url data fuel attempt e tr); [|lia|exact E].
    destruct (Z.geb_spec (attempt + 1) (retryAttempts cfg)); [lia|].
    rewrite Hp. eexists. split; [reflexivity|].
    rewrite !filter_app, Hf, F. reflexivity.
Qed.

(** What any run of the loop leaves in its trace. *)
Lemma postLoop_trace : forall fuel attempt r tr,
  postLoop cfg net fuel url data attempt = Some (r, tr) ->
  exists n,
    filter isFetchOrSleep tr = fetchesAndSleeps url data (retryDelayMs cfg) n
    /\ countIf isSetTimeout tr = n
    /\ (Z.of_nat n <= Z.max 0 (retryAttempts cfg - attempt))
    /\ (attempt < retryAttempts cfg -> (1 <= n)%nat).
Proof.
  induction fuel as [|fuel IH]; intros attempt r tr H; [discriminate|].
  cbn [postLoop] in H.
  destruct (Z.ltb_spec attempt (retryAttempts cfg)) as [Hlt|Hge].
  - pose proof (attemptOnce_fetches cfg net url data (attempt + 1)) as F.
    pose proof (attemptOnce_timer_count (attempt + 1)) as T.
    destruct (attemptOnce cfg net url data (attempt + 1)) as [[v|e] tr1] eqn:E;
      cbn [snd] in F, T.
    + injection H as <- <-. exists 1%nat. repeat split; try assumption; lia.
    + destruct (Z.geb_spec (attempt + 1) (retryAttempts cfg)) as [Hlast|Hmore].
      * injection H as <- <-. exists 1%nat.
        destruct (instanceofOllamaAPIError e).
        -- repeat split; try assumption; lia.
        -- rewrite filter_isFetchOrSleep_log, countIf_app, T.
           repeat split; try assumption; try reflexivity; lia.
      * destruct (postLoop cfg net fuel url data (attempt + 1)) as [[r' tr']|] eqn:P;
          [|discriminate].
        injection H as <- <-.
        destruct (IH _ _ _ P) as (n & Hf & Ht & Hb & Hpos).
        destruct n as [|n]; [specialize (Hpos ltac:(lia)); lia|].
        exists (S (S n)). split; [|split; [|split; lia]].
        -- rewrite filter_app. cbn [filter isFetchOrSleep isFetch isSleep orb].
           now rewrite Hf, F.
        -- rewrite countIf_app, T. unfold countIf in *.
           cbn [filter isSetTimeout]. now rewrite Ht.
  - injection H as <- <-. exists 0%nat. repeat split; try reflexivity; lia.
Qed.

(** Where a thrown error comes from. *)
Lemma postLoop_throw_origin : forall fuel attempt e tr,
  postLoop cfg net fuel url data attempt = Some (Throw e, tr) ->
  e = maximumReached
  \/ exists k e0, fst (attemptOnce cfg net url data k) = Throw e0 /\ e = surfaced e0.
Proof.
  induction fuel as [|fuel IH]; intros attempt e tr H; [discriminate|].
  cbn [postLoop] in H.
  destruct (attempt <? retryAttempts cfg); [|injection H as <- <-; now left].
  destruct (attemptOnce cfg net url data (attempt + 1)) as [[w|e1] tr1] eqn:E;
    [discriminate|].
  destruct (attempt + 1 >=? retryAttempts cfg).
  - injection H as <- <-. right. exists (attempt + 1), e1. now rewrite E.
  - destruct (postLoop cfg net fuel url data (attempt + 1)) as [[r' tr']|] eqn:P;
      [|discriminate].
    injection H as -> <-. now apply (IH _ _ _ P).
Qed.

End PostMore.

(** X1: [post] returns at its first successful attempt.  If the attempts
    before the k-th throw and the k-th returns a value, with k within the
    configured count, [post] returns that value after exactly k fetches,
    with the configured delay awaited between one fetch and the next. *)
Theorem post_returns_first_success : forall cfg net endpoint data k v,
  1 <= k <= retryAttempts cfg ->
  (forall j, 1 <= j < k ->
     exists e, fst (attemptOnce cfg net (urlOf cfg endpoint) data j) = Throw e) ->
  fst (attemptOnce cfg net (urlOf cfg endpoint) data k) = Normal v ->
  exists tr,
    post cfg net endpoint data = Some (Normal v, tr)
    /\ countIf isFetch tr = Z.to_nat k
    /\ filter isFetchOrSleep tr =
         fetchesAndSleeps (urlOf cfg endpoint) data (retryDelayMs cfg) (Z.to_nat k).
Proof.
  intros cfg net endpoint data k v Hk Hfail Hok. unfold post.
  destruct (Z.to_nat k) as [|n] eqn:En; [lia|].
  destruct (postLoop_first_success cfg net (urlOf cfg endpoint) data n
              (S (Z.to_nat (retryAttempts cfg))) 0 k v) as (tr & Hp & Hf);
    try lia; try assumption.
  { intros j Hj. apply Hfail. lia. }
  exists tr. split; [exact Hp|]. split; [|exact Hf].
  rewrite <- countIf_isFetch_projection, Hf. apply countIf_fetchesAndSleeps.
Qed.

Lemma post_returns_first_success_witness :
  exists tr,
    post Examples.defaults
      (fun k => if k =? 3 then Resolves (Examples.okJson (VObj []))
                else Resolves Examples.serverError)
      (lit "tags") (VObj [])
    = Some (Normal (VObj []), tr)
    /\ countIf isFetch tr = 3%nat
    /\ filter isFetchOrSleep tr =
         fetchesAndSleeps (urlOf Examples.defaults (lit "tags")) (VObj []) 1000 3.
Proof.
  apply (post_returns_first_success Examples.defaults
           (fun k => if k =? 3 then Resolves (Examples.okJson (VObj []))
                     else Resolves Examples.serverError)
           (lit "tags") (VObj []) 3 (VObj [])).
  - simpl. lia.
  - intros j Hj. assert (E : (j =? 3) = false) by (apply Z.eqb_neq; lia).
    unfold attemptOnce. rewrite E. eexists. reflexivity.
  - reflexivity.
Defined.

(** X2: every error [post] throws is an instance of OllamaAPIError, and one
    that is an OllamaNetworkError wraps an error of the platform, its
    message being ["Network error: "] followed by the message of that
    error. *)
Theorem post_throws_only_client_errors : forall cfg net endpoint data e tr,
  post cfg net endpoint data = Some (Throw e, tr) ->
  instanceofOllamaAPIError e = true
  /\ (instanceofOllamaNetworkError e = true ->
      exists n m, e = OllamaNetworkError (lit "Network error: " ++ m) (PlatformError n m)).
Proof.
  intros cfg net endpoint data e tr H. unfold post in H.
  split; [now apply (postLoop_throws_api _ _ _ _ _ _ _ _ H)|].
  destruct (postLoop_throw_origin _ _ _ _ _ _ _ _ H) as [->|(k & e0 & He0 & ->)];
    [discriminate|].
  destruct (attemptOnce_error _ _ _ _ _ _ He0) as [(n & m & -> & _)|(t & st & -> & _)].
  - intros _. now exists n, m.
  - discriminate.
Qed.

Lemma post_throws_only_client_errors_witness :
  instanceofOllamaAPIError
    (OllamaNetworkError (lit "Network error: fetch failed")
       (PlatformError (lit "TypeError") (lit "fetch failed"))) = true
  /\ (instanceofOllamaNetworkError
        (OllamaNetworkError (lit "Network error: fetch failed")
           (PlatformError (lit "TypeError") (lit "fetch failed"))) = true ->
      exists n m,
        OllamaNetworkError (lit "Network error: fetch failed")
          (PlatformError (lit "TypeError") (lit "fetch failed"))
        = OllamaNetworkError (lit "Network error: " ++ m) (PlatformError n m)).
Proof.
  eapply (post_throws_only_client_errors Examples.defaults
            (fun _ => Rejects (lit "TypeError") (lit "fetch failed"))
            (lit "tags") (VObj [])).
  reflexivity.
Defined.

(** X3: whatever [post] ends with, it makes at most the configured number
    of fetches, all of them to the same address with the same payload, each
    one under a timer of its own, and it awaits the configured delay
    between two fetches and at no other time. *)
Theorem post_bounded_requests : forall cfg net endpoint data r tr,
  post cfg net endpoint data = Some (r, tr) ->
  filter isFetchOrSleep tr =
    fetchesAndSleeps (urlOf cfg endpoint) data (retryDelayMs cfg) (countIf isFetch tr)
  /\ countIf isSetTimeout tr = countIf isFetch tr
  /\ Z.of_nat (countIf isFetch tr) <= Z.max 0 (retryAttempts cfg).
Proof.
  intros cfg net endpoint data r tr H. unfold post in H.
  destruct (postLoop_trace _ _ _ _ _ _ _ _ H) as (n & Hf & Ht & Hb & _).
  assert (Hn : countIf isFetch tr = n).
  { rewrite <- countIf_isFetch_projection, Hf. apply countIf_fetchesAndSleeps. }
  rewrite Hn. split; [exact Hf|]. split; [exact Ht|]. now rewrite Z.sub_0_r in Hb.
Qed.

Lemma post_bounded_requests_witness :
  exists r tr,
    post Examples.defaults (fun _ => Pending) (lit "tags") (VObj []) = Some (r, tr)
    /\ countIf isSetTimeout tr = countIf isFetch tr
    /\ Z.of_nat (countIf isFetch tr) <= 3.
Proof.
  eexists _, _. split; [reflexivity|].
  exact (proj2 (post_bounded_requests Examples.defaults (fun _ => Pending)
                  (lit "tags") (VObj []) _ _ eq_refl)).
Defined.

(** ** extractStructuredData and extractToolCalls: misses, fences, order *)

Lemma absent_In : forall c s, absent c s = true -> forall x, In x s -> x <> c.
Proof.
  intros c s H x Hx. unfold absent in H.
  rewrite forallb_forall in H. specialize (H x Hx).
  apply negb_true_iff in H. now apply Z.eqb_neq.
Qed.

Lemma absent_cons : forall c x s,
  absent c (x :: s) = true -> x <> c /\ absent c s = true.
Proof.
  intros c x s H. unfold absent in *. cbn [forallb] in H.
  apply andb_true_iff in H. destruct H as [Hx Hs].
  apply negb_true_iff in Hx. split; [now apply Z.eqb_neq | exact Hs].
Qed.

Lemma absent_app : forall c a b,
  absent c (a ++ b) = true -> absent c a = true /\ absent c b = true.
Proof.
  intros c a b H. unfold absent in *. rewrite forallb_app in H.
  now apply andb_true_iff in H.
Qed.

Lemma fenceAt_nil : fenceAt [] = None.
Proof. reflexivity. Qed.

Lemma fenceAt_head : forall c s, c <> 96 -> fenceAt (c :: s) = None.
Proof.
  intros c s H. unfold fenceAt. cbn [lit list_ascii_of_string map startsWith].
  replace (c =? Z.of_N (N_of_ascii "`")) with false; [reflexivity|].
  symmetry. now apply Z.eqb_neq.
Qed.

Lemma matchJson_no_open : forall s,
  absent 96 s = true -> absent 123 s = true -> matchJson s = None.
Proof.
  induction s as [|c s IH]; intros Hq Ho; [reflexivity|].
  apply absent_cons in Hq. destruct Hq as [Hc Hq].
  apply absent_cons in Ho. destruct Ho as [Hc' Ho].
  cbn [matchJson]. rewrite (fenceAt_head c s Hc), (braceAt_other c s Hc').
  now apply IH.
Qed.

Lemma matchJson_no_close : forall s,
  absent 96 s = true -> absent 125 s = true -> matchJson s = None.
Proof.
  induction s as [|c s IH]; intros Hq Ho; [reflexivity|].
  apply absent_cons in Hq. destruct Hq as [Hc Hq].
  apply absent_cons in Ho. destruct Ho as [Hc' Ho].
  cbn [matchJson]. rewrite (fenceAt_head c s Hc).
  assert (B : braceAt (c :: s) = None).
  { unfold braceAt. destruct (c =? 123); [|reflexivity].
    now rewrite (lastIndexOfUnit_absent s 125 (absent_In 125 s Ho)). }
  rewrite B. now apply IH.
Qed.

Lemma extractStructuredData_no_match : forall JSON_parse t,
  absent 96 t = true ->
  absent 123 t = true \/ absent 125 t = true ->
  extractStructuredData JSON_parse (VStr t) = VUndefined.
Proof.
  intros JSON_parse t Hq [Ho|Hc]; unfold extractStructuredData.
  - now rewrite (matchJson_no_open t Hq Ho).
  - now rewrite (matchJson_no_close t Hq Hc).
Qed.

(** X4: an extraction miss is silent.  A response that is not a string, or
    a text without a backtick that has no opening brace or no closing brace
    (a payload still incomplete, for one), gives [undefined], and the parser
    is not even asked. *)
Theorem extractStructuredData_miss : forall JSON_parse response,
  (forall t, response = VStr t ->
     absent 96 t = true /\ (absent 123 t = true \/ absent 125 t = true)) ->
  extractStructuredData JSON_parse response = VUndefined.
Proof.
  intros JSON_parse response H.
  destruct response as [| | | |t| |]; try reflexivity.
  destruct (H t eq_refl) as [Hq Hb].
  now apply extractStructuredData_no_match.
Qed.

Lemma extractStructuredData_miss_witness :
  extractStructuredData (fun _ => Normal (VObj [])) (VStr (lit "{ unfinished: [1, 2"))
  = VUndefined.
Proof.
  apply extractStructuredData_miss.
  intros t [= <-]. split; [reflexivity | right; reflexivity].
Defined.

Lemma startsWith_app : forall needle rest, startsWith (needle ++ rest) needle = true.
Proof.
  induction needle as [|c needle IH]; intros rest; [apply startsWith_nil|].
  cbn [app startsWith]. now rewrite Z.eqb_refl, IH.
Qed.

Lemma startsWith_head : forall c x s needle,
  x <> c -> startsWith (x :: s) (c :: needle) = false.
Proof.
  intros c x s needle H. cbn [startsWith].
  replace (x =? c) with false; [reflexivity | symmetry; now apply Z.eqb_neq].
Qed.

Lemma indexOf_after_absent : forall c needle body rest,
  absent c body = true ->
  indexOf (body ++ (c :: needle) ++ rest) (c :: needle) = Some (List.length body).
Proof.
  intros c needle body. induction body as [|x body IH]; intros rest H.
  - cbn [app List.length].
    change (c :: needle ++ rest) with ((c :: needle) ++ rest).
    destruct ((c :: needle) ++ rest) eqn:E; [discriminate|].
    rewrite indexOf_cons, <- E, startsWith_app. reflexivity.
  - apply absent_cons in H. destruct H as [Hx H].
    change ((x :: body) ++ (c :: needle) ++ rest)
      with (x :: (body ++ (c :: needle) ++ rest)).
    rewrite indexOf_cons, (startsWith_head c x _ needle Hx), (IH rest H).
    reflexivity.
Qed.

Lemma firstn_app_exact : forall (a b : jsstring), firstn (List.length a) (a ++ b) = a.
Proof.
  induction a as [|x a IH]; intros b; [reflexivity|].
  cbn [List.length app firstn]. now rewrite IH.
Qed.

Lemma matchJson_skip_plain : forall pre rest,
  absent 96 pre = true -> absent 123 pre = true ->
  matchJson (pre ++ rest) = matchJson rest.
Proof.
  induction pre as [|c pre IH]; intros rest Hq Ho; [reflexivity|].
  apply absent_cons in Hq. destruct Hq as [Hc Hq].
  apply absent_cons in Ho. destruct Ho as [Hc' Ho].
  change ((c :: pre) ++ rest) with (c :: (pre ++ rest)).
  cbn [matchJson]. rewrite (fenceAt_head c _ Hc), (braceAt_other c _ Hc').
  now apply IH.
Qed.

Lemma fenceAt_block : forall body post,
  absent 96 body = true ->
  fenceAt (lit "```json" ++ body ++ lit "```" ++ post)
  = Some {| whole := lit "```json" ++ body ++ lit "```"; group1 := Some body |}.
Proof.
  intros body post H. unfold fenceAt.
  rewrite startsWith_app.
  assert (R : sliceFrom (lit "```json" ++ body ++ lit "```" ++ post) 7
              = body ++ lit "```" ++ post) by reflexivity.
  rewrite R.
  assert (I : indexOf (body ++ lit "```" ++ post) (lit "```") = Some (List.length body))
    by apply (indexOf_after_absent 96 [96; 96] body post H).
  rewrite I. unfold sliceTo. rewrite firstn_app_exact.
  assert (W : firstn (7 + List.length body + 3)
                (lit "```json" ++ body ++ lit "```" ++ post)
              = lit "```json" ++ body ++ lit "```").
  { replace (7 + List.length body + 3)%nat
      with (List.length (lit "```json" ++ body ++ lit "```"))
      by (rewrite !length_app; cbn; lia).
    rewrite (app_assoc body (lit "```") post).
    rewrite (app_assoc (lit "```json") (body ++ lit "```") post).
    apply firstn_app_exact. }
  now rewrite W.
Qed.

(** X5: a fenced block that comes before any brace decides the result.
    For a text whose first backtick opens a [```json] fence, with no brace
    before it and a non-empty body without backticks, the result is what
    the parser makes of the trimmed body, and [undefined] if the parser
    throws; what follows the closing fence plays no part. *)
Theorem extractStructuredData_fenced : forall JSON_parse pre body post,
  absent 96 pre = true ->
  absent 123 pre = true ->
  absent 96 body = true ->
  body <> [] ->
  extractStructuredData JSON_parse
    (VStr (pre ++ lit "```json" ++ body ++ lit "```" ++ post))
  = match JSON_parse (trim body) with Normal v => v | Throw _ => VUndefined end.
Proof.
  intros JSON_parse pre body post Hq Ho Hb Hne. unfold extractStructuredData.
  rewrite (matchJson_skip_plain pre _ Hq Ho).
  assert (M : matchJson (lit "```json" ++ body ++ lit "```" ++ post)
              = Some {| whole := lit "```json" ++ body ++ lit "```"; group1 := Some body |}).
  { pose proof (fenceAt_block body post Hb) as F.
    change (lit "```json" ++ body ++ lit "```" ++ post)
      with (96 :: ([96; 96; 106; 115; 111; 110] ++ body ++ lit "```" ++ post)) in *.
    cbn [matchJson]. now rewrite F. }
  rewrite M. unfold jsonStr. cbn [group1].
  destruct body as [|c body]; [now elim Hne|].
  destruct (JSON_parse (trim (c :: body))); reflexivity.
Qed.

Lemma extractStructuredData_fenced_witness :
  extractStructuredData Json.parse
    (VStr (lit "Here: " ++ lit "```json" ++ ([10] ++ lit "[true]" ++ [10]) ++ lit "```"
           ++ lit " and {more}"))
  = VArr [VBool true].
Proof.
  exact (extractStructuredData_fenced Json.parse (lit "Here: ")
           ([10] ++ lit "[true]" ++ [10]) (lit " and {more}")
           eq_refl eq_refl eq_refl ltac:(discriminate)).
Defined.

Lemma mapActions_objects : forall items,
  forallb (fun a => negb (isNullish a)) items = true ->
  mapActions items = Normal (map toolCallOf items).
Proof.
  induction items as [|a items IH]; intros H; [reflexivity|].
  cbn [forallb] in H. apply andb_true_iff in H. destruct H as [Ha Hi].
  cbn [mapActions map]. rewrite (IH Hi).
  destruct a; try discriminate; reflexivity.
Qed.

Lemma mapActions_null : forall before after,
  exists e, mapActions (before ++ VNull :: after) = Throw e.
Proof.
  induction before as [|a before IH]; intros after.
  - eexists. reflexivity.
  - cbn [app mapActions]. destruct (IH after) as [e He].
    destruct (getProp a (lit "action")) as [n|e1]; [|eexists; reflexivity].
    cbn [bind].
    destruct (getProp a (lit "parameters")) as [q|e2]; [|eexists; reflexivity].
    cbn [bind]. rewrite He. eexists; reflexivity.
Qed.

(** X6: the tool calls follow the actions.  For an object whose
    [browser_actions] is an array without [null] entries, [extractToolCalls]
    returns one call per entry, in the order of the array, taking [name]
    from the entry's [action] and [parameters] from its [parameters]
    ([undefined] where the entry has no such key). *)
Theorem extractToolCalls_in_order : forall props items,
  lookup props (lit "browser_actions") = Some (VArr items) ->
  forallb (fun a => negb (isNullish a)) items = true ->
  extractToolCalls (VObj props) = Normal (Some (map toolCallOf items)).
Proof.
  intros props items Hl Hi. unfold extractToolCalls, hasProp, getProp.
  cbn [truthy bind]. rewrite Hl. cbn [bind].
  now rewrite (mapActions_objects items Hi).
Qed.

Lemma extractToolCalls_in_order_witness :
  extractToolCalls
    (VObj [(lit "browser_actions",
            VArr [VObj [(lit "action", VStr (lit "click"))]; VBool true])])
  = Normal (Some [{| name := VStr (lit "click"); parameters := VUndefined |};
                  {| name := VUndefined; parameters := VUndefined |}]).
Proof.
  exact (extractToolCalls_in_order
           [(lit "browser_actions",
             VArr [VObj [(lit "action", VStr (lit "click"))]; VBool true])]
           [VObj [(lit "action", VStr (lit "click"))]; VBool true]
           eq_refl eq_refl).
Defined.

Lemma extractToolCalls_primitive : forall v,
  truthy v = true -> isPrimitive v = true ->
  exists m, extractToolCalls v = Throw (PlatformError (lit "TypeError") m).
Proof.
  intros v Ht Hp. unfold extractToolCalls. rewrite Ht.
  destruct v; try discriminate; now eexists.
Qed.

(** X7: where [extractToolCalls] gives [undefined] and where it throws.
    It gives [undefined], without an error, for a falsy value, for an array
    and for an object whose [browser_actions] is missing or is not an
    array; it throws a TypeError for a truthy primitive (the [in] operator
    refuses it) and for an action that is [null]. *)
Theorem extractToolCalls_absent_or_throws :
  (forall v, truthy v = false -> extractToolCalls v = Normal None)
  /\ (forall items, extractToolCalls (VArr items) = Normal None)
  /\ (forall props,
        match lookup props (lit "browser_actions") with
        | Some (VArr _) => True
        | _ => extractToolCalls (VObj props) = Normal None
        end)
  /\ (forall v, truthy v = true -> isPrimitive v = true ->
        exists e, extractToolCalls v = Throw e)
  /\ (forall props before after,
        lookup props (lit "browser_actions") = Some (VArr (before ++ VNull :: after)) ->
        exists e, extractToolCalls (VObj props) = Throw e).
Proof.
  split; [|split; [|split; [|split]]].
  - intros v H. unfold extractToolCalls. now rewrite H.
  - reflexivity.
  - intros props. unfold extractToolCalls, hasProp, getProp. cbn [truthy bind].
    destruct (lookup props (lit "browser_actions")) as [[]|]; try reflexivity; exact I.
  - intros v Ht Hp. destruct (extractToolCalls_primitive v Ht Hp) as [m E].
    rewrite E. now eexists.
  - intros props before after Hl. unfold extractToolCalls, hasProp, getProp.
    cbn [truthy bind]. rewrite Hl. cbn [bind].
    destruct (mapActions_null before after) as [e M]. rewrite M. now exists e.
Qed.

Lemma extractToolCalls_absent_or_throws_witness :
  extractToolCalls (VStr []) = Normal None
  /\ exists e, extractToolCalls (VBool true) = Throw e.
Proof.
  split.
  - exact (proj1 extractToolCalls_absent_or_throws (VStr []) eq_refl).
  - exact (proj1 (proj2 (proj2 (proj2 extractToolCalls_absent_or_throws)))
             (VBool true) eq_refl eq_refl).
Defined.

(** ** query: plain replies, payloads that are not objects, no attempts *)

Section QueryMore.

Variable cfg : config.
Variable net : Z -> settle response.
Variable JSON_parse : jsstring -> completion value.
Variable systemPrompt : jsstring.

Lemma query_after_chat : forall q response tr,
  chat cfg net (model cfg)
    [chatMessage (lit "system") systemPrompt;
     chatMessage (lit "user") (preprocessQuery q)] (lit "json")
    = Some (Normal response, tr) ->
  query cfg net JSON_parse systemPrompt q
  = Some (tryCatch (interpret JSON_parse response) recover, tr).
Proof. intros q response tr H. unfold query. now rewrite H. Qed.

End QueryMore.

(** X8: a reply in plain text comes back as it is.  When the chat call
    returns a response whose message content is a text without a backtick
    and without an opening (or without a closing) brace, [query] returns
    that text with no structured output, no tool calls and no error. *)
Theorem query_plain_reply :
  forall cfg net JSON_parse systemPrompt q response tr message t,
    chat cfg net (model cfg)
      [chatMessage (lit "system") systemPrompt;
       chatMessage (lit "user") (preprocessQuery q)] (lit "json")
      = Some (Normal response, tr) ->
    getProp response (lit "message") = Normal message ->
    getProp message (lit "content") = Normal (VStr t) ->
    absent 96 t = true ->
    absent 123 t = true \/ absent 125 t = true ->
    query cfg net JSON_parse systemPrompt q
    = Some (Normal {| text := VStr t; structuredOutput := VUndefined;
                      toolCalls := None; error := None |}, tr).
Proof.
  intros cfg net JSON_parse systemPrompt q response tr message t Hchat Hm Hc Hq Hb.
  rewrite (query_after_chat _ _ _ _ _ _ _ Hchat).
  unfold interpret. rewrite Hm. cbn [bind]. rewrite Hc. cbn [bind].
  now rewrite (extractStructuredData_no_match JSON_parse t Hq Hb).
Qed.

Lemma query_plain_reply_witness :
  query Examples.defaults
    (fun _ => Resolves (Examples.okJson (Examples.chatReply (lit "2 + 2 = 4"))))
    Json.parse (lit "You are an AI assistant.") (lit "What is 2+2")
  = Some (Normal {| text := VStr (lit "2 + 2 = 4"); structuredOutput := VUndefined;
                    toolCalls := None; error := None |},
          [EvSetTimeout 30000;
           EvFetch (lit "http://localhost:11434/api/chat")
             (chatRequest Examples.defaults (lit "granite3.2-vision")
                [chatMessage (lit "system") (lit "You are an AI assistant.");
                 chatMessage (lit "user") (lit "What is 2+2")] (lit "json") false);
           EvClearTimeout]).
Proof.
  apply (query_plain_reply Examples.defaults
           (fun _ => Resolves (Examples.okJson (Examples.chatReply (lit "2 + 2 = 4"))))
           Json.parse (lit "You are an AI assistant.") (lit "What is 2+2")
           (Examples.chatReply (lit "2 + 2 = 4")) _
           (VObj [(lit "role", VStr (lit "assistant"));
                  (lit "content", VStr (lit "2 + 2 = 4"))])
           (lit "2 + 2 = 4")).
  - reflexivity.
  - reflexivity.
  - reflexivity.
  - reflexivity.
  - left. reflexivity.
Defined.

(** X9: a payload that is not an object turns a good reply into an error
    result.  When the text of the reply yields a truthy boolean, number or
    string as structured data, the [in] test of [extractToolCalls] throws,
    the catch block of [query] takes over, and the caller receives the
    message about an unexpected error with the reply's text lost. *)
Theorem query_primitive_payload :
  forall cfg net JSON_parse systemPrompt q response tr message t,
    chat cfg net (model cfg)
      [chatMessage (lit "system") systemPrompt;
       chatMessage (lit "user") (preprocessQuery q)] (lit "json")
      = Some (Normal response, tr) ->
    getProp response (lit "message") = Normal message ->
    getProp message (lit "content") = Normal (VStr t) ->
    truthy (extractStructuredData JSON_parse (VStr t)) = true ->
    isPrimitive (extractStructuredData JSON_parse (VStr t)) = true ->
    exists m,
      query cfg net JSON_parse systemPrompt q
      = Some (Normal {| text := VStr unexpectedMessage; structuredOutput := VUndefined;
                        toolCalls := None; error := Some m |}, tr).
Proof.
  intros cfg net JSON_parse systemPrompt q response tr message t Hchat Hm Hc Ht Hp.
  rewrite (query_after_chat _ _ _ _ _ _ _ Hchat).
  unfold interpret. rewrite Hm. cbn [bind]. rewrite Hc. cbn [bind]. rewrite Ht.
  destruct (extractToolCalls_primitive _ Ht Hp) as [m E]. rewrite E.
  cbn [bind tryCatch]. unfold recover. cbn [instanceofOllamaAPIError
    instanceofOllamaNetworkError orb]. now eexists.
Qed.

Lemma query_primitive_payload_witness :
  exists m,
    query Examples.defaults
      (fun _ => Resolves (Examples.okJson
                            (Examples.chatReply (lit "```json true```"))))
      Json.parse (lit "You are an AI assistant.") (lit "Is it so?")
    = Some (Normal {| text := VStr unexpectedMessage; structuredOutput := VUndefined;
                      toolCalls := None; error := Some m |},
            [EvSetTimeout 30000;
             EvFetch (lit "http://localhost:11434/api/chat")
               (chatRequest Examples.defaults (lit "granite3.2-vision")
                  [chatMessage (lit "system") (lit "You are an AI assistant.");
                   chatMessage (lit "user") (lit "Is it so?")] (lit "json") false);
             EvClearTimeout]).
Proof.
  apply (query_primitive_payload Examples.defaults
           (fun _ => Resolves (Examples.okJson
                                 (Examples.chatReply (lit "```json true```"))))
           Json.parse (lit "You are an AI assistant.") (lit "Is it so?")
           (Examples.chatReply (lit "```json true```")) _
           (VObj [(lit "role", VStr (lit "assistant"));
                  (lit "content", VStr (lit "```json true```"))])
           (lit "```json true```")); reflexivity.
Defined.

(** X10: with no attempt configured, every query fails without touching the
    network: the result is the message about the backend, its [error] says
    that the maximum of attempts was reached, and nothing was fetched. *)
Theorem query_without_attempts : forall cfg net JSON_parse systemPrompt q,
  retryAttempts cfg <= 0 ->
  query cfg net JSON_parse systemPrompt q
  = Some (Normal {| text := VStr backendMessage; structuredOutput := VUndefined;
                    toolCalls := None;
                    error := Some (lit "Maximum retry attempts reached") |}, []).
Proof.
  intros cfg net JSON_parse systemPrompt q H. unfold query, chat, post.
  cbn [postLoop]. destruct (Z.ltb_spec 0 (retryAttempts cfg)); [lia|]. reflexivity.
Qed.

Lemma query_without_attempts_witness :
  query Examples.noAttempts (fun _ => Resolves (Examples.okJson (VObj [])))
    Json.parse (lit "You are an AI assistant.") (lit "hello")
  = Some (Normal {| text := VStr backendMessage; structuredOutput := VUndefined;
                    toolCalls := None;
                    error := Some (lit "Maximum retry attempts reached") |}, []).
Proof.
  apply query_without_attempts. simpl. lia.
Defined.

(** ** preprocessQuery: bare domains, idempotence *)

Lemma trimStart_fixed : forall s, startsWhite s = false -> trimStart s = s.
Proof.
  intros [|c s] H; [reflexivity|]. cbn [startsWhite] in H. cbn [trimStart].
  now rewrite H.
Qed.

Lemma trim_fixed : forall s,
  startsWhite s = false -> endsWhite s = false -> trim s = s.
Proof.
  intros s Hs He. unfold trim, trimEnd. rewrite (trimStart_fixed s Hs).
  unfold endsWhite in He. rewrite (trimStart_fixed (rev s) He).
  apply rev_involutive.
Qed.

Lemma trim_trim : forall s, trim (trim s) = trim s.
Proof.
  intros s. apply trim_fixed; [apply trim_startsWhite | apply trim_endsWhite].
Qed.

Lemma endsWhite_app : forall a t, t <> [] -> endsWhite (a ++ t) = endsWhite t.
Proof.
  intros a t H. unfold endsWhite. rewrite rev_app_distr.
  destruct (rev t) as [|c r] eqn:E; [|reflexivity].
  exfalso. apply H. rewrite <- (rev_involutive t), E. reflexivity.
Qed.

Lemma includes_skip : forall x s c needle,
  x <> c -> includes (x :: s) (c :: needle) = includes s (c :: needle).
Proof.
  intros x s c needle H. unfold includes.
  rewrite indexOf_cons, (startsWith_head c x s needle H).
  destruct (indexOf s (c :: needle)); reflexivity.
Qed.

(** The scheme put before a bare domain brings no verb with it. *)
Lemma hasNavigationVerb_scheme : forall s,
  hasNavigationVerb (lit "https://" ++ s) = hasNavigationVerb s.
Proof.
  intros s. unfold hasNavigationVerb. rewrite toLowerCase_app.
  change (toLowerCase (lit "https://")) with [104; 116; 116; 112; 115; 58; 47; 47].
  change (lit "go to") with (103 :: [111; 32; 116; 111]).
  change (lit "navigate") with (110 :: [97; 118; 105; 103; 97; 116; 101]).
  cbn [app].
  rewrite !includes_skip by discriminate. reflexivity.
Qed.

Lemma isBareDomain_nonempty : forall s, isBareDomain s = true -> s <> [].
Proof. intros s H ->. discriminate. Qed.

Lemma startsWith_nonempty : forall s c p, startsWith s (c :: p) = true -> s <> [].
Proof. intros s c p H ->. discriminate. Qed.

(** X11: a bare domain is made a navigation instruction.  A query whose
    trimmed text is a bare domain (labels of word characters and dashes
    joined by dots) and holds neither ["go to"] nor ["navigate"] becomes
    ["Navigate to https://"] followed by the domain. *)
Theorem preprocessQuery_bare_domain : forall q,
  isBareDomain (trim q) = true ->
  hasNavigationVerb (trim q) = false ->
  preprocessQuery q = lit "Navigate to https://" ++ trim q.
Proof.
  intros q Hb Hv. unfold preprocessQuery. rewrite Hb.
  pose proof (hasNavigationVerb_scheme (trim q)) as S. rewrite Hv in S.
  unfold hasNavigationVerb in S. apply orb_false_iff in S. destruct S as [S1 S2].
  rewrite S1, S2. reflexivity.
Qed.

Lemma preprocessQuery_bare_domain_witness :
  preprocessQuery (lit " docs.my-site.org ") = lit "Navigate to https://docs.my-site.org".
Proof.
  exact (preprocessQuery_bare_domain (lit " docs.my-site.org ") eq_refl eq_refl).
Defined.

(** The query once trimmed: the two rewrites of [preprocessQuery]. *)
Lemma preprocessQuery_of_trimmed : forall s,
  trim s = s ->
  preprocessQuery s =
    if isBareDomain s then
      if hasNavigationVerb (lit "https://" ++ s) then lit "https://" ++ s
      else lit "Navigate to " ++ lit "https://" ++ s
    else if startsWith s (lit "http") && negb (hasNavigationVerb s)
         then lit "Navigate to " ++ s
         else s.
Proof.
  intros s H. unfold preprocessQuery, hasNavigationVerb. rewrite H.
  destruct (isBareDomain s).
  - change (startsWith (lit "https://" ++ s) (lit "http")) with true.
    destruct (includes (toLowerCase (lit "https://" ++ s)) (lit "go to"));
      destruct (includes (toLowerCase (lit "https://" ++ s)) (lit "navigate"));
      reflexivity.
  - destruct (startsWith s (lit "http"));
      destruct (includes (toLowerCase s) (lit "go to"));
      destruct (includes (toLowerCase s) (lit "navigate")); reflexivity.
Qed.

Lemma preprocessQuery_trim : forall q, preprocessQuery q = preprocessQuery (trim q).
Proof. intros q. unfold preprocessQuery. now rewrite trim_trim. Qed.

(** X12: preprocessing is idempotent: a query that has been preprocessed is
    left as it is by a second pass, so no prefix is ever put twice. *)
Theorem preprocessQuery_idempotent : forall q,
  preprocessQuery (preprocessQuery q) = preprocessQuery q.
Proof.
  intros q. rewrite (preprocessQuery_trim q).
  pose proof (trim_startsWhite q) as Hs. pose proof (trim_endsWhite q) as He.
  pose proof (trim_trim q) as Ht.
  set (t := trim q) in *.
  rewrite (preprocessQuery_of_trimmed t Ht).
  destruct (isBareDomain t) eqn:Hb.
  - pose proof (isBareDomain_nonempty t Hb) as Hne.
    destruct (hasNavigationVerb (lit "https://" ++ t)) eqn:Hv.
    + rewrite preprocessQuery_of_trimmed.
      * change (isBareDomain (lit "https://" ++ t)) with false. cbv iota.
        change (startsWith (lit "https://" ++ t) (lit "http")) with true.
        now rewrite Hv.
      * apply trim_fixed; [reflexivity|]. now rewrite endsWhite_app.
    + rewrite preprocessQuery_of_trimmed.
      * reflexivity.
      * apply trim_fixed; [reflexivity|].
        rewrite (app_assoc (lit "Navigate to ") (lit "https://") t).
        now rewrite endsWhite_app.
  - destruct (startsWith t (lit "http") && negb (hasNavigationVerb t)) eqn:C.
    + apply andb_true_iff in C. destruct C as [C _].
      pose proof (startsWith_nonempty t _ _ C) as Hne.
      rewrite preprocessQuery_of_trimmed.
      * reflexivity.
      * apply trim_fixed; [reflexivity|]. now rewrite endsWhite_app.
    + rewrite (preprocessQuery_of_trimmed t Ht), Hb. now rewrite C.
Qed.

(** ** stream: the end of a session, cancellation, failures, callbacks *)

Section SessionMore.

Variable cfg : config.
Variable JSON_parse : jsstring -> completion value.
Variable cb : callbacks.

Lemma fst_catchBlock : forall aborted e,
  fst (catchBlock cb aborted e)
  = match onDone cb with Some (Throw e') => Unhandled e' | _ => Finished end.
Proof.
  intros aborted e. unfold catchBlock, callOnDone.
  destruct (onDone cb) as [[|]|]; reflexivity.
Qed.

Lemma countIf_isDone_catchBlock : forall aborted e,
  countIf isDone (snd (catchBlock cb aborted e))
  = match onDone cb with Some _ => 1%nat | None => 0%nat end.
Proof.
  intros aborted e. unfold catchBlock, callOnDone.
  destruct (onDone cb) as [[|]|]; destruct aborted;
    destruct (instanceofOllamaAPIError e); reflexivity.
Qed.


Lemma fst_finish : forall buffer,
  fst (finish JSON_parse cb buffer)
  = match onDone cb with Some (Throw e') => Unhandled e' | _ => Finished end.
Proof.
  intros buffer. unfold finish, callOnDone.
  destruct (onDone cb) as [[u|e]|] eqn:O; try reflexivity.
  pose proof (fst_catchBlock false e) as K. rewrite O in K.
  destruct (catchBlock cb false e). exact K.
Qed.

Lemma countIf_isDone_finish : forall buffer,
  countIf isDone (snd (finish JSON_parse cb buffer))
  = match onDone cb with
    | Some (Throw _) => 2%nat
    | Some (Normal _) => 1%nat
    | None => 0%nat
    end.
Proof.
  intros buffer. unfold finish.
  pose proof (countIf_isDone_deliver JSON_parse cb
                (lit "Error parsing JSON from buffer:") buffer) as D.
  unfold callOnDone.
  destruct (onDone cb) as [[u|e]|] eqn:O; cbn [snd].
  - rewrite countIf_app. destruct (nonEmpty (trim buffer)); [now rewrite D | reflexivity].
  - pose proof (countIf_isDone_catchBlock false e) as K. rewrite O in K.
    destruct (catchBlock cb false e) as [st tr'']. cbn [snd] in *.
    rewrite !countIf_app, K.
    destruct (nonEmpty (trim buffer)); [now rewrite D | reflexivity].
  - rewrite countIf_app. destruct (nonEmpty (trim buffer)); [now rewrite D | reflexivity].
Qed.

End SessionMore.

(** X13: when the reader lets the loop run and [onDone] returns, every
    session that ends, whether by the end of the body, by a failure of the
    connection or of a read, or by a cancellation, ends normally and calls
    [onDone] exactly once. *)
Theorem stream_calls_onDone_once :
  forall cfg JSON_parse cb cancelAt conn endpoint data,
    onDone cb = Some (Normal tt) ->
    (forall response reader,
        conn = Resolves response -> body response = Some reader -> closed reader = false) ->
    fst (stream cfg JSON_parse cb cancelAt conn endpoint data) <> Suspended ->
    fst (stream cfg JSON_parse cb cancelAt conn endpoint data) = Finished
    /\ countIf isDone (snd (stream cfg JSON_parse cb cancelAt conn endpoint data)) = 1%nat.
Proof.
  intros cfg JSON_parse cb cancelAt conn endpoint data Hd Hopen Hend.
  now apply stream_done_once_when_loop_runs.
Qed.

Lemma stream_calls_onDone_once_witness :
  fst (stream Examples.defaults Json.parse Examples.quietCallbacks (Some 2%nat)
         (Resolves (bodyOf false EndPending [lit "{}" ++ [10]; lit "[1]" ++ [10]]))
         (lit "chat") VNull) = Finished
  /\ countIf isDone
       (snd (stream Examples.defaults Json.parse Examples.quietCallbacks (Some 2%nat)
               (Resolves (bodyOf false EndPending [lit "{}" ++ [10]; lit "[1]" ++ [10]]))
               (lit "chat") VNull)) = 1%nat.
Proof.
  apply (stream_calls_onDone_once Examples.defaults Json.parse Examples.quietCallbacks
           (Some 2%nat)
           (Resolves (bodyOf false EndPending [lit "{}" ++ [10]; lit "[1]" ++ [10]]))
           (lit "chat") VNull).
  - reflexivity.
  - intros response reader [= <-] [= <-]. reflexivity.
  - vm_compute. discriminate.
Defined.

(** X14: an [onDone] that throws when the body ends is called twice.  With
    the loop running and no cancellation, the call in the [done] branch
    throws into the catch block of the same function, which calls [onDone]
    again; the second error leaves the async function unhandled. *)
Theorem stream_onDone_throws_twice :
  forall cfg JSON_parse cb endpoint data cs e,
    onDone cb = Some (Throw e) ->
    fst (stream cfg JSON_parse cb None (Resolves (bodyOf false EndDone cs)) endpoint data)
      = Unhandled e
    /\ countIf isDone
         (snd (stream cfg JSON_parse cb None (Resolves (bodyOf false EndDone cs))
                 endpoint data)) = 2%nat.
Proof.
  intros cfg JSON_parse cb endpoint data cs e Hd. rewrite stream_whole.
  destruct (decode newDecoder (List.concat cs)) as [d' decoded].
  rewrite processLines_linesOf. cbn [endOf].
  pose proof (fst_finish JSON_parse cb (snd (linesOf decoded))) as F.
  pose proof (countIf_isDone_finish JSON_parse cb (snd (linesOf decoded))) as C.
  rewrite Hd in F, C.
  destruct (finish JSON_parse cb (snd (linesOf decoded))) as [st tr'].
  cbn [fst snd] in *. split; [exact F|].
  change (EvFetch (apiUrl cfg ++ lit "/" ++ endpoint) data
          :: flat_map (lineEvents JSON_parse cb) (fst (linesOf decoded)) ++ tr')
    with ([EvFetch (apiUrl cfg ++ lit "/" ++ endpoint) data]
          ++ flat_map (lineEvents JSON_parse cb) (fst (linesOf decoded)) ++ tr').
  now rewrite !countIf_app, countIf_isDone_lines, C.
Qed.

Lemma stream_onDone_throws_twice_witness :
  fst (stream Examples.defaults Json.parse
         {| onChunk := fun _ => Normal tt;
            onDone := Some (Throw (TypeError "callback failed")) |}
         None (Resolves (bodyOf false EndDone [lit "{}" ++ [10]])) (lit "chat") VNull)
    = Unhandled (TypeError "callback failed")
  /\ countIf isDone
       (snd (stream Examples.defaults Json.parse
               {| onChunk := fun _ => Normal tt;
                  onDone := Some (Throw (TypeError "callback failed")) |}
               None (Resolves (bodyOf false EndDone [lit "{}" ++ [10]])) (lit "chat") VNull))
     = 2%nat.
Proof.
  exact (stream_onDone_throws_twice Examples.defaults Json.parse
           {| onChunk := fun _ => Normal tt;
              onDone := Some (Throw (TypeError "callback failed")) |}
           (lit "chat") VNull [lit "{}" ++ [10]] (TypeError "callback failed") eq_refl).
Defined.



Section SessionMore2.

Variable cfg : config.
Variable JSON_parse : jsstring -> completion value.

Lemma fst_endOf : forall cb fin buffer,
  fin <> EndPending ->
  fst (endOf JSON_parse cb fin buffer)
  = match onDone cb with Some (Throw e') => Unhandled e' | _ => Finished end.
Proof.
  intros cb fin buffer H. destruct fin as [|n m|]; cbn [endOf];
    [apply fst_finish | apply fst_catchBlock | now elim H].
Qed.

Lemma countIf_isLineError_lineEvents : forall cb l,
  countIf isLineError (lineEvents JSON_parse cb l)
  = if lineFails JSON_parse cb l then 1%nat else 0%nat.
Proof.
  intros cb l. unfold lineEvents, lineFails, deliver.
  destruct (trim l) as [|c t]; [reflexivity|]. cbn [nonEmpty].
  destruct (JSON_parse (c :: t)) as [v|]; [|reflexivity].
  destruct (onChunk cb v); reflexivity.
Qed.

Lemma countIf_isLineError_lines : forall cb ls,
  countIf isLineError (flat_map (lineEvents JSON_parse cb) ls)
  = List.length (filter (lineFails JSON_parse cb) ls).
Proof.
  intros cb. induction ls as [|l ls IH]; [reflexivity|].
  cbn [flat_map filter]. rewrite countIf_app, countIf_isLineError_lineEvents, IH.
  destruct (lineFails JSON_parse cb l); reflexivity.
Qed.

Lemma countIf_isLineError_finish_empty : forall cb,
  countIf isLineError (snd (finish JSON_parse cb [])) = 0%nat.
Proof.
  intros cb. unfold finish, callOnDone, catchBlock, callOnDone.
  destruct (onDone cb) as [[u|e]|]; try reflexivity.
  destruct (instanceofOllamaAPIError e); reflexivity.
Qed.

End SessionMore2.

Lemma countIf_after_fetch : forall p u d (x : trace),
  countIf p (EvFetch u d :: x)
  = ((if p (EvFetch u d) then 1 else 0) + countIf p x)%nat.
Proof. intros. unfold countIf. cbn [filter]. now destruct (p (EvFetch u d)). Qed.

(** X16: a connection that gives no body delivers nothing and still ends
    the session.  When the fetch rejects, or the status is bad, or the body
    is null, no record is delivered, the failure is logged, and [onDone]
    is called once if it is given. *)
Theorem stream_failed_connection : forall cfg JSON_parse cb conn endpoint data,
  connectionFails conn = true ->
  delivered (snd (stream cfg JSON_parse cb None conn endpoint data)) = []
  /\ (exists what, In (EvLogError what)
                      (snd (stream cfg JSON_parse cb None conn endpoint data)))
  /\ countIf isDone (snd (stream cfg JSON_parse cb None conn endpoint data))
     = match onDone cb with Some _ => 1%nat | None => 0%nat end
  /\ fst (stream cfg JSON_parse cb None conn endpoint data)
     = match onDone cb with Some (Throw e) => Unhandled e | _ => Finished end.
Proof.
  intros cfg JSON_parse cb conn endpoint data H.
  assert (K : forall e pre,
             delivered pre = [] -> countIf isDone pre = 0%nat ->
             delivered (pre ++ snd (catchBlock cb false e)) = []
             /\ (exists what, In (EvLogError what) (pre ++ snd (catchBlock cb false e)))
             /\ countIf isDone (pre ++ snd (catchBlock cb false e))
                = match onDone cb with Some _ => 1%nat | None => 0%nat end).
  { intros e pre Hd Hc. rewrite delivered_app, Hd, delivered_catchBlock.
    rewrite countIf_app, Hc, countIf_isDone_catchBlock.
    split; [reflexivity|]. split; [|reflexivity].
    unfold catchBlock, callOnDone.
    destruct (onDone cb) as [[|]|]; destruct (instanceofOllamaAPIError e);
      eexists; apply in_or_app; right; left; reflexivity. }
  unfold stream. cbn [cancelled].
  destruct conn as [response|n m|]; [| |discriminate].
  - cbn [connectionFails] in H. destruct (ok response); cbn [negb orb] in *.
    + destruct (body response) as [reader|]; [discriminate|].
      pose proof (K (OllamaAPIError (lit "Response body is null") None)
                    [EvFetch (apiUrl cfg ++ lit "/" ++ endpoint) data]
                    eq_refl eq_refl) as Q.
      pose proof (fst_catchBlock cb false
                    (OllamaAPIError (lit "Response body is null") None)) as F.
      destruct (catchBlock cb false (OllamaAPIError (lit "Response body is null") None)).
      cbn [fst snd] in *. tauto.
    + destruct (Platform.text response) as [t|n m].
      * pose proof (K (OllamaAPIError (lit "API error: " ++ t) (Some (status response)))
                      [EvFetch (apiUrl cfg ++ lit "/" ++ endpoint) data;
                       EvLogError (lit "API error")] eq_refl eq_refl) as Q.
        pose proof (fst_catchBlock cb false
                      (OllamaAPIError (lit "API error: " ++ t) (Some (status response))))
          as F.
        destruct (catchBlock cb false
                    (OllamaAPIError (lit "API error: " ++ t) (Some (status response)))).
        cbn [fst snd app] in *. tauto.
      * pose proof (K (PlatformError n m)
                      [EvFetch (apiUrl cfg ++ lit "/" ++ endpoint) data]
                      eq_refl eq_refl) as Q.
        pose proof (fst_catchBlock cb false (PlatformError n m)) as F.
        destruct (catchBlock cb false (PlatformError n m)).
        cbn [fst snd] in *. tauto.
  - pose proof (K (PlatformError n m)
                  [EvFetch (apiUrl cfg ++ lit "/" ++ endpoint) data]
                  eq_refl eq_refl) as Q.
    pose proof (fst_catchBlock cb false (PlatformError n m)) as F.
    destruct (catchBlock cb false (PlatformError n m)).
    cbn [fst snd] in *. tauto.
Qed.

Lemma stream_failed_connection_witness :
  delivered
    (snd (stream Examples.defaults Json.parse Examples.quietCallbacks None
            (Resolves Examples.serverError) (lit "chat") VNull)) = []
  /\ countIf isDone
       (snd (stream Examples.defaults Json.parse Examples.quietCallbacks None
               (Resolves Examples.serverError) (lit "chat") VNull)) = 1%nat.
Proof.
  destruct (stream_failed_connection Examples.defaults Json.parse
              Examples.quietCallbacks (Resolves Examples.serverError) (lit "chat") VNull
              eq_refl) as (D & _ & C & _).
  split; [exact D | exact C].
Defined.

(** X17: what [onChunk] does is of no consequence for the session.  An
    exception thrown by [onChunk] is caught with the parse errors: for two
    sets of callbacks with the same [onDone], the sessions on the same body
    deliver the same records, call [onDone] as often and end the same way,
    whatever the two [onChunk] return or throw. *)
Theorem stream_onChunk_exceptions_swallowed :
  forall cfg JSON_parse cb cb' endpoint data isClosed fin cs,
    onDone cb = onDone cb' ->
    delivered (snd (stream cfg JSON_parse cb None (Resolves (bodyOf isClosed fin cs))
                      endpoint data))
    = delivered (snd (stream cfg JSON_parse cb' None (Resolves (bodyOf isClosed fin cs))
                        endpoint data))
    /\ fst (stream cfg JSON_parse cb None (Resolves (bodyOf isClosed fin cs))
              endpoint data)
       = fst (stream cfg JSON_parse cb' None (Resolves (bodyOf isClosed fin cs))
                endpoint data)
    /\ countIf isDone
         (snd (stream cfg JSON_parse cb None (Resolves (bodyOf isClosed fin cs))
                 endpoint data))
       = countIf isDone
           (snd (stream cfg JSON_parse cb' None (Resolves (bodyOf isClosed fin cs))
                   endpoint data)).
Proof.
  intros cfg JSON_parse cb cb' endpoint data isClosed fin cs H.
  split; [now rewrite !stream_delivered|].
  rewrite !stream_whole. destruct isClosed; [split; reflexivity|].
  destruct (decode newDecoder (List.concat cs)) as [d' decoded].
  rewrite !processLines_linesOf.
  assert (E : fst (endOf JSON_parse cb fin (snd (linesOf decoded)))
              = fst (endOf JSON_parse cb' fin (snd (linesOf decoded)))
              /\ countIf isDone (snd (endOf JSON_parse cb fin (snd (linesOf decoded))))
                 = countIf isDone (snd (endOf JSON_parse cb' fin (snd (linesOf decoded))))).
  { destruct fin as [|n m|]; cbn [endOf].
    - now rewrite !fst_finish, !countIf_isDone_finish, H.
    - now rewrite !fst_catchBlock, !countIf_isDone_catchBlock, H.
    - split; reflexivity. }
  destruct (endOf JSON_parse cb fin (snd (linesOf decoded))) as [st tr].
  destruct (endOf JSON_parse cb' fin (snd (linesOf decoded))) as [st' tr'].
  cbn [fst snd] in *. destruct E as [E1 E2]. split; [exact E1|].
  rewrite !countIf_after_fetch, !countIf_app, !countIf_isDone_lines. now rewrite E2.
Qed.

Lemma stream_onChunk_exceptions_swallowed_witness :
  delivered
    (snd (stream Examples.defaults Json.parse
            {| onChunk := fun _ => Throw (TypeError "callback failed");
               onDone := Some (Normal tt) |}
            None (Resolves (bodyOf false EndDone [lit "{}" ++ [10] ++ lit "[1]" ++ [10]]))
            (lit "chat") VNull))
  = delivered
      (snd (stream Examples.defaults Json.parse Examples.quietCallbacks
              None (Resolves (bodyOf false EndDone [lit "{}" ++ [10] ++ lit "[1]" ++ [10]]))
              (lit "chat") VNull)).
Proof.
  exact (proj1 (stream_onChunk_exceptions_swallowed Examples.defaults Json.parse
                  {| onChunk := fun _ => Throw (TypeError "callback failed");
                     onDone := Some (Normal tt) |}
                  Examples.quietCallbacks (lit "chat") VNull false EndDone
                  [lit "{}" ++ [10] ++ lit "[1]" ++ [10]] eq_refl)).
Defined.

(** X18: every line is accounted for.  With the loop running, on a body
    of newline-terminated lines, each line that is not blank and that the
    parser accepts is delivered, in order; each line that is not blank and
    on which the parser or [onChunk] throws is logged exactly once; blank
    lines leave no trace. *)
Theorem stream_lines_accounted :
  forall cfg JSON_parse cb endpoint data cs ls,
    snd (decode newDecoder (List.concat cs)) = joinLines ls ->
    forallb noNewline ls = true ->
    delivered (snd (stream cfg JSON_parse cb None (Resolves (bodyOf false EndDone cs))
                      endpoint data))
    = flat_map (recordOfLine JSON_parse) ls
    /\ countIf isLineError
         (snd (stream cfg JSON_parse cb None (Resolves (bodyOf false EndDone cs))
                 endpoint data))
       = List.length (filter (lineFails JSON_parse cb) ls).
Proof.
  intros cfg JSON_parse cb endpoint data cs ls Htext Hnl. split.
  - rewrite stream_delivered. unfold recordsOf.
    rewrite Htext, (linesOf_joinLines _ Hnl).
    unfold recordOfResidue. cbn [trim trimStart trimEnd rev app].
    apply app_nil_r.
  - rewrite stream_whole.
    destruct (decode newDecoder (List.concat cs)) as [d' decoded]. cbn [snd] in Htext.
    subst decoded. rewrite processLines_linesOf, (linesOf_joinLines _ Hnl).
    cbn [fst snd endOf].
    pose proof (countIf_isLineError_finish_empty JSON_parse cb) as F.
    destruct (finish JSON_parse cb []) as [st tr']. cbn [snd] in *.
    rewrite countIf_after_fetch, countIf_app, F, countIf_isLineError_lines.
    cbn [isLineError]. lia.
Qed.

Lemma stream_lines_accounted_witness :
  delivered
    (snd (stream Examples.defaults Json.parse Examples.quietCallbacks None
            (Resolves (bodyOf false EndDone
                         [lit "{}" ++ [10] ++ lit "oops" ++ [10; 32; 10] ++ lit "[1]" ++ [10]]))
            (lit "chat") VNull))
  = [VObj []; VArr [Json.number 1]]
  /\ countIf isLineError
       (snd (stream Examples.defaults Json.parse Examples.quietCallbacks None
               (Resolves (bodyOf false EndDone
                            [lit "{}" ++ [10] ++ lit "oops" ++ [10; 32; 10] ++ lit "[1]" ++ [10]]))
               (lit "chat") VNull))
     = 1%nat.
Proof.
  exact (stream_lines_accounted Examples.defaults Json.parse Examples.quietCallbacks
           (lit "chat") VNull
           [lit "{}" ++ [10] ++ lit "oops" ++ [10; 32; 10] ++ lit "[1]" ++ [10]]
           [lit "{}"; lit "oops"; [32]; lit "[1]"] eq_refl eq_refl).
Defined.

(** ** stream with closures *)

Section StatefulFacts.

Variable State : Type.
Variable cfg : config.
Variable JSON_parse : jsstring -> completion value.
Variable onChunk : State -> value -> State * completion unit.
Variable onDone : option (State -> State * completion unit).

Lemma linesRun_app : forall a b s,
  Session.linesRun State JSON_parse onChunk (a ++ b) s =
    let '(s1, tr) := Session.linesRun State JSON_parse onChunk a s in
    let '(s2, tr') := Session.linesRun State JSON_parse onChunk b s1 in
    (s2, tr ++ tr').
Proof.
  induction a as [|l a IH]; intros b s.
  - cbn [app Session.linesRun].
    destruct (Session.linesRun State JSON_parse onChunk b s). reflexivity.
  - cbn [app Session.linesRun].
    destruct (Session.lineStep State JSON_parse onChunk l s) as [s1 t1].
    rewrite IH.
    destruct (Session.linesRun State JSON_parse onChunk a s1) as [s2 t2].
    destruct (Session.linesRun State JSON_parse onChunk b s2) as [s3 t3].
    now rewrite app_assoc.
Qed.

Lemma session_lineLoop_linesOf : forall fuel b s,
  (List.length b < fuel)%nat ->
  Session.lineLoop State JSON_parse onChunk fuel b s =
    let '(s', tr) := Session.linesRun State JSON_parse onChunk (fst (linesOf b)) s in
    Some (snd (linesOf b), s', tr).
Proof.
  induction fuel as [|fuel IH]; intros b s Hlen; [lia|].
  cbn [Session.lineLoop]. pose proof (indexOf_newline b) as H.
  destruct (indexOf b [10]) as [k|].
  - destruct H as [H Hlt]. rewrite H. cbn [fst snd Session.linesRun].
    unfold Session.lineStep.
    destruct (if nonEmpty (trim (sliceTo b k))
              then Session.deliver State JSON_parse onChunk
                     (lit "Error parsing JSON:") (trim (sliceTo b k)) s
              else (s, [])) as [s1 t1].
    rewrite IH by lia.
    destruct (Session.linesRun State JSON_parse onChunk
                (fst (linesOf (sliceFrom b (k + 1)))) s1) as [s2 t2].
    reflexivity.
  - rewrite H. reflexivity.
Qed.

Lemma session_processLines_linesOf : forall b s,
  Session.processLines State JSON_parse onChunk b s =
    let '(s', tr) := Session.linesRun State JSON_parse onChunk (fst (linesOf b)) s in
    (snd (linesOf b), s', tr).
Proof.
  intros b s. unfold Session.processLines.
  rewrite session_lineLoop_linesOf by lia.
  destruct (Session.linesRun State JSON_parse onChunk (fst (linesOf b)) s).
  reflexivity.
Qed.

Lemma session_processLines_app : forall a b s,
  Session.processLines State JSON_parse onChunk (a ++ b) s =
    let '(ra, s1, ta) := Session.processLines State JSON_parse onChunk a s in
    let '(rb, s2, tb) := Session.processLines State JSON_parse onChunk (ra ++ b) s1 in
    (rb, s2, ta ++ tb).
Proof.
  intros a b s.
  rewrite (session_processLines_linesOf (a ++ b)), (session_processLines_linesOf a).
  rewrite linesOf_app.
  destruct (linesOf a) as [la ra]. cbn [fst snd].
  destruct (linesOf (ra ++ b)) as [lb rb] eqn:E. cbn [fst snd].
  rewrite linesRun_app.
  destruct (Session.linesRun State JSON_parse onChunk la s) as [s1 t1].
  rewrite session_processLines_linesOf, E. cbn [fst snd].
  destruct (Session.linesRun State JSON_parse onChunk lb s1) as [s2 t2].
  reflexivity.
Qed.

(** Without a cancellation and with the reading loop running, the session
    is that of the whole payload read as one chunk. *)
Lemma session_readLoop_whole : forall fin pending k d buffer s,
  linesOf buffer = ([], buffer) ->
  Session.readLoop State JSON_parse onChunk onDone None false fin k pending d buffer s =
    let '(d', decoded) := decode d (List.concat pending) in
    let '(buffer', s1, tr) :=
      Session.processLines State JSON_parse onChunk (buffer ++ decoded) s in
    let '(st, s2, tr') := Session.endOf State JSON_parse onChunk onDone fin buffer' s1 in
    (st, s2, tr ++ tr').
Proof.
  intros fin. induction pending as [|value pending IH]; intros k d buffer s Hb.
  - cbn [Session.readLoop List.concat decode Session.cancelled].
    rewrite app_nil_r, session_processLines_linesOf, Hb.
    cbn [fst snd Session.linesRun].
    unfold Session.endOf. destruct fin as [|n m|].
    + destruct (Session.finish State JSON_parse onChunk onDone buffer s) as [[? ?] ?].
      reflexivity.
    + destruct (Session.catchBlock State onDone false (PlatformError n m) s) as [[? ?] ?].
      reflexivity.
    + reflexivity.
  - cbn [Session.readLoop List.concat Session.cancelled]. rewrite decode_app.
    destruct (decode d value) as [d1 t1].
    destruct (Session.processLines State JSON_parse onChunk (buffer ++ t1) s)
      as [[b1 s1] tr1] eqn:P1.
    assert (Hb1 : linesOf b1 = ([], b1)).
    { rewrite session_processLines_linesOf in P1.
      destruct (Session.linesRun State JSON_parse onChunk
                  (fst (linesOf (buffer ++ t1))) s) as [sx tx].
      injection P1 as <- _ _. apply linesOf_residue. }
    rewrite (IH (S k) d1 b1 s1 Hb1).
    destruct (decode d1 (List.concat pending)) as [d2 t2].
    rewrite (app_assoc buffer t1 t2), (session_processLines_app (buffer ++ t1) t2), P1.
    destruct (Session.processLines State JSON_parse onChunk (b1 ++ t2) s1)
      as [[b2 s2] tr2].
    destruct (Session.endOf State JSON_parse onChunk onDone fin b2 s2) as [[st s3] tr'].
    now rewrite app_assoc.
Qed.

Lemma session_stream_whole : forall endpoint data fin cs s,
  Session.stream State cfg JSON_parse onChunk onDone None
    (Resolves (bodyOf false fin cs)) endpoint data s =
    let '(d', decoded) := decode newDecoder (List.concat cs) in
    let '(buffer', s1, tr) := Session.processLines State JSON_parse onChunk decoded s in
    let '(st, s2, tr') := Session.endOf State JSON_parse onChunk onDone fin buffer' s1 in
    (st, s2, EvFetch (apiUrl cfg ++ lit "/" ++ endpoint) data :: tr ++ tr').
Proof.
  intros endpoint data fin cs s. unfold Session.stream, bodyOf.
  cbn [Session.cancelled ok body negb closed chunks ending_].
  rewrite session_readLoop_whole by reflexivity. cbn [app].
  destruct (decode newDecoder (List.concat cs)) as [d' decoded].
  destruct (Session.processLines State JSON_parse onChunk decoded s) as [[buffer' s1] tr].
  destruct (Session.endOf State JSON_parse onChunk onDone fin buffer' s1) as [[st s2] tr'].
  reflexivity.
Qed.

(** The state after the lines of a text is the state after their records. *)
Lemma fst_session_deliver : forall what t s,
  fst (Session.deliver State JSON_parse onChunk what t s) =
    Session.afterRecords State onChunk
      (match JSON_parse t with Normal v => [v] | Throw _ => [] end) s.
Proof.
  intros what t s. unfold Session.deliver, Session.afterRecords.
  destruct (JSON_parse t) as [v|e]; [|reflexivity].
  cbn [fold_left]. destruct (onChunk s v) as [s' [u|e]]; reflexivity.
Qed.

Lemma afterRecords_app : forall a b s,
  Session.afterRecords State onChunk (a ++ b) s =
    Session.afterRecords State onChunk b (Session.afterRecords State onChunk a s).
Proof. intros. unfold Session.afterRecords. apply fold_left_app. Qed.

Lemma fst_session_linesRun : forall ls s,
  fst (Session.linesRun State JSON_parse onChunk ls s) =
    Session.afterRecords State onChunk (flat_map (recordOfLine JSON_parse) ls) s.
Proof.
  induction ls as [|l ls IH]; intros s; [reflexivity|].
  cbn [Session.linesRun flat_map]. rewrite afterRecords_app, <- IH.
  assert (E : fst (Session.lineStep State JSON_parse onChunk l s) =
              Session.afterRecords State onChunk (recordOfLine JSON_parse l) s).
  { unfold Session.lineStep, recordOfLine, nonEmpty.
    destruct (trim l) as [|c t] eqn:T; [reflexivity|].
    cbn [negb]. apply fst_session_deliver. }
  destruct (Session.lineStep State JSON_parse onChunk l s) as [s1 t1].
  cbn [fst] in E. subst s1.
  destruct (Session.linesRun State JSON_parse onChunk ls
              (Session.afterRecords State onChunk (recordOfLine JSON_parse l) s)).
  reflexivity.
Qed.

(** The outcome and the final state of a session whose reading loop runs:
    the callbacks are called with the records of the payload, in order, and
    then the session ends. *)
Lemma session_stream_state : forall endpoint data fin cs s,
  fst (Session.stream State cfg JSON_parse onChunk onDone None
         (Resolves (bodyOf false fin cs)) endpoint data s) =
    Session.ended State onDone fin
      (Session.afterRecords State onChunk (recordsOf JSON_parse fin (List.concat cs)) s).
Proof.
  intros endpoint data fin cs s. rewrite session_stream_whole. unfold recordsOf.
  destruct (decode newDecoder (List.concat cs)) as [d' decoded]. cbn [snd].
  rewrite session_processLines_linesOf.
  pose proof (fst_session_linesRun (fst (linesOf decoded)) s) as L.
  destruct (Session.linesRun State JSON_parse onChunk (fst (linesOf decoded)) s)
    as [s1 tr1]. cbn [fst] in L. subst s1.
  destruct (linesOf decoded) as [ls r]. cbn [fst snd].
  rewrite afterRecords_app.
  set (s1 := Session.afterRecords State onChunk (flat_map (recordOfLine JSON_parse) ls) s).
  unfold Session.endOf, Session.ended. destruct fin as [|n m|].
  - unfold Session.finish.
    assert (E : fst (if nonEmpty (trim r)
                     then Session.deliver State JSON_parse onChunk
                            (lit "Error parsing JSON from buffer:") r s1
                     else (s1, [])) =
                Session.afterRecords State onChunk (recordOfResidue JSON_parse r) s1).
    { unfold recordOfResidue, nonEmpty. destruct (trim r) as [|c t]; [reflexivity|].
      apply fst_session_deliver. }
    destruct (if nonEmpty (trim r)
              then Session.deliver State JSON_parse onChunk
                     (lit "Error parsing JSON from buffer:") r s1
              else (s1, [])) as [s2 tr2].
    cbn [fst] in E. subst s2.
    destruct (Session.callOnDone State onDone
                (Session.afterRecords State onChunk (recordOfResidue JSON_parse r) s1))
      as [[s3 [u|e]] tr3]; [reflexivity|].
    unfold Session.catchBlock, Session.doneOnce. cbn [instanceofOllamaAPIError].
    destruct (Session.callOnDone State onDone s3) as [[s4 r4] tr4].
    destruct (instanceofOllamaAPIError e); reflexivity.
  - unfold Session.catchBlock, Session.doneOnce. cbn [Session.afterRecords fold_left].
    destruct (Session.callOnDone State onDone s1) as [[s4 r4] tr4]. reflexivity.
  - reflexivity.
Qed.

End StatefulFacts.

(** ** queryStream *)

Lemma textUpdates_app : forall a b,
  Streaming.textUpdates (a ++ b) = Streaming.textUpdates a ++ Streaming.textUpdates b.
Proof. intros. apply flat_map_app. Qed.

Lemma completions_app : forall a b,
  Streaming.completions (a ++ b) = Streaming.completions a ++ Streaming.completions b.
Proof. intros. apply flat_map_app. Qed.

Section QueryStreamFacts.

Import Streaming.

Variable cfg : config.
Variable JSON_parse : jsstring -> completion value.
Variable systemPrompt : jsstring.
Variable callbacks : streamCallbacks.
Variable ToString : value -> jsstring.

Lemma afterTextUpdate_keeps : forall s,
  fullResponse (fst (afterTextUpdate JSON_parse callbacks s)) = fullResponse s
  /\ textUpdates (made (fst (afterTextUpdate JSON_parse callbacks s)))
     = textUpdates (made s)
  /\ completions (made (fst (afterTextUpdate JSON_parse callbacks s)))
     = completions (made s).
Proof.
  intros s. unfold afterTextUpdate.
  destruct (truthy (extractStructuredData JSON_parse (VStr (fullResponse s)))
            && isGiven (onStructuredOutputUpdate callbacks)); [|auto].
  unfold invoke.
  destruct (onStructuredOutputUpdate callbacks) as [g|].
  - destruct (g (extractStructuredData JSON_parse (VStr (fullResponse s)))) as [u|e];
      [destruct (extractToolCalls (extractStructuredData JSON_parse (VStr (fullResponse s))))
         as [[tc|]|e]; [destruct (onToolCallsUpdate callbacks) as [h|]| |]|];
      cbn [fst fullResponse made];
      rewrite ?textUpdates_app, ?completions_app; cbn [textUpdates completions flat_map];
      rewrite ?app_nil_r; auto.
  - destruct (extractToolCalls (extractStructuredData JSON_parse (VStr (fullResponse s))))
      as [[tc|]|e]; [destruct (onToolCallsUpdate callbacks) as [h|]| |];
      cbn [fst fullResponse made];
      rewrite ?textUpdates_app, ?completions_app; cbn [textUpdates completions flat_map];
      rewrite ?app_nil_r; auto.
Qed.

(** One call of the chunk handler: the content of the record is appended,
    and [onTextUpdate] gets the text so far. *)
Lemma chunkHandler_step : forall s chunk,
  fullResponse (fst (chunkHandler JSON_parse callbacks ToString s chunk))
  = fullResponse s ++ (if hasContent chunk then contentText ToString chunk else [])
  /\ textUpdates (made (fst (chunkHandler JSON_parse callbacks ToString s chunk)))
     = textUpdates (made s)
       ++ (if hasContent chunk && isGiven (onTextUpdate callbacks)
           then [fullResponse s ++ contentText ToString chunk] else [])
  /\ completions (made (fst (chunkHandler JSON_parse callbacks ToString s chunk)))
     = completions (made s).
Proof.
  intros s chunk. unfold chunkHandler, hasContent, contentText, propOr.
  destruct (getProp chunk (lit "message")) as [message|e];
    [|cbn [fst truthy andb]; rewrite !app_nil_r; auto].
  destruct (truthy message) eqn:Tm; cbn [andb];
    [|cbn [fst]; rewrite !app_nil_r; auto].
  destruct (getProp message (lit "content")) as [content|e] eqn:G;
    [|destruct message; discriminate].
  destruct (truthy content) eqn:Tc;
    [|cbn [fst]; rewrite !app_nil_r; auto].
  unfold invoke, append. cbn [fullResponse made].
  destruct (onTextUpdate callbacks) as [g|]; cbn [isGiven].
  - destruct (g (fullResponse s ++ match content with VStr t => t | _ => ToString content end))
      as [u|e].
    + match goal with |- context [afterTextUpdate JSON_parse callbacks ?x] =>
        destruct (afterTextUpdate_keeps x) as (A & B & C) end.
      rewrite A, B, C. cbn [fullResponse made].
      rewrite textUpdates_app, completions_app. cbn [textUpdates completions flat_map].
      rewrite !app_nil_r.
      destruct content; auto.
    + cbn [fst fullResponse made].
      rewrite textUpdates_app, completions_app. cbn [textUpdates completions flat_map].
      rewrite !app_nil_r.
      destruct content; auto.
  - match goal with |- context [afterTextUpdate JSON_parse callbacks ?x] =>
      destruct (afterTextUpdate_keeps x) as (A & B & C) end.
    rewrite A, B, C. cbn [fullResponse made]. rewrite !app_nil_r.
    destruct content; auto.
Qed.

Lemma afterRecords_chunkHandler : forall records s,
  fullResponse (Session.afterRecords closure
                  (chunkHandler JSON_parse callbacks ToString) records s)
  = fullResponse s ++ fullText ToString records
  /\ textUpdates (made (Session.afterRecords closure
                          (chunkHandler JSON_parse callbacks ToString) records s))
     = textUpdates (made s)
       ++ (if isGiven (onTextUpdate callbacks)
           then runningTexts ToString (fullResponse s) records else [])
  /\ completions (made (Session.afterRecords closure
                          (chunkHandler JSON_parse callbacks ToString) records s))
     = completions (made s).
Proof.
  induction records as [|chunk records IH]; intros s.
  - cbn [Session.afterRecords fold_left fullText runningTexts].
    destruct (isGiven (onTextUpdate callbacks)); rewrite !app_nil_r; auto.
  - unfold Session.afterRecords. cbn [fold_left].
    fold (Session.afterRecords closure (chunkHandler JSON_parse callbacks ToString)
            records (fst (chunkHandler JSON_parse callbacks ToString s chunk))).
    destruct (IH (fst (chunkHandler JSON_parse callbacks ToString s chunk)))
      as (A & B & C).
    destruct (chunkHandler_step s chunk) as (A' & B' & C').
    rewrite A, B, C, A', B', C'. cbn [fullText runningTexts].
    destruct (hasContent chunk); cbn [andb];
      destruct (isGiven (onTextUpdate callbacks));
      rewrite ?app_nil_r, <- ?app_assoc; auto.
Qed.

Lemma doneHandler_keeps : forall s,
  fullResponse (fst (doneHandler JSON_parse callbacks s)) = fullResponse s
  /\ textUpdates (made (fst (doneHandler JSON_parse callbacks s))) = textUpdates (made s).
Proof.
  intros s. unfold doneHandler, invoke.
  destruct (if truthy (extractStructuredData JSON_parse (VStr (fullResponse s)))
            then extractToolCalls (extractStructuredData JSON_parse (VStr (fullResponse s)))
            else Normal None) as [tc|e]; [|auto].
  destruct (onComplete callbacks) as [f|]; [|auto].
  cbn [fst fullResponse made]. rewrite textUpdates_app. cbn [textUpdates flat_map].
  now rewrite app_nil_r.
Qed.

Lemma callOnDone_keeps : forall s,
  fullResponse (fst (fst (Session.callOnDone closure
                            (Some (doneHandler JSON_parse callbacks)) s)))
  = fullResponse s
  /\ textUpdates (made (fst (fst (Session.callOnDone closure
                                    (Some (doneHandler JSON_parse callbacks)) s))))
     = textUpdates (made s).
Proof.
  intros s. unfold Session.callOnDone. pose proof (doneHandler_keeps s) as H.
  destruct (doneHandler JSON_parse callbacks s) as [s' r]. exact H.
Qed.

Lemma ended_keeps : forall fin s,
  fullResponse (snd (Session.ended closure (Some (doneHandler JSON_parse callbacks)) fin s))
  = fullResponse s
  /\ textUpdates (made (snd (Session.ended closure
                               (Some (doneHandler JSON_parse callbacks)) fin s)))
     = textUpdates (made s).
Proof.
  intros fin s. unfold Session.ended, Session.doneOnce. destruct fin as [|n m|].
  - pose proof (callOnDone_keeps s) as [A B].
    destruct (Session.callOnDone closure (Some (doneHandler JSON_parse callbacks)) s)
      as [[s1 [u|e]] tr1]; cbn [fst snd] in *; [auto|].
    pose proof (callOnDone_keeps s1) as [A' B'].
    destruct (Session.callOnDone closure (Some (doneHandler JSON_parse callbacks)) s1)
      as [[s2 r2] tr2]; cbn [fst snd] in *.
    split; congruence.
  - pose proof (callOnDone_keeps s) as [A B].
    destruct (Session.callOnDone closure (Some (doneHandler JSON_parse callbacks)) s)
      as [[s1 r1] tr1]; cbn [fst snd] in *. auto.
  - auto.
Qed.

Lemma queryStream_state : forall fin cs q,
  fst (queryStream cfg JSON_parse systemPrompt callbacks ToString None
         (Resolves (bodyOf false fin cs)) q) =
    Session.ended closure (Some (doneHandler JSON_parse callbacks)) fin
      (Session.afterRecords closure (chunkHandler JSON_parse callbacks ToString)
         (recordsOf JSON_parse fin (List.concat cs)) initial).
Proof. intros fin cs q. unfold queryStream. apply session_stream_state. Qed.

(** The [catch] block of [stream], entered before anything was read. *)
Lemma catchBlock_initial : forall aborted e,
  fst (Session.catchBlock closure (Some (doneHandler JSON_parse callbacks)) aborted e
         initial) =
    (match onComplete callbacks with
     | Some f => match f emptyResponse with Normal _ => Finished | Throw x => Unhandled x end
     | None => Finished
     end,
     {| fullResponse := [];
        made := match onComplete callbacks with
                | Some _ => [Complete emptyResponse]
                | None => []
                end |}).
Proof.
  intros aborted e. unfold Session.catchBlock, Session.callOnDone, doneHandler, invoke.
  cbn [initial fullResponse made]. change (extractStructuredData JSON_parse (VStr []))
    with VUndefined. cbn [truthy].
  fold emptyResponse.
  destruct (onComplete callbacks) as [f|]; [destruct (f emptyResponse)|]; reflexivity.
Qed.

End QueryStreamFacts.

(** X19: the text of a streaming query is the content of the records, in
    order.  When the reading loop runs and nothing cancels, [fullResponse]
    ends as the concatenation of the contents of the records the payload
    stands for, and [onTextUpdate], if given, was called once per record
    with content, each time with the text accumulated so far; neither
    depends on what any callback throws. *)
Theorem queryStream_running_text :
  forall cfg JSON_parse systemPrompt callbacks ToString fin cs q,
    Streaming.fullResponse
      (snd (fst (Streaming.queryStream cfg JSON_parse systemPrompt callbacks ToString
                   None (Resolves (bodyOf false fin cs)) q)))
    = Streaming.fullText ToString (recordsOf JSON_parse fin (List.concat cs))
    /\ Streaming.textUpdates
         (Streaming.made
            (snd (fst (Streaming.queryStream cfg JSON_parse systemPrompt callbacks
                         ToString None (Resolves (bodyOf false fin cs)) q))))
       = if Streaming.isGiven (Streaming.onTextUpdate callbacks)
         then Streaming.runningTexts ToString []
                (recordsOf JSON_parse fin (List.concat cs))
         else [].
Proof.
  intros cfg JSON_parse systemPrompt callbacks ToString fin cs q.
  rewrite queryStream_state.
  destruct (ended_keeps JSON_parse callbacks fin
              (Session.afterRecords Streaming.closure
                 (Streaming.chunkHandler JSON_parse callbacks ToString)
                 (recordsOf JSON_parse fin (List.concat cs)) Streaming.initial))
    as [A B].
  destruct (afterRecords_chunkHandler JSON_parse callbacks ToString
              (recordsOf JSON_parse fin (List.concat cs)) Streaming.initial)
    as (A' & B' & _).
  rewrite A, B, A', B'. split; reflexivity.
Qed.

(** X20: a streaming query that comes to an end completes once.  When the
    reading loop runs to the end of the stream or to a failed read, the
    tool calls can be extracted from the whole text, and [onComplete]
    returns, then the session finishes and [onComplete] was called exactly
    once, with the whole text, what was extracted from it, and no error. *)
Theorem queryStream_completes_once :
  forall cfg JSON_parse systemPrompt callbacks ToString fin cs q f calls,
    Streaming.comesToAnEnd fin = true ->
    Streaming.onComplete callbacks = Some f ->
    Streaming.toolCallsOf JSON_parse ToString (recordsOf JSON_parse fin (List.concat cs))
    = Normal calls ->
    f (Streaming.responseOf JSON_parse ToString
         (recordsOf JSON_parse fin (List.concat cs)) calls) = Normal tt ->
    fst (fst (Streaming.queryStream cfg JSON_parse systemPrompt callbacks ToString
                None (Resolves (bodyOf false fin cs)) q)) = Finished
    /\ Streaming.completions
         (Streaming.made
            (snd (fst (Streaming.queryStream cfg JSON_parse systemPrompt callbacks
                         ToString None (Resolves (bodyOf false fin cs)) q))))
       = [Streaming.responseOf JSON_parse ToString
            (recordsOf JSON_parse fin (List.concat cs)) calls].
Proof.
  intros cfg JSON_parse systemPrompt callbacks ToString fin cs q f calls
         Hfin Hf Hcalls Hret.
  rewrite queryStream_state.
  destruct (afterRecords_chunkHandler JSON_parse callbacks ToString
              (recordsOf JSON_parse fin (List.concat cs)) Streaming.initial)
    as (A & _ & C).
  cbn [Streaming.initial Streaming.fullResponse Streaming.made app
       Streaming.completions flat_map] in A, C.
  set (s1 := Session.afterRecords Streaming.closure
               (Streaming.chunkHandler JSON_parse callbacks ToString)
               (recordsOf JSON_parse fin (List.concat cs)) Streaming.initial) in *.
  assert (D : Streaming.doneHandler JSON_parse callbacks s1 =
              ({| Streaming.fullResponse := Streaming.fullResponse s1;
                  Streaming.made :=
                    Streaming.made s1
                    ++ [Streaming.Complete
                          (Streaming.responseOf JSON_parse ToString
                             (recordsOf JSON_parse fin (List.concat cs)) calls)] |},
               Normal tt)).
  { unfold Streaming.doneHandler, Streaming.invoke. rewrite Hf, A.
    unfold Streaming.toolCallsOf, Streaming.structuredOf in Hcalls. rewrite Hcalls.
    unfold Streaming.responseOf, Streaming.structuredOf in Hret. rewrite Hret.
    reflexivity. }
  destruct fin as [|n m|]; [| |discriminate];
    unfold Session.ended, Session.doneOnce, Session.callOnDone; rewrite D;
    cbn [fst snd Streaming.made]; rewrite completions_app, C; split; reflexivity.
Qed.

Lemma queryStream_completes_once_witness :
  fst (fst (Streaming.queryStream Examples.defaults Json.parse
              (lit "You are an AI assistant.") Streaming.listening
              (fun _ => lit "[object Object]") None
              (Resolves (bodyOf false EndDone
                           [Streaming.chunkLine "Hel"; Streaming.chunkLine "lo"]))
              (lit "say hello"))) = Finished
  /\ Streaming.completions
       (Streaming.made
          (snd (fst (Streaming.queryStream Examples.defaults Json.parse
                       (lit "You are an AI assistant.") Streaming.listening
                       (fun _ => lit "[object Object]") None
                       (Resolves (bodyOf false EndDone
                                    [Streaming.chunkLine "Hel"; Streaming.chunkLine "lo"]))
                       (lit "say hello")))))
     = [{| text := VStr (lit "Hello"); structuredOutput := VUndefined;
           toolCalls := None; error := None |}].
Proof.
  exact (queryStream_completes_once Examples.defaults Json.parse
           (lit "You are an AI assistant.") Streaming.listening
           (fun _ => lit "[object Object]") EndDone
           [Streaming.chunkLine "Hel"; Streaming.chunkLine "lo"] (lit "say hello")
           (fun _ => Normal tt) None eq_refl eq_refl eq_refl eq_refl).
Defined.

(** X21: a streaming query whose connection fails completes as if the reply
    were empty.  When the fetch rejects, or the status is bad, or the body
    is null, whether or not the caller cancels, the only call made is one
    of [onComplete], if given, with the empty text and no error; the
    session ends with what that call throws, if it throws. *)
Theorem queryStream_failed_connection :
  forall cfg JSON_parse systemPrompt callbacks ToString cancelAt conn q,
    connectionFails conn = true ->
    fst (Streaming.queryStream cfg JSON_parse systemPrompt callbacks ToString
           cancelAt conn q)
    = (match Streaming.onComplete callbacks with
       | Some f =>
           match f Streaming.emptyResponse with
           | Normal _ => Finished
           | Throw x => Unhandled x
           end
       | None => Finished
       end,
       {| Streaming.fullResponse := [];
          Streaming.made :=
            match Streaming.onComplete callbacks with
            | Some _ => [Streaming.Complete Streaming.emptyResponse]
            | None => []
            end |}).
Proof.
  intros cfg JSON_parse systemPrompt callbacks ToString cancelAt conn q H.
  unfold Streaming.queryStream, Session.stream.
  assert (K : forall aborted e pre,
            fst (let '(st, s', tr) :=
                   Session.catchBlock Streaming.closure
                     (Some (Streaming.doneHandler JSON_parse callbacks)) aborted e
                     Streaming.initial in
                 (st, s', pre ++ tr))
            = fst (Session.catchBlock Streaming.closure
                     (Some (Streaming.doneHandler JSON_parse callbacks)) aborted e
                     Streaming.initial)).
  { intros aborted e pre.
    destruct (Session.catchBlock Streaming.closure
                (Some (Streaming.doneHandler JSON_parse callbacks)) aborted e
                Streaming.initial) as [[st s'] tr]. reflexivity. }
  destruct (Session.cancelled cancelAt 0).
  - change (?a ++ EvAbort :: ?t) with (a ++ [EvAbort] ++ t).
    rewrite <- (catchBlock_initial JSON_parse callbacks true AbortError).
    destruct (Session.catchBlock Streaming.closure
                (Some (Streaming.doneHandler JSON_parse callbacks)) true AbortError
                Streaming.initial) as [[st s'] tr]. reflexivity.
  - destruct conn as [response|n m|]; [| |discriminate].
    + cbn [connectionFails] in H. destruct (ok response); cbn [negb orb] in *.
      * destruct (body response) as [reader|]; [discriminate|].
        rewrite K. apply catchBlock_initial.
      * destruct (Platform.text response) as [t|n m].
        -- rewrite <- (catchBlock_initial JSON_parse callbacks false
                         (OllamaAPIError (lit "API error: " ++ t)
                            (Some (status response)))).
           destruct (Session.catchBlock Streaming.closure
                       (Some (Streaming.doneHandler JSON_parse callbacks)) false
                       (OllamaAPIError (lit "API error: " ++ t) (Some (status response)))
                       Streaming.initial) as [[st s'] tr]. reflexivity.
        -- rewrite K. apply catchBlock_initial.
    + rewrite K. apply catchBlock_initial.
Qed.

Lemma queryStream_failed_connection_witness :
  fst (Streaming.queryStream Examples.defaults Json.parse
         (lit "You are an AI assistant.") Streaming.listening
         (fun _ => lit "[object Object]") None (Resolves Examples.serverError)
         (lit "say hello"))
  = (Finished,
     {| Streaming.fullResponse := [];
        Streaming.made := [Streaming.Complete Streaming.emptyResponse] |}).
Proof.
  exact (queryStream_failed_connection Examples.defaults Json.parse
           (lit "You are an AI assistant.") Streaming.listening
           (fun _ => lit "[object Object]") None (Resolves Examples.serverError)
           (lit "say hello") eq_refl).
Defined.

(** X22: behind a reader whose [closed] is truthy a streaming query calls
    nothing.  The reading loop of [stream] does not run, so the session
    finishes with none of the caller's callbacks called, [onComplete]
    included, whatever the body holds. *)
Theorem queryStream_closed_reader_silent :
  forall cfg JSON_parse systemPrompt callbacks ToString response reader q,
    ok response = true ->
    body response = Some reader ->
    closed reader = true ->
    fst (Streaming.queryStream cfg JSON_parse systemPrompt callbacks ToString None
           (Resolves response) q)
    = (Finished, Streaming.initial).
Proof.
  intros cfg JSON_parse systemPrompt callbacks ToString response reader q Hok Hb Hc.
  unfold Streaming.queryStream, Session.stream. cbn [Session.cancelled].
  rewrite Hok, Hb. cbn [negb].
  destruct (chunks reader); cbn [Session.readLoop]; rewrite Hc; reflexivity.
Qed.

Lemma queryStream_closed_reader_silent_witness :
  fst (Streaming.queryStream Examples.defaults Json.parse
         (lit "You are an AI assistant.") Streaming.listening
         (fun _ => lit "[object Object]") None
         (Resolves (bodyOf true EndDone [Streaming.chunkLine "Hello"]))
         (lit "say hello"))
  = (Finished, Streaming.initial).
Proof.
  exact (queryStream_closed_reader_silent Examples.defaults Json.parse
           (lit "You are an AI assistant.") Streaming.listening
           (fun _ => lit "[object Object]")
           (bodyOf true EndDone [Streaming.chunkLine "Hello"])
           {| closed := true; chunks := [Streaming.chunkLine "Hello"];
              ending_ := EndDone |}
           (lit "say hello") eq_refl eq_refl eq_refl).
Defined.

Section StatefulDone.

Variable State : Type.
Variable cfg : config.
Variable JSON_parse : jsstring -> completion value.
Variable onChunk : State -> value -> State * completion unit.
Variable onDone : option (State -> State * completion unit).

Lemma countIf_isDone_session_deliver : forall what t s,
  countIf isDone (snd (Session.deliver State JSON_parse onChunk what t s)) = 0%nat.
Proof.
  intros what t s. unfold Session.deliver.
  destruct (JSON_parse t) as [v|e]; [|reflexivity].
  destruct (onChunk s v) as [s' [u|e]]; reflexivity.
Qed.

Lemma countIf_isDone_session_linesRun : forall ls s,
  countIf isDone (snd (Session.linesRun State JSON_parse onChunk ls s)) = 0%nat.
Proof.
  induction ls as [|l ls IH]; intros s; [reflexivity|].
  cbn [Session.linesRun].
  assert (E : countIf isDone (snd (Session.lineStep State JSON_parse onChunk l s)) = 0%nat).
  { unfold Session.lineStep. destruct (nonEmpty (trim l)); [|reflexivity].
    apply countIf_isDone_session_deliver. }
  destruct (Session.lineStep State JSON_parse onChunk l s) as [s1 t1].
  specialize (IH s1).
  destruct (Session.linesRun State JSON_parse onChunk ls s1) as [s2 t2].
  cbn [snd] in *. now rewrite countIf_app, E, IH.
Qed.

(** How often [onDone] is called when the body ends: once when the call
    returns, twice when it throws, the second call being that of the
    [catch] block. *)
Lemma session_stream_done_count : forall endpoint data cs s,
  countIf isDone
    (snd (Session.stream State cfg JSON_parse onChunk onDone None
            (Resolves (bodyOf false EndDone cs)) endpoint data s)) =
    match onDone with
    | None => 0%nat
    | Some f =>
        match snd (f (Session.afterRecords State onChunk
                        (recordsOf JSON_parse EndDone (List.concat cs)) s)) with
        | Normal _ => 1%nat
        | Throw _ => 2%nat
        end
    end.
Proof.
  intros endpoint data cs s. rewrite session_stream_whole. unfold recordsOf.
  destruct (decode newDecoder (List.concat cs)) as [d' decoded]. cbn [snd].
  rewrite session_processLines_linesOf.
  pose proof (fst_session_linesRun State JSON_parse onChunk (fst (linesOf decoded)) s) as L.
  pose proof (countIf_isDone_session_linesRun (fst (linesOf decoded)) s) as C.
  destruct (Session.linesRun State JSON_parse onChunk (fst (linesOf decoded)) s)
    as [s1 tr1]. cbn [fst snd] in L, C. subst s1.
  destruct (linesOf decoded) as [ls r]. cbn [fst snd] in *.
  rewrite afterRecords_app.
  set (s1 := Session.afterRecords State onChunk (flat_map (recordOfLine JSON_parse) ls) s).
  unfold Session.endOf, Session.finish.
  assert (E : fst (if nonEmpty (trim r)
                   then Session.deliver State JSON_parse onChunk
                          (lit "Error parsing JSON from buffer:") r s1
                   else (s1, [])) =
              Session.afterRecords State onChunk (recordOfResidue JSON_parse r) s1
              /\ countIf isDone
                   (snd (if nonEmpty (trim r)
                         then Session.deliver State JSON_parse onChunk
                                (lit "Error parsing JSON from buffer:") r s1
                         else (s1, []))) = 0%nat).
  { unfold recordOfResidue, nonEmpty. destruct (trim r) as [|c t]; [split; reflexivity|].
    split; [apply fst_session_deliver|apply countIf_isDone_session_deliver]. }
  destruct (if nonEmpty (trim r)
            then Session.deliver State JSON_parse onChunk
                   (lit "Error parsing JSON from buffer:") r s1
            else (s1, [])) as [s2 tr2].
  cbn [fst snd] in E. destruct E as [E C2]. subst s2.
  unfold Session.callOnDone. destruct onDone as [f|].
  - destruct (f (Session.afterRecords State onChunk (recordOfResidue JSON_parse r) s1))
      as [s3 [u|e]]; cbn [snd].
    + rewrite countIf_after_fetch, !countIf_app, C, C2. reflexivity.
    + unfold Session.catchBlock, Session.callOnDone.
      destruct (f s3) as [s4 r4]. cbn [snd].
      rewrite countIf_after_fetch, !countIf_app, C, C2.
      destruct (instanceofOllamaAPIError e); reflexivity.
  - cbn [snd]. rewrite countIf_after_fetch, !countIf_app, C, C2. reflexivity.
Qed.

End StatefulDone.

(** X23: a streamed reply whose payload is a primitive never completes.
    When the stream ends and the value extracted from the whole text is a
    truthy primitive, the done handler throws a TypeError at the tool
    calls, the [catch] block of [stream] calls it a second time, and the
    TypeError of that call is left unhandled; [onComplete] is not
    called. *)
Theorem queryStream_primitive_payload :
  forall cfg JSON_parse systemPrompt callbacks ToString cs q,
    truthy (Streaming.structuredOf JSON_parse ToString
              (recordsOf JSON_parse EndDone (List.concat cs))) = true ->
    isPrimitive (Streaming.structuredOf JSON_parse ToString
                   (recordsOf JSON_parse EndDone (List.concat cs))) = true ->
    (exists m,
       fst (fst (Streaming.queryStream cfg JSON_parse systemPrompt callbacks ToString
                   None (Resolves (bodyOf false EndDone cs)) q))
       = Unhandled (PlatformError (lit "TypeError") m))
    /\ countIf isDone
         (snd (Streaming.queryStream cfg JSON_parse systemPrompt callbacks ToString
                 None (Resolves (bodyOf false EndDone cs)) q)) = 2%nat
    /\ Streaming.completions
         (Streaming.made
            (snd (fst (Streaming.queryStream cfg JSON_parse systemPrompt callbacks
                         ToString None (Resolves (bodyOf false EndDone cs)) q))))
       = [].
Proof.
  intros cfg JSON_parse systemPrompt callbacks ToString cs q Ht Hp.
  destruct (afterRecords_chunkHandler JSON_parse callbacks ToString
              (recordsOf JSON_parse EndDone (List.concat cs)) Streaming.initial)
    as (A & _ & C).
  cbn [Streaming.initial Streaming.fullResponse Streaming.made app
       Streaming.completions flat_map] in A, C.
  assert (D : exists m,
            Streaming.doneHandler JSON_parse callbacks
              (Session.afterRecords Streaming.closure
                 (Streaming.chunkHandler JSON_parse callbacks ToString)
                 (recordsOf JSON_parse EndDone (List.concat cs)) Streaming.initial)
            = (Session.afterRecords Streaming.closure
                 (Streaming.chunkHandler JSON_parse callbacks ToString)
                 (recordsOf JSON_parse EndDone (List.concat cs)) Streaming.initial,
               Throw (PlatformError (lit "TypeError") m))).
  { unfold Streaming.doneHandler. rewrite A.
    unfold Streaming.structuredOf in Ht, Hp. rewrite Ht.
    destruct (extractToolCalls_primitive _ Ht Hp) as [m E]. rewrite E. now eexists. }
  destruct D as [m D]. split; [|split].
  - exists m. rewrite queryStream_state.
    unfold Session.ended, Session.doneOnce, Session.callOnDone. rewrite D.
    cbn [fst snd]. rewrite D. reflexivity.
  - unfold Streaming.queryStream. rewrite session_stream_done_count. now rewrite D.
  - rewrite queryStream_state.
    unfold Session.ended, Session.doneOnce, Session.callOnDone. rewrite D.
    cbn [fst snd]. rewrite D. exact C.
Qed.

(** A reply whose fenced block holds [true]. *)
Lemma queryStream_primitive_payload_witness :
  (exists m,
     fst (fst (Streaming.queryStream Examples.defaults Json.parse
                 (lit "You are an AI assistant.") Streaming.listening
                 (fun _ => lit "[object Object]") None
                 (Resolves (bodyOf false EndDone [Streaming.chunkLine "```json true```"]))
                 (lit "is it so?")))
     = Unhandled (PlatformError (lit "TypeError") m))
  /\ countIf isDone
       (snd (Streaming.queryStream Examples.defaults Json.parse
               (lit "You are an AI assistant.") Streaming.listening
               (fun _ => lit "[object Object]") None
               (Resolves (bodyOf false EndDone [Streaming.chunkLine "```json true```"]))
               (lit "is it so?"))) = 2%nat
  /\ Streaming.completions
       (Streaming.made
          (snd (fst (Streaming.queryStream Examples.defaults Json.parse
                       (lit "You are an AI assistant.") Streaming.listening
                       (fun _ => lit "[object Object]") None
                       (Resolves (bodyOf false EndDone
                                    [Streaming.chunkLine "```json true```"]))
                       (lit "is it so?")))))
     = [].
Proof.
  exact (queryStream_primitive_payload Examples.defaults Json.parse
           (lit "You are an AI assistant.") Streaming.listening
           (fun _ => lit "[object Object]")
           [Streaming.chunkLine "```json true```"] (lit "is it so?") eq_refl eq_refl).
Defined.

(** ** The two embeddings of stream agree

    With callbacks that keep no state, the session of [Session.stream] is
    the session of [stream]. *)

Section Stateless.

Variable cfg : config.
Variable JSON_parse : jsstring -> completion value.
Variable cb : callbacks.
Variable cancelAt : option nat.

Lemma stateless_callOnDone : forall u,
  Session.callOnDone unit (Session.doneClosure cb) u = (u, fst (callOnDone cb), snd (callOnDone cb)).
Proof.
  intros u. unfold Session.callOnDone, callOnDone, Session.doneClosure.
  destruct (onDone cb); reflexivity.
Qed.

Lemma stateless_deliver : forall what t u,
  Session.deliver unit JSON_parse (Session.chunkClosure cb) what t u
  = (u, deliver JSON_parse cb what t).
Proof.
  intros what t u. unfold Session.deliver, deliver, Session.chunkClosure.
  destruct (JSON_parse t) as [v|e]; [destruct (onChunk cb v)|]; reflexivity.
Qed.

Lemma stateless_lineLoop : forall fuel b u,
  Session.lineLoop unit JSON_parse (Session.chunkClosure cb) fuel b u
  = match lineLoop JSON_parse cb fuel b with
    | Some (b', tr) => Some (b', u, tr)
    | None => None
    end.
Proof.
  induction fuel as [|fuel IH]; intros b u; [reflexivity|].
  cbn [Session.lineLoop lineLoop].
  destruct (indexOf b [10]) as [k|]; [|reflexivity].
  destruct (nonEmpty (trim (sliceTo b k))).
  - rewrite stateless_deliver, IH.
    destruct (lineLoop JSON_parse cb fuel (sliceFrom b (k + 1))) as [[b' tr']|];
      reflexivity.
  - rewrite IH.
    destruct (lineLoop JSON_parse cb fuel (sliceFrom b (k + 1))) as [[b' tr']|];
      reflexivity.
Qed.

Lemma stateless_processLines : forall b u,
  Session.processLines unit JSON_parse (Session.chunkClosure cb) b u
  = (fst (processLines JSON_parse cb b), u, snd (processLines JSON_parse cb b)).
Proof.
  intros b u. unfold Session.processLines, processLines. rewrite stateless_lineLoop.
  destruct (lineLoop JSON_parse cb (S (List.length b)) b) as [[b' tr]|]; reflexivity.
Qed.

Lemma stateless_catchBlock : forall aborted e u,
  Session.catchBlock unit (Session.doneClosure cb) aborted e u
  = (fst (catchBlock cb aborted e), u, snd (catchBlock cb aborted e)).
Proof.
  intros aborted e u. unfold Session.catchBlock, catchBlock.
  rewrite stateless_callOnDone. destruct (callOnDone cb) as [r tr]. reflexivity.
Qed.

Lemma stateless_finish : forall b u,
  Session.finish unit JSON_parse (Session.chunkClosure cb) (Session.doneClosure cb) b u
  = (fst (finish JSON_parse cb b), u, snd (finish JSON_parse cb b)).
Proof.
  intros b u. unfold Session.finish, finish.
  assert (E : (if nonEmpty (trim b)
               then Session.deliver unit JSON_parse (Session.chunkClosure cb)
                      (lit "Error parsing JSON from buffer:") b u
               else (u, []))
              = (u, if nonEmpty (trim b)
                    then deliver JSON_parse cb (lit "Error parsing JSON from buffer:") b
                    else [])).
  { destruct (nonEmpty (trim b)); [apply stateless_deliver|reflexivity]. }
  rewrite E, stateless_callOnDone.
  destruct (callOnDone cb) as [[x|e] tr]; cbn [fst snd]; [reflexivity|].
  rewrite stateless_catchBlock.
  destruct (catchBlock cb false e) as [st tr'']. reflexivity.
Qed.

Lemma stateless_readLoop : forall isClosed fin pending k d b u,
  Session.readLoop unit JSON_parse (Session.chunkClosure cb) (Session.doneClosure cb) cancelAt
    isClosed fin k pending d b u
  = (fst (readLoop JSON_parse cb cancelAt isClosed fin k pending d b), u,
     snd (readLoop JSON_parse cb cancelAt isClosed fin k pending d b)).
Proof.
  intros isClosed fin.
  assert (C : forall k, Session.cancelled cancelAt k = cancelled cancelAt k)
    by reflexivity.
  induction pending as [|value pending IH]; intros k d b u.
  - cbn [Session.readLoop readLoop]. rewrite C.
    destruct isClosed; [reflexivity|].
    destruct (cancelled cancelAt k).
    + rewrite stateless_catchBlock.
      destruct (catchBlock cb true AbortError). reflexivity.
    + destruct fin as [|n m|];
        [apply stateless_finish|apply stateless_catchBlock|reflexivity].
  - cbn [Session.readLoop readLoop]. rewrite C.
    destruct isClosed; [reflexivity|].
    destruct (cancelled cancelAt k).
    + rewrite stateless_catchBlock.
      destruct (catchBlock cb true AbortError). reflexivity.
    + destruct (decode d value) as [d' decoded].
      rewrite stateless_processLines.
      destruct (processLines JSON_parse cb (b ++ decoded)) as [b' tr]. cbn [fst snd].
      rewrite IH.
      destruct (readLoop JSON_parse cb cancelAt false fin (S k) pending d' b').
      reflexivity.
Qed.

Lemma stateless_stream : forall conn endpoint data u,
  Session.stream unit cfg JSON_parse (Session.chunkClosure cb) (Session.doneClosure cb) cancelAt conn endpoint data u
  = (fst (stream cfg JSON_parse cb cancelAt conn endpoint data), u,
     snd (stream cfg JSON_parse cb cancelAt conn endpoint data)).
Proof.
  intros conn endpoint data u. unfold Session.stream, stream.
  change (Session.cancelled cancelAt 0) with (cancelled cancelAt 0).
  destruct (cancelled cancelAt 0).
  { rewrite stateless_catchBlock. destruct (catchBlock cb true AbortError). reflexivity. }
  destruct conn as [response|n m|]; [| |reflexivity].
  - destruct (ok response); cbn [negb].
    + destruct (body response) as [reader|].
      * rewrite stateless_readLoop.
        destruct (readLoop JSON_parse cb cancelAt (closed reader) (ending_ reader) 1
                    (chunks reader) newDecoder []). reflexivity.
      * rewrite stateless_catchBlock.
        destruct (catchBlock cb false (OllamaAPIError (lit "Response body is null") None)).
        reflexivity.
    + destruct (Platform.text response) as [t|n m]; rewrite stateless_catchBlock.
      * destruct (catchBlock cb false
                    (OllamaAPIError (lit "API error: " ++ t) (Some (status response)))).
        reflexivity.
      * destruct (catchBlock cb false (PlatformError n m)). reflexivity.
  - rewrite stateless_catchBlock.
    destruct (catchBlock cb false (PlatformError n m)). reflexivity.
Qed.

End Stateless.
